(** * Chunked speech recognition pipeline: a shallow embedding

    Source: [src/transformers/pipelines/automatic_speech_recognition.py].

    The embedding follows the Python text function by function:
    [rescale_stride], [chunk_iter], [_find_longest_common_sequence] and the
    methods [_sanitize_parameters], [preprocess], [_forward] and
    [postprocess] of [AutomaticSpeechRecognitionPipeline].  [__init__] and
    [__call__] are not modelled: the first only fixes [self.type], which is
    a parameter here, the second hands over to the base class.

    Conventions.
    - Python [int] is [Z]; Python [float] is modelled by the exact rational
      it denotes ([Q]), so [round] is exact round-half-to-even.  The
      counterexamples below only meet values that are exactly representable
      as doubles, or a single correctly rounded division.  The scores of
      the fuzzy stitcher are the exception: two of them can be equal as
      rationals and differ as doubles, so each operation on them is
      rounded to binary64 ([b64]).
    - A raised exception is a value of [exn]; a function that may raise
      returns [result]; a generator is the list of the items it yields
      together with the exception that ends it, if any ([gen]).  Messages
      that interpolate a value are cut before the interpolation, and the
      double quotes inside a message are written as single quotes.
    - Python dicts are [gmap string _].
    - The collaborators that the file imports (feature extractor, model,
      tokenizer, beam decoder, resampler, audio decoder) are variables of
      the section [Pipeline]. *)

From Stdlib Require Import ZArith QArith Qpower Lia Lqa List Sorted Bool.
From stdpp Require Import base option list strings gmap.

Local Open Scope string_scope.
Local Open Scope list_scope.
Local Open Scope Z_scope.

(** ** Exceptions and results *)

Inductive exn : Type :=
  | ValueError (msg : string)
  | ZeroDivisionError
  | KeyError (key : string)
  | TypeError
  | IndexError
  | AttributeError (attr : string).

Inductive result (A : Type) : Type :=
  | Ok (a : A)
  | Raise (e : exn).
Arguments Ok {A} a.
Arguments Raise {A} e.

Definition rbind {A B} (k : A -> result B) (r : result A) : result B :=
  match r with
  | Ok a => k a
  | Raise e => Raise e
  end.

#[export] Instance result_ret : MRet result := fun _ a => Ok a.
#[export] Instance result_bind : MBind result := fun _ _ k r => rbind k r.

Definition is_value_error {A} (r : result A) : Prop :=
  exists msg, r = Raise (ValueError msg).

(** A generator: what it yields, in order, and the exception that stops it
    ([None] when it is exhausted normally). *)
Definition gen (A : Type) : Type := (list A * option exn)%type.

Definition gen_raise {A} (e : exn) : gen A := ([], Some e).
Definition gen_yield {A} (a : A) (g : gen A) : gen A := (a :: fst g, snd g).

(** ** Python numbers *)

(** [round(x)] on a float: nearest integer, ties to the even one. *)
Definition py_round (x : Q) : Z :=
  let n := Qnum x in
  let d := Z.pos (Qden x) in
  let q := n / d in
  let r := n mod d in
  if 2 * r <? d then q
  else if d <? 2 * r then q + 1
  else if Z.even q then q else q + 1.

(** [a / b] on two ints (true division). *)
Definition py_truediv (a b : Z) : result Q :=
  if b =? 0 then Raise ZeroDivisionError
  else Ok (inject_Z a / inject_Z b)%Q.

(** [x < y] on floats. *)
Definition Qltb (x y : Q) : bool := negb (Qle_bool y x).

(** [int(x)] on a float: truncation towards zero. *)
Definition py_int (x : Q) : Z := Z.quot (Qnum x) (Z.pos (Qden x)).

(** [x / b] with a float numerator. *)
Definition py_qdiv (x : Q) (b : Q) : result Q :=
  if Qeq_bool b 0 then Raise ZeroDivisionError
  else Ok (x / b)%Q.

(** *** Doubles

    [b64 x] is the binary64 number nearest to the rational [x], ties to the
    even significand: what one IEEE 754 operation returns when its exact
    result is [x].  The exponent is not bounded, so overflow and subnormal
    numbers are left out; the stitcher only meets 0 and values between
    [2^-63] and [2^64]. *)

(** The exponent of the last bit of the significand: the [e] with
    [2^(e+52) <= x < 2^(e+53)], for a positive [x]. *)
Definition b64_exponent (x : Q) : Z :=
  let k := Z.log2 (Qnum x) - Z.log2 (QDen x) in
  (if Qle_bool (Qpower 2 k) x then k else k - 1) - 52.

Definition b64_pos (x : Q) : Q :=
  let e := b64_exponent x in
  (inject_Z (py_round (x / Qpower 2 e)) * Qpower 2 e)%Q.

Definition b64 (x : Q) : Q :=
  match Qnum x with
  | 0 => 0%Q
  | Z.pos _ => b64_pos x
  | Z.neg _ => (- b64_pos (- x))%Q
  end.

(** Half the distance between 1 and the next double: [2^-53]. *)
Definition b64_unit : Q := 1 # 9007199254740992.

(** [float(n)] on an int, and [x / y] and [x + y] on two doubles. *)
Definition py_float (n : Z) : Q := b64 (inject_Z n).
Definition fdiv (x y : Q) : Q := b64 (x / y).
Definition fadd (x y : Q) : Q := b64 (x + y).

(** ** Python sequences *)

(** Normalisation of one slice bound against a length. *)
Definition py_clamp (len k : Z) : Z :=
  if k <? 0 then Z.max (k + len) 0 else Z.min k len.

(** [l[lo:hi]], either bound possibly omitted. *)
Definition py_slice {A} (l : list A) (lo hi : option Z) : list A :=
  let n := Z.of_nat (length l) in
  let a := match lo with Some k => py_clamp n k | None => 0 end in
  let b := match hi with Some k => py_clamp n k | None => n end in
  take (Z.to_nat (b - a)) (drop (Z.to_nat a) l).

Definition py_len {A} (l : list A) : Z := Z.of_nat (length l).

(** The number of elements of [range(start, stop, step)] for a non-zero
    step, and the elements themselves. *)
Definition range_len (start stop step : Z) : Z :=
  if 0 <? step
  then (if start <? stop then (stop - start - 1) / step + 1 else 0)
  else (if stop <? start then (start - stop - 1) / (- step) + 1 else 0).

Definition range_list (start stop step : Z) : list Z :=
  map (fun k => start + Z.of_nat k * step)
      (seq 0 (Z.to_nat (range_len start stop step))).

(** [range(start, stop, step)], as the list it iterates over. *)
Definition py_range (start stop step : Z) : result (list Z) :=
  if step =? 0 then Raise (ValueError "range() arg 3 must not be zero")
  else Ok (range_list start stop step).

(** ** Strides *)

(** [(input_n, left, right)]. *)
Definition stride : Type := (Z * Z * Z)%type.

Definition st_total (s : stride) : Z := fst (fst s).
Definition st_left (s : stride) : Z := snd (fst s).
Definition st_right (s : stride) : Z := snd s.

(** The body of the loop of [rescale_stride]. *)
Definition rescale_one (ratio : Q) (s : stride) : result stride :=
  let '(input_n, left_, right_) := s in
  let token_n := py_round (inject_Z input_n * ratio) in
  l ← py_truediv left_ input_n;
  let left' := py_round (l * inject_Z token_n) in
  r ← py_truediv right_ input_n;
  let right' := py_round (r * inject_Z token_n) in
  Ok (token_n, left', right').

Definition rescale_stride (strides : list stride) (ratio : Q) : result (list stride) :=
  mapM (rescale_one ratio) strides.

(** [rescale_stride([stride], ratio)[0]] *)
Definition rescale_stride_single (s : stride) (ratio : Q) : result stride :=
  l ← rescale_stride [s] ratio;
  match l with
  | s' :: _ => Ok s'
  | [] => Raise IndexError
  end.

(** ** The fuzzy stitcher: [_find_longest_common_sequence] *)

(** [np.sum(np.array(a) == np.array(b))] on two 1-D arrays.  Equal lengths
    compare position by position; an array of length one is broadcast
    against the other; for any other pair of lengths the numpy the file was
    written against answers the scalar [False], whose sum is 0. *)
Definition np_eq_count (a b : list Z) : Z :=
  let hits (x y : list Z) :=
    py_len (filter (fun p => fst p = snd p) (zip x y)) in
  if decide (length a = length b) then hits a b
  else match a, b with
       | [x], _ => hits (replicate (length b) x) b
       | _, [y] => hits a (replicate (length a) y)
       | _, _ => 0
       end.

(** The inner [for i in range(1, len(new_sequence) + 1)] loop, carrying
    [index] and [max_].  [eps] and [matching] are doubles: [i / 10000.0]
    divides [float(i)] by a double, [matches / i] divides a numpy integer
    by an int, which numpy does on the two values converted to doubles,
    and the sum is rounded once more.  [max_] holds 0.0 or an earlier
    [matching]. *)
Fixpoint lcs_scan (sequence new_sequence : list Z) (idxs : list Z)
    (index : Z) (max_ : Q) : Z :=
  match idxs with
  | [] => index
  | i :: rest =>
      let eps := fdiv (py_float i) 10000 in
      let matches :=
        np_eq_count (py_slice sequence (Some (- i)) None)
                    (py_slice new_sequence None (Some i)) in
      let matching := fadd (fdiv (py_float matches) (py_float i)) eps in
      if (1 <? matches) && Qltb max_ matching
      then lcs_scan sequence new_sequence rest i matching
      else lcs_scan sequence new_sequence rest index max_
  end.

Definition lcs_index (sequence new_sequence : list Z) : Z :=
  lcs_scan sequence new_sequence
    (range_list 1 (py_len new_sequence + 1) 1) 0 0%Q.

(** One turn of the outer loop: [sequence.extend(new_sequence[index:])]. *)
Definition lcs_merge (sequence new_sequence : list Z) : list Z :=
  (sequence ++ py_slice new_sequence (Some (lcs_index sequence new_sequence)) None)%list.

Definition strip_special (all_special_ids : list Z) (toks : list Z) : list Z :=
  filter (fun t => t ∉ all_special_ids) toks.

(** [sequences] holds row 0 of each array; [sequences[0]] on an empty list
    is an [IndexError]. *)
Definition _find_longest_common_sequence
    (sequences : list (list Z)) (all_special_ids : list Z) : result (list Z) :=
  match sequences with
  | [] => Raise IndexError
  | first :: others =>
      Ok (foldl (fun sequence new_seq =>
                   lcs_merge sequence (strip_special all_special_ids new_seq))
                (strip_special all_special_ids first) others)
  end.

(** ** Values, parameters and records of the pipeline *)

(** One waveform sample. *)
Definition sample : Type := Q.

(** The Python values that an input dict carries.  [PArray shape data] is a
    [numpy.ndarray]; a waveform is [PArray [n] data] with [n] samples. *)
Inductive pyval : Type :=
  | PNone
  | PInt (z : Z)
  | PFloat (q : Q)
  | PStr (s : string)
  | PTuple2 (a b : Z)
  | PArray (shape : list Z) (data : list sample).

(** What [preprocess] can be called with. *)
Inductive pipeline_input : Type :=
  | InStr (s : string)
  | InBytes (b : list Byte.byte)
  | InDict (d : gmap string pyval)
  | InValue (v : pyval).

(** [self.type] *)
Inductive model_type : Type := Seq2seq | CtcWithLM | Ctc.

#[export] Instance model_type_eq_dec : EqDecision model_type.
Proof. solve_decision. Defined.

(** [stride_length_s]: one number, or a pair. *)
Inductive stride_length : Type :=
  | StrideNumber (s : Q)
  | StridePair (l r : Q).

(** [return_timestamps]: the two documented values. *)
Inductive timestamps_kind : Type := TsChar | TsWord.

#[export] Instance timestamps_kind_eq_dec : EqDecision timestamps_kind.
Proof. solve_decision. Defined.

(** The tensor key the feature extractor answers with. *)
Inductive feature_key : Type := InputFeatures | InputValues.

(** The three dicts that [_sanitize_parameters] returns. *)
Record preprocess_params : Type := {
  pp_chunk_length_s : option Q;
  pp_stride_length_s : option stride_length;
  pp_ignore_warning : option bool }.

Record forward_params : Type := {
  fp_generate_kwargs : gmap string pyval }.

Record postprocess_params : Type := {
  po_decoder_kwargs : option (gmap string pyval);
  po_return_timestamps : option timestamps_kind }.

(** [_sanitize_parameters] *)
Definition _sanitize_parameters
    (chunk_length_s : option Q) (stride_length_s : option stride_length)
    (ignore_warning : option bool) (decoder_kwargs : option (gmap string pyval))
    (return_timestamps : option timestamps_kind)
    (generate_kwargs : option (gmap string pyval)) (max_new_tokens : option Z)
    : result (preprocess_params * forward_params * postprocess_params) :=
  let preprocess_params :=
    {| pp_chunk_length_s := chunk_length_s;
       pp_stride_length_s := stride_length_s;
       pp_ignore_warning := ignore_warning |} in
  let gk0 : gmap string pyval :=
    match max_new_tokens with
    | Some n => <["max_new_tokens" := PInt n]> ∅
    | None => ∅
    end in
  gk ← match generate_kwargs with
       | Some g =>
           if bool_decide (is_Some max_new_tokens)
              && bool_decide (is_Some (g !! "max_new_tokens"))
           then Raise (ValueError
             "`max_new_tokens` is defined both as an argument and inside `generate_kwargs` argument, please use only 1 version")
           else Ok (g ∪ gk0)
       | None => Ok gk0
       end;
  let postprocess_params :=
    {| po_decoder_kwargs := decoder_kwargs;
       po_return_timestamps := return_timestamps |} in
  Ok (preprocess_params, {| fp_generate_kwargs := gk |}, postprocess_params).

(** An offset record of the tokenizer or of the beam decoder: the text of a
    character or word with its first and last frame. *)
Record offset : Type := {
  off_text : string;
  start_offset : Z;
  end_offset : Z }.

(** One entry of ["chunks"]. *)
Record text_chunk : Type := {
  tc_text : string;
  tc_timestamp : Q * Q }.

(** The timestamp loop of [postprocess]: frames to seconds. *)
Definition project_offset (inputs_to_logits_ratio sampling_rate : Q)
    (item : offset) : result text_chunk :=
  let start := (inject_Z (start_offset item) * inputs_to_logits_ratio)%Q in
  start ← py_qdiv start sampling_rate;
  let stop := (inject_Z (end_offset item) * inputs_to_logits_ratio)%Q in
  stop ← py_qdiv stop sampling_rate;
  Ok {| tc_text := off_text item; tc_timestamp := (start, stop) |}.

Definition project_offsets (inputs_to_logits_ratio sampling_rate : Q)
    (offsets : list offset) : result (list text_chunk) :=
  mapM (project_offset inputs_to_logits_ratio sampling_rate) offsets.

(** ** The pipeline *)

(** The names under which the pipeline itself files entries in the dicts
    that travel from [preprocess] to the result of [postprocess]. *)
Definition pipeline_keys : list string :=
  ["is_last"; "stride"; "input_features"; "input_values"; "attention_mask";
   "tokens"; "logits"; "text"; "chunks"].

(** A caller's dict that uses none of them. *)
Definition own_keys_free (extra : gmap string pyval) : Prop :=
  Forall (fun k => extra !! k = None) pipeline_keys.

Section Pipeline.

(** The processed tensor of one window, and one frame of logits. *)
Variables (feats logit : Type).

(** What the feature extractor answers: the tensor, the key it is filed
    under and [shape[-1]] of that tensor.  The answer always carries one
    of the two keys that [chunk_iter] looks for. *)
Record processed : Type := {
  p_key : feature_key;
  p_len : Z;
  p_data : feats }.

(** One item yielded by [preprocess].  [w_offset] and [w_chunk] are ghost
    fields: the start index [i] and the raw slice [inputs[i : i + chunk_len]]
    the item was computed from.  They are not keys of the yielded dict and
    no definition below reads them.

    The other fields are the parts of the dict display
    [{"is_last": ..., **processed, **extra}], in that order; the stride is
    an entry of [processed].  In Python a key of [extra] that is one of
    [pipeline_keys] replaces the entry written before it.  [_forward] and
    [postprocess] below read the fields, not the merged dict: they follow
    the source on the items whose [w_extra] is [own_keys_free], which
    includes every item of [chunk_iter]. *)
Record window : Type := {
  w_offset : Z;
  w_chunk : list sample;
  w_is_last : bool;
  w_stride : option stride;
  w_processed : processed;
  w_extra : gmap string pyval }.

(** *** [chunk_iter] *)

(** Lines 70-78 of [chunk_iter]: the stride attached to one window,
    rescaled when the feature extractor changed the length. *)
Definition window_stride (feature_extractor : list sample -> processed)
    (chunk : list sample) (_stride_left _stride_right : Z) : result stride :=
  let processed_len := p_len (feature_extractor chunk) in
  let chunk_len := py_len chunk in
  let stride0 : stride := (chunk_len, _stride_left, _stride_right) in
  if negb (processed_len =? py_len chunk)
  then ratio ← py_truediv processed_len chunk_len;
       rescale_stride_single stride0 ratio
  else Ok stride0.

(** The [for i in range(0, inputs_len, step)] loop.  [chunk_len] is
    threaded through the iterations because the body rebinds it
    ([chunk_len = chunk.shape[0]]).  The [dtype] conversion is left out:
    it changes neither keys nor shapes. *)
Fixpoint chunk_loop (feature_extractor : list sample -> processed)
    (inputs : list sample) (step stride_left stride_right : Z)
    (chunk_len : Z) (idxs : list Z) : gen window :=
  match idxs with
  | [] => ([], None)
  | i :: rest =>
      let inputs_len := py_len inputs in
      let chunk := py_slice inputs (Some i) (Some (i + chunk_len)) in
      let processed := feature_extractor chunk in
      let _stride_left := if i =? 0 then 0 else stride_left in
      let is_last := inputs_len <=? i + step + stride_left in
      let _stride_right := if is_last then 0 else stride_right in
      match window_stride feature_extractor chunk _stride_left _stride_right with
      | Raise e => gen_raise e
      | Ok stride1 =>
          let chunk_len := py_len chunk in
          let later :=
            chunk_loop feature_extractor inputs step stride_left stride_right
                       chunk_len rest in
          if _stride_left <? py_len chunk
          then gen_yield {| w_offset := i; w_chunk := chunk;
                            w_is_last := is_last; w_stride := Some stride1;
                            w_processed := processed; w_extra := ∅ |} later
          else later
      end
  end.

Definition chunk_iter (feature_extractor : list sample -> processed)
    (inputs : list sample) (chunk_len stride_left stride_right : Z)
    : gen window :=
  let inputs_len := py_len inputs in
  let step := chunk_len - stride_left - stride_right in
  match py_range 0 inputs_len step with
  | Raise e => gen_raise e
  | Ok idxs =>
      chunk_loop feature_extractor inputs step stride_left stride_right
                 chunk_len idxs
  end.

(** *** Collaborators and configuration of one pipeline object *)

(** [requests.get(url).content] or the bytes of the local file. *)
Variable read_source : string -> list Byte.byte.
(** [ffmpeg_read(bytes, sampling_rate)] *)
Variable ffmpeg_read : list Byte.byte -> Z -> result pyval.
(** [F.resample(torch.from_numpy(x), in_rate, rate).numpy()] *)
Variable resample : pyval -> pyval -> Z -> result pyval.
(** [self.feature_extractor] and its [sampling_rate] *)
Variable feature_extractor : list sample -> processed.
Variable sampling_rate : Z.
(** [self.type], fixed by [__init__] *)
Variable pipeline_type : model_type.
(** [self.model.config.inputs_to_logits_ratio], when the config has it *)
Variable inputs_to_logits_ratio : option Q.
(** [self.model.generate] over the encoder, [self.model(...).logits] and
    [argmax(dim=-1)] on one frame *)
Variable model_generate : feats -> gmap string pyval -> list Z.
Variable model_logits : feats -> list logit.
Variable argmax : logit -> Z.
(** [self.tokenizer] *)
Variable all_special_ids : list Z.
Variable tokenizer_decode : list Z -> bool -> string.
Variable tokenizer_char_offsets : list Z -> bool -> list offset.
Variable tokenizer_word_offsets : list offset -> list offset.
(** [self.decoder.decode_beams]: best text and its word offsets *)
Variable decode_beams :
  list logit -> gmap string pyval -> string * list offset.

(** *** [preprocess] *)

Definition dict_error : string :=
  "When passing a dictionnary to AutomaticSpeechRecognitionPipeline, the dict needs to contain a 'raw' key containing the numpy array representing the audio and a 'sampling_rate' key, containing the sampling_rate associated with that array".

(** [x != self.feature_extractor.sampling_rate] *)
Definition differs_from_rate (x : pyval) : bool :=
  match x with
  | PInt z => negb (z =? sampling_rate)
  | PFloat q => negb (Qeq_bool q (inject_Z sampling_rate))
  | _ => true
  end.

(** [self.feature_extractor.sampling_rate / x] *)
Definition rate_over (x : pyval) : result Q :=
  match x with
  | PInt z => py_truediv sampling_rate z
  | PFloat q => py_qdiv (inject_Z sampling_rate) q
  | _ => Raise TypeError
  end.

(** [x.shape[0]] *)
Definition shape0 (x : pyval) : result Z :=
  match x with
  | PArray (n :: _) _ => Ok n
  | PArray [] _ => Raise IndexError
  | _ => Raise (AttributeError "shape")
  end.

(** The [isinstance(inputs, dict)] block: the waveform, the stride in
    samples and the keys left over ([extra]). *)
Definition preprocess_dict (inputs : gmap string pyval)
    : result (pyval * option stride * gmap string pyval) :=
  let stride := default PNone (inputs !! "stride") in
  let inputs := delete "stride" inputs in
  if negb (bool_decide (is_Some (inputs !! "sampling_rate"))
           && (bool_decide (is_Some (inputs !! "raw"))
               || bool_decide (is_Some (inputs !! "array"))))
  then Raise (ValueError dict_error)
  else
    let _inputs := default PNone (inputs !! "raw") in
    let inputs := delete "raw" inputs in
    let '(_inputs, inputs) :=
      match _inputs with
      | PNone => (default PNone (inputs !! "array"), delete "array" inputs)
      | _ => (_inputs, inputs)
      end in
    let in_sampling_rate := default PNone (inputs !! "sampling_rate") in
    let inputs := delete "sampling_rate" inputs in
    let extra := inputs in
    '(inputs, ratio) ←
      (if differs_from_rate in_sampling_rate
       then resampled ← resample _inputs in_sampling_rate sampling_rate;
            ratio ← rate_over in_sampling_rate;
            Ok (resampled, ratio)
       else Ok (_inputs, 1%Q));
    stride ←
      match stride with
      | PNone => Ok None
      | PTuple2 s0 s1 =>
          n ← shape0 inputs;
          if n <? s0 + s1
          then Raise (ValueError "Stride is too large for input")
          else Ok (Some (n, py_round (inject_Z s0 * ratio),
                            py_round (inject_Z s1 * ratio)))
      | _ => Raise TypeError
      end;
    Ok (inputs, stride, extra).

(** The three sample counts of the chunking branch. *)
Definition chunk_sizes (chunk_length_s : Q)
    (stride_length_s : option stride_length) : result (Z * Z * Z) :=
  let stride_length_s :=
    match stride_length_s with
    | None => StrideNumber (chunk_length_s / 6)
    | Some s => s
    end in
  let '(s0, s1) :=
    match stride_length_s with
    | StrideNumber s => (s, s)
    | StridePair l r => (l, r)
    end in
  let align_to := default 1%Q inputs_to_logits_ratio in
  let aligned (seconds : Q) : result Z :=
    x ← py_qdiv (seconds * inject_Z sampling_rate) align_to;
    Ok (py_int (inject_Z (py_round x) * align_to)) in
  chunk_len ← aligned chunk_length_s;
  stride_left ← aligned s0;
  stride_right ← aligned s1;
  Ok (chunk_len, stride_left, stride_right).

(** Lines 289-338: from what the caller passed to the waveform, the
    stride and the leftover keys. *)
Definition decode_input (inputs : pipeline_input)
    : result (pyval * option stride * gmap string pyval) :=
  match inputs with
  | InStr s => v ← ffmpeg_read (read_source s) sampling_rate; Ok (v, None, ∅)
  | InBytes b => v ← ffmpeg_read b sampling_rate; Ok (v, None, ∅)
  | InDict d => preprocess_dict d
  | InValue v => Ok (v, None, ∅)
  end.

(** [preprocess].  The [logger.warning] of the seq2seq case is not
    modelled; it yields nothing and raises nothing.  In the yielded dict
    of the last branch the keys of [extra] are kept apart in [w_extra]. *)
Definition preprocess (inputs : pipeline_input) (chunk_length_s : Q)
    (stride_length_s : option stride_length) (ignore_warning : bool)
    : gen window :=
  match decode_input inputs with
  | Raise e => gen_raise e
  | Ok (inputs, stride, extra) =>
      match inputs with
      | PArray shape data =>
          if negb (bool_decide (length shape = 1%nat))
          then gen_raise (ValueError
            "We expect a single channel audio input for AutomaticSpeechRecognitionPipeline")
          else if negb (Qeq_bool chunk_length_s 0)
          then
            match chunk_sizes chunk_length_s stride_length_s with
            | Raise e => gen_raise e
            | Ok (chunk_len, stride_left, stride_right) =>
                if chunk_len <? stride_left + stride_right
                then gen_raise (ValueError
                  "Chunk length must be superior to stride length")
                else chunk_iter feature_extractor data
                                chunk_len stride_left stride_right
            end
          else
            let processed := feature_extractor data in
            match stride with
            | Some _ =>
                if bool_decide (pipeline_type = Seq2seq)
                then gen_raise (ValueError
                  "Stride is only usable with CTC models, try removing it")
                else gen_yield {| w_offset := 0; w_chunk := data;
                                  w_is_last := true; w_stride := stride;
                                  w_processed := processed;
                                  w_extra := extra |} ([], None)
            | None =>
                gen_yield {| w_offset := 0; w_chunk := data;
                             w_is_last := true; w_stride := None;
                             w_processed := processed;
                             w_extra := extra |} ([], None)
            end
      | _ => gen_raise (ValueError "We expect a numpy ndarray as input")
      end
  end.

(** *** [_forward] *)

Inductive payload : Type :=
  | Tokens (toks : list Z)
  | Logits (frames : list logit).

(** The dict [_forward] returns, [{"is_last": ..., **out, **extra}]:
    ["tokens"] or ["logits"], ["stride"], ["is_last"] and the leftover
    keys, which are kept apart in [o_extra] as in [window]. *)
Record model_output : Type := {
  o_is_last : bool;
  o_payload : payload;
  o_stride : option stride;
  o_extra : gmap string pyval }.

(** [_forward] on one window.  The first component counts the calls made
    to the model (0 or 1).  In the seq2seq branch ["stride"] is never
    popped, so it reaches the output through the leftover keys,
    unrescaled. *)
Definition _forward (model_inputs : window)
    (generate_kwargs : gmap string pyval) : nat * result model_output :=
  let is_last := w_is_last model_inputs in
  let p := w_processed model_inputs in
  match pipeline_type with
  | Seq2seq =>
      let tokens := model_generate (p_data p) generate_kwargs in
      (1%nat, Ok {| o_is_last := is_last; o_payload := Tokens tokens;
                    o_stride := w_stride model_inputs;
                    o_extra := w_extra model_inputs |})
  | _ =>
      let stride_in := w_stride model_inputs in
      match p_key p with
      | InputFeatures => (0%nat, Raise (KeyError "input_values"))
      | InputValues =>
          let logits := model_logits (p_data p) in
          let out :=
            if bool_decide (pipeline_type = CtcWithLM)
            then Logits logits
            else Tokens (map argmax logits) in
          let out_stride : result (option stride) :=
            match stride_in with
            | None => Ok None
            | Some st =>
                match inputs_to_logits_ratio with
                | None => Raise (AttributeError "inputs_to_logits_ratio")
                | Some r =>
                    ratio ← py_qdiv 1 r;
                    st' ← rescale_stride_single st ratio;
                    Ok (Some st')
                end
            end in
          (1%nat,
           st ← out_stride;
           Ok {| o_is_last := is_last; o_payload := out;
                 o_stride := st; o_extra := w_extra model_inputs |})
      end
  end.

(** *** [postprocess] *)

(** The dict [{"text": text, **optional, **extra}], its three parts in
    that order. *)
Record pipeline_result : Type := {
  r_text : string;
  r_chunks : option (list text_chunk);
  r_extra : gmap string (list pyval) }.

(** [items[:, left:right_n]] under the guard of the loop. *)
Definition trim_items {A} (st : option stride) (items : list A) : list A :=
  match st with
  | Some (total_n, left_, right_) =>
      if bool_decide (pipeline_type = Ctc ∨ pipeline_type = CtcWithLM)
      then let right_n := total_n - right_ in
           py_slice items (Some left_) (Some right_n)
      else items
  | None => items
  end.

(** [outputs[key]] with [key = "tokens"] *)
Definition get_tokens (o : model_output) : result (list Z) :=
  match o_payload o with
  | Tokens t => Ok t
  | Logits _ => Raise (KeyError "tokens")
  end.

(** [outputs[key]] with [key = "logits"] *)
Definition get_logits (o : model_output) : result (list logit) :=
  match o_payload o with
  | Logits l => Ok l
  | Tokens _ => Raise (KeyError "logits")
  end.

(** The first loop of [postprocess]: [final_items]. *)
Definition final_items {A} (get : model_output -> result (list A))
    (model_outputs : list model_output) : result (list (list A)) :=
  mapM (fun o => items ← get o; Ok (trim_items (o_stride o) items))
       model_outputs.

(** [np.concatenate(final_items, axis=1).squeeze(0)] *)
Definition np_concatenate {A} (arrays : list (list A)) : result (list A) :=
  match arrays with
  | [] => Raise (ValueError "need at least one array to concatenate")
  | _ => Ok (concat arrays)
  end.

(** [stride] after the loop: that of the last output. *)
Definition last_stride (model_outputs : list model_output) : option stride :=
  last model_outputs ≫= o_stride.

(** Lines 454-473 for the token paths: the stitched token sequence. *)
Definition stitch_tokens (model_outputs : list model_output)
    : result (list Z) :=
  items ← final_items get_tokens model_outputs;
  if bool_decide (is_Some (last_stride model_outputs))
     && bool_decide (pipeline_type = Seq2seq)
  then _find_longest_common_sequence items all_special_ids
  else np_concatenate items.

(** Lines 454-473 for the external-decoder path. *)
Definition stitch_logits (model_outputs : list model_output)
    : result (list logit) :=
  items ← final_items get_logits model_outputs;
  np_concatenate items.

(** The timestamp block, lines 499-513.  The config attribute is only
    read inside the loop. *)
Definition timestamp_chunks (offsets : list offset)
    : result (list text_chunk) :=
  match offsets with
  | [] => Ok []
  | _ =>
      match inputs_to_logits_ratio with
      | None => Raise (AttributeError "inputs_to_logits_ratio")
      | Some r => project_offsets r (inject_Z sampling_rate) offsets
      end
  end.

(** The closing loop: every leftover key, with its values in order. *)
Definition collect_extra (model_outputs : list model_output)
    : gmap string (list pyval) :=
  foldl (fun acc o =>
           union_with (fun old new => Some (old ++ new)%list) acc
                      ((fun v => [v]) <$> o_extra o))
        ∅ model_outputs.

Definition postprocess (model_outputs : list model_output)
    (decoder_kwargs : option (gmap string pyval))
    (return_timestamps : option timestamps_kind) : result pipeline_result :=
  if bool_decide (is_Some return_timestamps)
     && bool_decide (pipeline_type = Seq2seq)
  then Raise (ValueError "We cannot return_timestamps yet on non-ctc models !")
  else if bool_decide (return_timestamps = Some TsChar)
          && bool_decide (pipeline_type = CtcWithLM)
  then Raise (ValueError
    "CTC with LM cannot return `char` timestamps, only `words`")
  else
    '(text, offsets) ←
      (if bool_decide (pipeline_type = CtcWithLM)
       then items ← stitch_logits model_outputs;
            let '(text, word_offsets) :=
              decode_beams items (default ∅ decoder_kwargs) in
            Ok (text, word_offsets)
       else items ← stitch_tokens model_outputs;
            let skip_special_tokens := negb (bool_decide (pipeline_type = Ctc)) in
            let text := tokenizer_decode items skip_special_tokens in
            match return_timestamps with
            | Some kind =>
                let char_offsets :=
                  tokenizer_char_offsets items skip_special_tokens in
                match kind with
                | TsWord => Ok (text, tokenizer_word_offsets char_offsets)
                | TsChar => Ok (text, char_offsets)
                end
            | None => Ok (text, [])
            end);
    chunks ←
      match return_timestamps with
      | Some _ => cs ← timestamp_chunks offsets; Ok (Some cs)
      | None => Ok None
      end;
    Ok {| r_text := text; r_chunks := chunks;
          r_extra := collect_extra model_outputs |}.

End Pipeline.

Arguments p_key {feats} _.
Arguments p_len {feats} _.
Arguments p_data {feats} _.
Arguments w_offset {feats} _.
Arguments w_chunk {feats} _.
Arguments w_is_last {feats} _.
Arguments w_stride {feats} _.
Arguments w_processed {feats} _.
Arguments w_extra {feats} _.
Arguments window_stride {feats} _ _ _ _.
Arguments chunk_loop {feats} _ _ _ _ _ _ _.
Arguments chunk_iter {feats} _ _ _ _ _.
Arguments Tokens {logit} _.
Arguments Logits {logit} _.
Arguments o_is_last {logit} _.
Arguments o_payload {logit} _.
Arguments o_stride {logit} _.
Arguments o_extra {logit} _.

(** ** A concrete pipeline object

    A frame classifier with one output frame per sample: the feature
    extractor hands the samples through under ["input_values"], the model
    answers one logit frame per sample and [argmax] reads the sample back
    as a token id. *)

Definition demo_feature_extractor (chunk : list sample) : processed (list sample) :=
  {| p_key := InputValues; p_len := py_len chunk; p_data := chunk |}.

Definition demo_preprocess (rate : Z) (ty : model_type) (ratio : option Q) :=
  preprocess (list sample) (fun _ => []) (fun _ _ => Raise (ValueError "no decoder"))
             (fun v _ _ => Ok v) demo_feature_extractor rate ty ratio.

Definition demo_forward (ty : model_type) (ratio : option Q) :=
  _forward (list sample) sample ty ratio
           (fun x _ => map py_round x) (fun x => x) py_round.

Definition demo_stitch_tokens (ty : model_type) :=
  stitch_tokens sample ty [].

Definition demo_postprocess (rate : Z) (ty : model_type) (ratio : option Q) :=
  postprocess sample rate ty ratio []
              (fun _ _ => "") (fun _ _ => []) (fun o => o) (fun _ _ => ("", [])).

(** The waveform [0, 1, ..., n - 1]. *)
Definition ramp (n : nat) : list sample := map (fun k => inject_Z (Z.of_nat k)) (seq 0 n).

(** ** Vocabulary of the statements *)

(** [max_new_tokens] is given both directly and as a key of
    [generate_kwargs]. *)
Definition max_new_tokens_twice
    (generate_kwargs : option (gmap string pyval)) (max_new_tokens : option Z)
    : Prop :=
  is_Some max_new_tokens
  /\ exists g, generate_kwargs = Some g /\ is_Some (g !! "max_new_tokens").

Definition example_offset : offset :=
  {| off_text := "a"; start_offset := 100; end_offset := 200 |}.

Section OverlapVocabulary.

Variables sequence new_sequence : list Z.

(** The number of equal positions between the last [i] tokens of the
    accumulated sequence and the first [i] tokens of the new one. *)
Definition overlap_matches (i : Z) : Z :=
  np_eq_count (py_slice sequence (Some (- i)) None)
              (py_slice new_sequence None (Some i)).

(** [matches / i + i / 10000.0], as the double the code computes. *)
Definition overlap_score (i : Z) : Q :=
  fadd (fdiv (py_float (overlap_matches i)) (py_float i))
       (fdiv (py_float i) 10000).

(** The same score before any rounding. *)
Definition overlap_score_exact (i : Z) : Q :=
  (inject_Z (overlap_matches i) / inject_Z i + inject_Z i / 10000)%Q.

(** What the scan has established after the candidates [seen]: no
    candidate qualified so far, or [index] is the first of the qualifying
    candidates with the highest score. *)
Definition scan_inv (seen : list Z) (index : Z) (max_ : Q) : Prop :=
  (index = 0 /\ (max_ == 0)%Q /\ forall i, i ∈ seen -> overlap_matches i <= 1)
  \/ (index ∈ seen /\ 1 < overlap_matches index
      /\ (max_ == overlap_score index)%Q
      /\ (forall i, i ∈ seen -> 1 < overlap_matches i ->
                    (overlap_score i <= overlap_score index)%Q)
      /\ (forall i, i ∈ seen -> 1 < overlap_matches i -> i < index ->
                    (overlap_score i < overlap_score index)%Q)).

End OverlapVocabulary.

(** Two sequences of 160 tokens on which the candidates 35 (21 matches)
    and 160 (94 matches) have the same score as rationals, and no other
    candidate has a match. *)
Definition tie_sequence : list Z :=
  (map Z.of_nat (seq 0 94) ++ map (fun k => 1000 + Z.of_nat k) (seq 94 31)
   ++ map Z.of_nat (seq 0 21) ++ map (fun k => 1000 + Z.of_nat k) (seq 146 14))%list.

Definition tie_new_sequence : list Z := map Z.of_nat (seq 0 160).

(** The number of emitted windows marked as last, and the number of
    emitted windows whose left trim is 0. *)
Definition left_trim {feats} (w : window feats) : option Z :=
  st_left <$> w_stride w.

Definition count_last {feats} (ws : list (window feats)) : nat :=
  length (filter (fun w => w_is_last w = true) ws).

Definition count_untrimmed_left {feats} (ws : list (window feats)) : nat :=
  length (filter (fun w => left_trim w = Some 0) ws).

Section ChunkVocabulary.

Variables (feats : Type).
Variable feature_extractor : list sample -> processed feats.
Variable inputs : list sample.
Variables chunk_len stride_left stride_right : Z.

(** The window that the loop builds at start index [i]. *)
Definition window_at (i : Z) (w : window feats) : Prop :=
  w_offset w = i
  /\ 0 <= i < py_len inputs
  /\ w_chunk w = py_slice inputs (Some i) (Some (i + chunk_len))
  /\ w_is_last w = (py_len inputs <=? i + (chunk_len - stride_left - stride_right) + stride_left)
  /\ w_processed w = feature_extractor (w_chunk w)
  /\ (if i =? 0 then 0 else stride_left) < py_len (w_chunk w)
  /\ exists st,
       w_stride w = Some st
       /\ ((if i =? 0 then 0 else stride_left) = 0 -> st_left st = 0)
       /\ (p_len (feature_extractor (w_chunk w)) = py_len (w_chunk w) ->
           st = (py_len (w_chunk w),
                 (if i =? 0 then 0 else stride_left),
                 (if w_is_last w then 0 else stride_right))).

(** Windows at [i], [i + step], ... of which the last one, and only it, is
    marked as last. *)
Inductive window_chain : Z -> list (window feats) -> Prop :=
  | chain_last i w :
      window_at i w -> w_is_last w = true -> window_chain i [w]
  | chain_more i w ws :
      window_at i w -> w_is_last w = false ->
      window_chain (i + (chunk_len - stride_left - stride_right)) ws -> window_chain i (w :: ws).

End ChunkVocabulary.

(** The two combinations of [return_timestamps] and model family that
    [postprocess] rejects. *)
Definition unsupported_timestamps (ty : model_type)
    (return_timestamps : option timestamps_kind) : Prop :=
  (is_Some return_timestamps /\ ty = Seq2seq)
  \/ (return_timestamps = Some TsChar /\ ty = CtcWithLM).

Definition example_dict : gmap string pyval :=
  <["sampling_rate" := PInt 16000]>
    (<["array" := PArray [3] (ramp 3)]> (<["id" := PInt 7]> ∅)).

(** * Properties *)

(** ** Rounding *)

Lemma py_round_bounds (x : Q) :
  2 * Qnum x - QDen x <= 2 * QDen x * py_round x <= 2 * Qnum x + QDen x.
Proof.
  unfold py_round.
  set (n := Qnum x). set (d := QDen x).
  assert (Hd : 0 < d) by (unfold d; lia).
  pose proof (Z.div_mod n d ltac:(lia)) as Hdm.
  pose proof (Z.mod_pos_bound n d Hd) as Hr.
  set (q := n / d) in *. set (r := n mod d) in *.
  destruct (Z.ltb_spec (2 * r) d); [nia|].
  destruct (Z.ltb_spec d (2 * r)); [nia|].
  destruct (Z.even q); nia.
Qed.

Lemma py_round_upper (x : Q) : (inject_Z (py_round x) <= x + (1 # 2))%Q.
Proof.
  pose proof (py_round_bounds x) as [_ H].
  destruct x as [n d]. unfold Qle, Qplus, inject_Z. simpl in *.
  nia.
Qed.

Lemma py_round_lower (x : Q) : (x - (1 # 2) <= inject_Z (py_round x))%Q.
Proof.
  pose proof (py_round_bounds x) as [H _].
  destruct x as [n d]. unfold Qle, Qminus, Qplus, Qopp, inject_Z. simpl in *.
  nia.
Qed.

Lemma py_round_nonneg (x : Q) : (0 <= x)%Q -> 0 <= py_round x.
Proof.
  intros Hx. pose proof (py_round_lower x) as H.
  assert (Hq : (- (1 # 2) <= inject_Z (py_round x))%Q) by lra.
  unfold Qle, inject_Z in Hq. simpl in Hq. lia.
Qed.

Lemma py_round_int (x : Q) (z : Z) : (x == inject_Z z)%Q -> py_round x = z.
Proof.
  intros Hx. unfold Qeq, inject_Z in Hx. simpl in Hx.
  unfold py_round.
  assert (Hn : Qnum x = z * QDen x) by lia.
  rewrite Hn, Z.div_mul, Z.mod_mul by lia.
  destruct (Z.ltb_spec (2 * 0) (QDen x)); [reflexivity|lia].
Qed.

(** ** Binary64 rounding *)

Lemma Qpower2_pos (e : Z) : (0 < Qpower 2 e)%Q.
Proof. apply Qpower_0_lt. reflexivity. Qed.

Lemma Qpower2_add (a b : Z) : (Qpower 2 (a + b) == Qpower 2 a * Qpower 2 b)%Q.
Proof. apply Qpower_plus. discriminate. Qed.

Lemma Qpower2_succ (a : Z) : (Qpower 2 (a + 1) == 2 * Qpower 2 a)%Q.
Proof. rewrite Qpower2_add. change (Qpower 2 1) with 2%Q. ring. Qed.

Lemma Qpower2_of_Z (a : Z) : 0 <= a -> (inject_Z (2 ^ a) == Qpower 2 a)%Q.
Proof. intros Ha. rewrite Zpower_Qpower by exact Ha. reflexivity. Qed.

Lemma Qpower2_mono (a b : Z) : a <= b -> (Qpower 2 a <= Qpower 2 b)%Q.
Proof. intros Hab. apply Qpower_le_compat_l; [exact Hab|]. discriminate. Qed.

(** The integer logarithms bracket a positive rational within a factor
    of two on each side. *)
Lemma Qlog2_bracket (x : Q) :
  (0 < x)%Q ->
  let k := Z.log2 (Qnum x) - Z.log2 (QDen x) in
  (Qpower 2 (k - 1) <= x /\ x <= Qpower 2 (k + 1))%Q.
Proof.
  intros Hx k.
  assert (Hn : 0 < Qnum x) by (unfold Qlt in Hx; simpl in Hx; lia).
  set (a := Z.log2 (Qnum x)) in *. set (b := Z.log2 (QDen x)) in *.
  pose proof (Z.log2_nonneg (Qnum x)) as Ha0. fold a in Ha0.
  pose proof (Z.log2_nonneg (QDen x)) as Hb0. fold b in Hb0.
  pose proof (Z.log2_spec (Qnum x) Hn) as [Ha1 Ha2]. fold a in Ha1, Ha2.
  pose proof (Z.log2_spec (QDen x) ltac:(lia)) as [Hb1 Hb2]. fold b in Hb1, Hb2.
  replace (Z.succ a) with (a + 1) in Ha2 by lia.
  replace (Z.succ b) with (b + 1) in Hb2 by lia.
  rewrite Z.pow_add_r in Ha2, Hb2 by lia. change (2 ^ 1) with 2 in Ha2, Hb2.
  assert (Ea : (Qpower 2 a == inject_Z (2 ^ a))%Q) by (symmetry; apply Qpower2_of_Z; lia).
  assert (Eb : (Qpower 2 b == inject_Z (2 ^ b))%Q) by (symmetry; apply Qpower2_of_Z; lia).
  assert (Ek : (Qpower 2 k * inject_Z (2 ^ b) == inject_Z (2 ^ a))%Q).
  { rewrite <- Ea, <- Eb, <- Qpower2_add. unfold k.
    replace (a - b + b) with a by lia. reflexivity. }
  assert (Ek1 : (Qpower 2 (k - 1) * 2 == Qpower 2 k)%Q).
  { replace k with ((k - 1) + 1) at 2 by lia. rewrite Qpower2_succ. ring. }
  assert (Ek2 : (Qpower 2 (k + 1) == 2 * Qpower 2 k)%Q) by apply Qpower2_succ.
  pose proof (Qpower2_pos k) as Hk.
  assert (HA : (inject_Z (2 ^ a) <= inject_Z (Qnum x))%Q) by (rewrite <- Zle_Qle; lia).
  assert (HA' : (inject_Z (Qnum x) <= 2 * inject_Z (2 ^ a))%Q).
  { change 2%Q with (inject_Z 2). rewrite <- inject_Z_mult, <- Zle_Qle. lia. }
  assert (HB : (inject_Z (2 ^ b) <= inject_Z (QDen x))%Q) by (rewrite <- Zle_Qle; lia).
  assert (HB' : (inject_Z (QDen x) <= 2 * inject_Z (2 ^ b))%Q).
  { change 2%Q with (inject_Z 2). rewrite <- inject_Z_mult, <- Zle_Qle. lia. }
  assert (HD : (0 < inject_Z (QDen x))%Q) by (unfold Qlt, inject_Z; simpl; lia).
  assert (Hxd : (x * inject_Z (QDen x) == inject_Z (Qnum x))%Q).
  { destruct x as [n d]. unfold Qeq, Qmult, inject_Z. simpl. lia. }
  set (P := Qpower 2 k) in *. set (P1 := Qpower 2 (k - 1)) in *.
  set (P2 := Qpower 2 (k + 1)) in *. clearbody P P1 P2.
  set (A := inject_Z (2 ^ a)) in *. set (B := inject_Z (2 ^ b)) in *.
  set (N := inject_Z (Qnum x)) in *. set (D := inject_Z (QDen x)) in *.
  clearbody A B N D.
  assert (H1 : (P * D <= P * (2 * B))%Q) by (apply Qmult_le_l; assumption).
  assert (H2 : (P * B <= P * D)%Q) by (apply Qmult_le_l; assumption).
  split.
  - apply (Qmult_le_r _ _ (2 * D)); [lra|].
    assert (E : (P1 * (2 * D) == P * D)%Q) by (rewrite <- Ek1; ring).
    lra.
  - apply (Qmult_le_r _ _ D); [lra|].
    assert (E : (P2 * D == 2 * (P * D))%Q) by (rewrite Ek2; ring).
    lra.
Qed.

Lemma b64_exponent_spec (x : Q) :
  (0 < x)%Q ->
  (Qpower 2 (b64_exponent x + 52) <= x /\ x <= Qpower 2 (b64_exponent x + 53))%Q.
Proof.
  intros Hx. unfold b64_exponent.
  set (k := Z.log2 (Qnum x) - Z.log2 (QDen x)).
  destruct (Qlog2_bracket x Hx) as [Hlo Hhi]. fold k in Hlo, Hhi.
  destruct (Qle_bool (Qpower 2 k) x) eqn:E.
  - apply Qle_bool_iff in E.
    replace (k - 52 + 52) with k by lia. replace (k - 52 + 53) with (k + 1) by lia.
    split; assumption.
  - replace (k - 1 - 52 + 52) with (k - 1) by lia.
    replace (k - 1 - 52 + 53) with k by lia.
    split; [assumption|].
    apply Qlt_le_weak, Qnot_le_lt. intros H. apply Qle_bool_iff in H. congruence.
Qed.

(** One rounding moves a positive value by at most one part in [2^53]. *)
Lemma b64_pos_bounds (x : Q) :
  (0 < x)%Q ->
  (x * (1 - b64_unit) <= b64_pos x /\ b64_pos x <= x * (1 + b64_unit))%Q.
Proof.
  intros Hx. unfold b64_pos.
  destruct (b64_exponent_spec x Hx) as [Hlo _].
  set (e := b64_exponent x) in *.
  pose proof (Qpower2_pos e) as He.
  rewrite Qpower2_add in Hlo.
  change (Qpower 2 52) with (4503599627370496%Q) in Hlo.
  pose proof (py_round_upper (x / Qpower 2 e)) as Hup.
  pose proof (py_round_lower (x / Qpower 2 e)) as Hdn.
  set (m := inject_Z (py_round (x / Qpower 2 e))) in *.
  assert (Hy : (x / Qpower 2 e * Qpower 2 e == x)%Q) by (field; lra).
  set (y := (x / Qpower 2 e)%Q) in *. set (p := Qpower 2 e) in *.
  clearbody m y p.
  assert (H1 : (m * p <= (y + (1 # 2)) * p)%Q) by (apply Qmult_le_r; assumption).
  assert (H2 : ((y - (1 # 2)) * p <= m * p)%Q) by (apply Qmult_le_r; assumption).
  assert (E1 : ((y + (1 # 2)) * p == y * p + (1 # 2) * p)%Q) by ring.
  assert (E2 : ((y - (1 # 2)) * p == y * p - (1 # 2) * p)%Q) by ring.
  unfold b64_unit. split; lra.
Qed.

Lemma b64_bounds (x : Q) :
  (0 <= x)%Q ->
  (x * (1 - b64_unit) <= b64 x /\ b64 x <= x * (1 + b64_unit))%Q.
Proof.
  intros Hx. unfold b64.
  destruct (Qnum x) as [|p|p] eqn:En.
  - assert (E : (x == 0)%Q) by (unfold Qeq; simpl; lia).
    rewrite E. split; lra.
  - apply b64_pos_bounds. unfold Qlt. simpl. lia.
  - unfold Qle in Hx. simpl in Hx. lia.
Qed.

Lemma b64_nonneg (x : Q) : (0 <= x)%Q -> (0 <= b64 x)%Q.
Proof.
  intros Hx. destruct (b64_bounds x Hx) as [H _]. unfold b64_unit in H.
  assert (E : (0 <= x * (1 - (1 # 9007199254740992)))%Q)
    by (apply Qmult_le_0_compat; lra).
  lra.
Qed.

Lemma b64_positive (x : Q) : (0 < x)%Q -> (0 < b64 x)%Q.
Proof.
  intros Hx. destruct (b64_bounds x ltac:(lra)) as [H _]. unfold b64_unit in H.
  assert (E : (0 < x * (1 - (1 # 9007199254740992)))%Q)
    by (apply Qmult_lt_0_compat; lra).
  lra.
Qed.

(** Integers below [2^53] are doubles. *)
Lemma b64_exact (z : Z) :
  0 <= z < 2 ^ 53 -> (b64 (inject_Z z) == inject_Z z)%Q.
Proof.
  intros Hz. unfold b64. cbn [inject_Z Qnum].
  destruct z as [|p|p]; [reflexivity| |lia].
  assert (Hx : (0 < inject_Z (Z.pos p))%Q) by reflexivity.
  destruct (b64_exponent_spec _ Hx) as [Hlo _].
  unfold b64_pos.
  set (e := b64_exponent (inject_Z (Z.pos p))) in *.
  assert (He : e <= 0).
  { destruct (Z.le_gt_cases e 0) as [|Hgt]; [assumption|exfalso].
    assert (H53 : (Qpower 2 53 <= Qpower 2 (e + 52))%Q) by (apply Qpower2_mono; lia).
    assert (Hp : (inject_Z (Z.pos p) < Qpower 2 53)%Q).
    { rewrite <- Qpower2_of_Z by lia. rewrite <- Zlt_Qlt. lia. }
    lra. }
  assert (Ep : (Qpower 2 e * inject_Z (2 ^ (- e)) == 1)%Q).
  { rewrite Qpower2_of_Z by lia. rewrite <- Qpower2_add.
    replace (e + - e) with 0 by lia. reflexivity. }
  pose proof (Qpower2_pos e) as Hpe.
  assert (Ey : (inject_Z (Z.pos p) / Qpower 2 e == inject_Z (Z.pos p * 2 ^ (- e)))%Q).
  { rewrite inject_Z_mult.
    apply (Qmult_inj_r _ _ (Qpower 2 e)); [lra|].
    transitivity (inject_Z (Z.pos p)); [field; lra|].
    rewrite <- Qmult_assoc, (Qmult_comm (inject_Z (2 ^ (- e)))), Ep. ring. }
  rewrite (py_round_int _ _ Ey), inject_Z_mult.
  rewrite <- Qmult_assoc, (Qmult_comm (inject_Z (2 ^ (- e)))), Ep. ring.
Qed.

(** ** The stride rescaler *)

Lemma rescale_one_ok (ratio : Q) (n l r : Z) :
  n <> 0 ->
  rescale_one ratio (n, l, r) =
    Ok (py_round (inject_Z n * ratio),
        py_round (inject_Z l / inject_Z n * inject_Z (py_round (inject_Z n * ratio))),
        py_round (inject_Z r / inject_Z n * inject_Z (py_round (inject_Z n * ratio)))).
Proof.
  intros Hn. unfold rescale_one, py_truediv.
  destruct (Z.eqb_spec n 0) as [|_]; [contradiction|]. reflexivity.
Qed.

Lemma rescale_stride_single_ok (ratio : Q) (n l r : Z) :
  n <> 0 ->
  rescale_stride_single (n, l, r) ratio = rescale_one ratio (n, l, r).
Proof.
  intros Hn. unfold rescale_stride_single, rescale_stride.
  cbn [mapM]. rewrite (rescale_one_ok _ _ _ _ Hn). reflexivity.
Qed.




(** The example of the docstring of [rescale_stride]. *)
Example rescale_stride_docstring :
  rescale_stride [(160000, 16000, 16000)] (1 # 80) = Ok [(2000, 200, 200)].
Proof. reflexivity. Qed.


(** ** Parameter sanitization *)

(** C8: [_sanitize_parameters] raises a [ValueError] exactly when
    [max_new_tokens] is supplied in both places, and returns its three
    dicts otherwise. *)
Theorem sanitize_max_new_tokens_conflict
    (chunk_length_s : option Q) (stride_length_s : option stride_length)
    (ignore_warning : option bool) (decoder_kwargs : option (gmap string pyval))
    (return_timestamps : option timestamps_kind)
    (generate_kwargs : option (gmap string pyval)) (max_new_tokens : option Z) :
  let r := _sanitize_parameters chunk_length_s stride_length_s ignore_warning
             decoder_kwargs return_timestamps generate_kwargs max_new_tokens in
  (max_new_tokens_twice generate_kwargs max_new_tokens /\ is_value_error r)
  \/ (~ max_new_tokens_twice generate_kwargs max_new_tokens
      /\ exists v, r = Ok v).
Proof.
  unfold max_new_tokens_twice, _sanitize_parameters; cbn zeta.
  destruct generate_kwargs as [g|].
  - destruct (decide (is_Some max_new_tokens)) as [Hm|Hm];
      destruct (decide (is_Some (g !! "max_new_tokens"))) as [Hg|Hg].
    + left. rewrite !bool_decide_eq_true_2 by assumption.
      split; [eauto|]. eexists. reflexivity.
    + right. rewrite (bool_decide_eq_false_2 _ Hg), andb_false_r.
      split; [|eexists; reflexivity].
      intros (_ & g' & [= <-] & Hg'). contradiction.
    + right. rewrite (bool_decide_eq_false_2 _ Hm).
      split; [|eexists; reflexivity].
      intros (Hm' & _). contradiction.
    + right. rewrite (bool_decide_eq_false_2 _ Hm).
      split; [|eexists; reflexivity].
      intros (Hm' & _). contradiction.
  - right. split; [|eexists; reflexivity].
    intros (_ & g' & [=] & _).
Qed.

(** ** The timestamp projector *)

Lemma py_qdiv_ok (x b : Q) : ~ (b == 0)%Q -> py_qdiv x b = Ok (x / b)%Q.
Proof.
  intros Hb. unfold py_qdiv.
  destruct (Qeq_bool b 0) eqn:E; [|reflexivity].
  apply Qeq_bool_iff in E. contradiction.
Qed.

(** C6, as the code has it: an offset is mapped to
    [frame * inputs_to_logits_ratio / sampling_rate] seconds at both ends,
    the list of offsets is mapped item by item in order, and the offset
    (100, 200) at ratio 0.5 and rate 16000 lands on 0.003125 s and
    0.00625 s. *)
Theorem project_offset_seconds :
  (forall (ratio rate : Q) (item : offset),
      ~ (rate == 0)%Q ->
      exists c,
        project_offset ratio rate item = Ok c
        /\ tc_text c = off_text item
        /\ (fst (tc_timestamp c) == inject_Z (start_offset item) * ratio / rate)%Q
        /\ (snd (tc_timestamp c) == inject_Z (end_offset item) * ratio / rate)%Q)
  /\ (forall (ratio rate : Q) (offsets : list offset),
      ~ (rate == 0)%Q ->
      exists cs,
        project_offsets ratio rate offsets = Ok cs
        /\ Forall2 (fun item c => project_offset ratio rate item = Ok c) offsets cs)
  /\ (exists c,
        project_offset (1 # 2) 16000 example_offset = Ok c
        /\ (fst (tc_timestamp c) == 3125 # 1000000)%Q
        /\ (snd (tc_timestamp c) == 625 # 100000)%Q).
Proof.
  assert (Hone : forall (ratio rate : Q) (item : offset),
      ~ (rate == 0)%Q ->
      exists c,
        project_offset ratio rate item = Ok c
        /\ tc_text c = off_text item
        /\ (fst (tc_timestamp c) == inject_Z (start_offset item) * ratio / rate)%Q
        /\ (snd (tc_timestamp c) == inject_Z (end_offset item) * ratio / rate)%Q).
  { intros ratio rate item Hrate. unfold project_offset.
    rewrite !py_qdiv_ok by assumption. cbn.
    eexists. split; [reflexivity|]. cbn. repeat split; reflexivity. }
  split; [exact Hone|]. split.
  - intros ratio rate offsets Hrate. unfold project_offsets.
    induction offsets as [|item offsets (cs & Hcs & Hall)].
    + exists []. split; [reflexivity|constructor].
    + destruct (Hone ratio rate item Hrate) as (c & Hc & _).
      exists (c :: cs). split.
      * cbn [mapM]. rewrite Hc, Hcs. reflexivity.
      * constructor; assumption.
  - eexists. split; [reflexivity|]. split; reflexivity.
Qed.

Lemma project_offset_seconds_witness :
  exists c,
    project_offset (1 # 2) 16000 example_offset = Ok c
    /\ tc_text c = "a"
    /\ (fst (tc_timestamp c) == 100 * (1 # 2) / 16000)%Q
    /\ (snd (tc_timestamp c) == 200 * (1 # 2) / 16000)%Q.
Proof.
  apply (proj1 project_offset_seconds (1 # 2) 16000%Q example_offset).
  intros H; discriminate H.
Defined.

(** C6 as stated fails in its example: the two ends are 1/320 s and
    1/160 s, not 3.125 s and 6.25 s. *)
Lemma example_offset_not_in_seconds_claimed :
  exists c,
    project_offset (1 # 2) 16000 example_offset = Ok c
    /\ ~ (fst (tc_timestamp c) == 3125 # 1000)%Q
    /\ ~ (snd (tc_timestamp c) == 625 # 100)%Q.
Proof.
  eexists. split; [reflexivity|].
  split; intros H; discriminate H.
Qed.

(** ** Ranges and slices *)

Lemma range_len_nonneg (start stop step : Z) :
  0 < step -> 0 <= range_len start stop step.
Proof.
  intros Hs. unfold range_len.
  destruct (Z.ltb_spec 0 step); [|lia].
  destruct (Z.ltb_spec start stop); [|lia].
  pose proof (Z.div_pos (stop - start - 1) step). lia.
Qed.

Lemma range_len_step (start stop step : Z) :
  0 < step -> start < stop ->
  range_len start stop step = 1 + range_len (start + step) stop step.
Proof.
  intros Hs Hlt. unfold range_len.
  destruct (Z.ltb_spec 0 step); [|lia].
  destruct (Z.ltb_spec start stop); [|lia].
  destruct (Z.ltb_spec (start + step) stop).
  - replace (stop - start - 1) with (stop - (start + step) - 1 + 1 * step) by lia.
    rewrite Z.div_add by lia. lia.
  - rewrite Z.div_small by lia. lia.
Qed.

Lemma range_len_empty (start stop step : Z) :
  0 < step -> stop <= start -> range_len start stop step = 0.
Proof.
  intros Hs Hle. unfold range_len.
  destruct (Z.ltb_spec 0 step); [|lia].
  destruct (Z.ltb_spec start stop); lia.
Qed.

(** [range] with a positive step, one element at a time. *)
Lemma range_list_unfold (start stop step : Z) :
  0 < step ->
  range_list start stop step =
    if start <? stop then start :: range_list (start + step) stop step else [].
Proof.
  intros Hs. unfold range_list.
  destruct (Z.ltb_spec start stop) as [Hlt|Hge].
  - rewrite (range_len_step start stop step Hs Hlt).
    pose proof (range_len_nonneg (start + step) stop step Hs) as Hn.
    rewrite Z2Nat.inj_add by lia.
    change (Z.to_nat 1) with 1%nat. cbn [Nat.add seq map].
    f_equal; [lia|].
    rewrite <- seq_shift, map_map.
    apply map_ext. intros k. lia.
  - rewrite range_len_empty by lia. reflexivity.
Qed.

Lemma elem_of_range_list_1 (n i : Z) :
  i ∈ range_list 1 (n + 1) 1 <-> 1 <= i <= n.
Proof.
  unfold range_list.
  assert (Hlen : Z.to_nat (range_len 1 (n + 1) 1) = Z.to_nat n).
  { unfold range_len. cbn [Z.ltb Z.compare].
    destruct (Z.ltb_spec 1 (n + 1)); [rewrite Z.div_1_r|]; lia. }
  rewrite Hlen, list_elem_of_fmap.
  split.
  - intros (k & -> & Hk). apply elem_of_seq in Hk. lia.
  - intros Hi. exists (Z.to_nat (i - 1)). split; [lia|].
    apply elem_of_seq. lia.
Qed.

Lemma range_list_sorted (start stop step : Z) :
  0 < step -> StronglySorted Z.lt (range_list start stop step).
Proof.
  intros Hs. unfold range_list.
  generalize (Z.to_nat (range_len start stop step)) as n.
  generalize 0%nat as s.
  intros s n. revert s.
  induction n as [|n IH]; intros s; cbn [seq map]; constructor.
  - apply IH.
  - apply Forall_forall. intros x Hx.
    apply list_elem_of_fmap in Hx as (k & -> & Hk).
    apply elem_of_seq in Hk. nia.
Qed.

Lemma py_slice_length {A} (l : list A) (i c : Z) :
  0 <= i -> 0 <= c ->
  py_len (py_slice l (Some i) (Some (i + c))) = Z.max 0 (Z.min c (py_len l - i)).
Proof.
  intros Hi Hc. unfold py_slice, py_len, py_clamp.
  destruct (Z.ltb_spec i 0); [lia|].
  destruct (Z.ltb_spec (i + c) 0); [lia|].
  rewrite length_take, length_drop. lia.
Qed.

Lemma py_slice_lookup {A} (l : list A) (i c : Z) (k : nat) :
  0 <= i -> 0 <= c -> Z.of_nat k < c ->
  py_slice l (Some i) (Some (i + c)) !! k = l !! (Z.to_nat i + k)%nat.
Proof.
  intros Hi Hc Hk. unfold py_slice, py_clamp.
  destruct (Z.ltb_spec i 0); [lia|].
  destruct (Z.ltb_spec (i + c) 0); [lia|].
  set (n := Z.of_nat (length l)).
  destruct (decide (i + Z.of_nat k < n)) as [Hin|Hout].
  - rewrite lookup_take_lt by lia. rewrite lookup_drop. f_equal. lia.
  - rewrite (lookup_ge_None_2 l) by (unfold n in *; lia).
    apply lookup_ge_None_2. rewrite length_take, length_drop. unfold n in *. lia.
Qed.

(** ** The fuzzy stitcher *)

Section FuzzyStitcher.

Variables sequence new_sequence : list Z.

Local Abbreviation overlap_matches_ := (overlap_matches sequence new_sequence).
Local Abbreviation overlap_score_ := (overlap_score sequence new_sequence).
Local Abbreviation scan_inv_ := (scan_inv sequence new_sequence).

Lemma Qltb_spec (x y : Q) : reflect (x < y)%Q (Qltb x y).
Proof.
  unfold Qltb. destruct (Qle_bool y x) eqn:E; constructor.
  - apply Qle_bool_iff in E. intros H. lra.
  - apply Qnot_le_lt. intros H. apply Qle_bool_iff in H. congruence.
Qed.

Lemma overlap_score_pos (i : Z) :
  0 < i -> 1 < overlap_matches_ i -> (0 < overlap_score_ i)%Q.
Proof.
  intros Hi Hm. unfold overlap_score, fadd, fdiv, py_float.
  assert (HI : (0 < b64 (inject_Z i))%Q).
  { apply b64_positive. unfold Qlt, inject_Z; simpl; lia. }
  assert (HM : (0 < b64 (inject_Z (overlap_matches_ i)))%Q).
  { apply b64_positive. unfold Qlt, inject_Z; simpl; lia. }
  assert (H1 : (0 < b64 (b64 (inject_Z (overlap_matches_ i)) / b64 (inject_Z i)))%Q).
  { apply b64_positive. apply Qlt_shift_div_l; [assumption|]. lra. }
  assert (H2 : (0 < b64 (b64 (inject_Z i) / 10000))%Q).
  { apply b64_positive. apply Qlt_shift_div_l; lra. }
  apply b64_positive. lra.
Qed.

Lemma lcs_scan_inv (idxs seen : list Z) (index : Z) (max_ : Q) :
  (forall i, i ∈ idxs -> 0 < i) ->
  StronglySorted Z.lt idxs ->
  (forall s i, s ∈ seen -> i ∈ idxs -> s < i) ->
  scan_inv_ seen index max_ ->
  exists max', scan_inv_ (seen ++ idxs)
                 (lcs_scan sequence new_sequence idxs index max_) max'.
Proof.
  revert seen index max_.
  induction idxs as [|i rest IH]; intros seen index max_ Hpos Hsort Hsep Hinv.
  - exists max_. rewrite app_nil_r. exact Hinv.
  - assert (Hi : 0 < i) by (apply Hpos; left).
    assert (Hrest : forall j, j ∈ rest -> 0 < j) by (intros j Hj; apply Hpos; by right).
    apply StronglySorted_inv in Hsort as [Hsort Hfirst].
    assert (Hsep' : forall s j, s ∈ seen ++ [i] -> j ∈ rest -> s < j).
    { intros s j Hs Hj. apply elem_of_app in Hs as [Hs|Hs].
      - apply Hsep; [exact Hs|by right].
      - apply list_elem_of_singleton in Hs as ->.
        rewrite Forall_forall in Hfirst. by apply Hfirst. }
    assert (Hbefore : forall s, s ∈ seen -> s < i)
      by (intros s Hs; apply Hsep; [exact Hs|by left]).
    cbn [lcs_scan]. fold (overlap_matches sequence new_sequence i).
    fold (overlap_score sequence new_sequence i).
    replace (seen ++ i :: rest) with ((seen ++ [i]) ++ rest)
      by (rewrite <- app_assoc; reflexivity).
    destruct (Z.ltb_spec 1 (overlap_matches_ i)) as [Hm|Hm];
      [destruct (Qltb_spec max_ (overlap_score_ i)) as [Hlt|Hge]|]; cbn [andb];
      (apply IH; [exact Hrest|exact Hsort|exact Hsep'|]).
    + assert (Hold : forall j, j ∈ seen -> 1 < overlap_matches_ j ->
                               (overlap_score_ j < overlap_score_ i)%Q).
      { intros j Hj Hmj.
        destruct Hinv as [(_ & _ & Hnone)|(_ & _ & Hmax & Hbest & _)].
        - specialize (Hnone j Hj). lia.
        - specialize (Hbest j Hj Hmj). lra. }
      right.
      split; [apply elem_of_app; right; by left|].
      split; [exact Hm|]. split; [reflexivity|]. split.
      * intros j Hj Hmj. apply elem_of_app in Hj as [Hj|Hj].
        -- apply Qlt_le_weak, Hold; assumption.
        -- apply list_elem_of_singleton in Hj as ->. lra.
      * intros j Hj Hmj Hji. apply elem_of_app in Hj as [Hj|Hj].
        -- apply Hold; assumption.
        -- apply list_elem_of_singleton in Hj. lia.
    + destruct Hinv as [(H0 & Hmax & Hnone)|(Hin & Hmi & Hmax & Hbest & Hfst)].
      * pose proof (overlap_score_pos i Hi Hm). lra.
      * right. split; [apply elem_of_app; by left|].
        split; [exact Hmi|]. split; [exact Hmax|]. split.
        -- intros j Hj Hmj. apply elem_of_app in Hj as [Hj|Hj].
           ++ exact (Hbest j Hj Hmj).
           ++ apply list_elem_of_singleton in Hj as ->. lra.
        -- intros j Hj Hmj Hji. apply elem_of_app in Hj as [Hj|Hj].
           ++ exact (Hfst j Hj Hmj Hji).
           ++ apply list_elem_of_singleton in Hj as ->.
              specialize (Hbefore index Hin). lia.
    + destruct Hinv as [(H0 & Hmax & Hnone)|(Hin & Hmi & Hmax & Hbest & Hfst)].
      * left. split; [exact H0|]. split; [exact Hmax|].
        intros j Hj. apply elem_of_app in Hj as [Hj|Hj].
        -- exact (Hnone j Hj).
        -- apply list_elem_of_singleton in Hj as ->. lia.
      * right. split; [apply elem_of_app; by left|].
        split; [exact Hmi|]. split; [exact Hmax|]. split.
        -- intros j Hj Hmj. apply elem_of_app in Hj as [Hj|Hj].
           ++ exact (Hbest j Hj Hmj).
           ++ apply list_elem_of_singleton in Hj as ->. lia.
        -- intros j Hj Hmj Hji. apply elem_of_app in Hj as [Hj|Hj].
           ++ exact (Hfst j Hj Hmj Hji).
           ++ apply list_elem_of_singleton in Hj as ->. lia.
Qed.

(** The overlap length the scan settles on: 0 when no candidate has more
    than one match, otherwise the first of the candidates with more than
    one match whose score no other such candidate beats. *)
Lemma lcs_index_best :
  let k := lcs_index sequence new_sequence in
  (k = 0 /\ forall i, 1 <= i <= py_len new_sequence -> overlap_matches_ i <= 1)
  \/ (1 <= k <= py_len new_sequence /\ 1 < overlap_matches_ k
      /\ (forall i, 1 <= i <= py_len new_sequence -> 1 < overlap_matches_ i ->
                    (overlap_score_ i <= overlap_score_ k)%Q)
      /\ (forall i, 1 <= i < k -> 1 < overlap_matches_ i ->
                    (overlap_score_ i < overlap_score_ k)%Q)).
Proof.
  cbn zeta. unfold lcs_index.
  assert (Hpos : forall i, i ∈ range_list 1 (py_len new_sequence + 1) 1 -> 0 < i).
  { intros i Hi. apply elem_of_range_list_1 in Hi. lia. }
  assert (Hstart : scan_inv_ [] 0 0%Q).
  { left. split; [reflexivity|]. split; [reflexivity|].
    intros i Hi. apply elem_of_nil in Hi. contradiction. }
  destruct (lcs_scan_inv _ [] 0 0%Q Hpos
              (range_list_sorted 1 (py_len new_sequence + 1) 1 ltac:(lia))
              ltac:(intros s i Hs; by apply elem_of_nil in Hs) Hstart)
    as (max' & Hinv).
  rewrite app_nil_l in Hinv.
  destruct Hinv as [(H0 & _ & Hnone)|(Hin & Hm & _ & Hbest & Hfst)].
  - left. split; [exact H0|].
    intros i Hi. apply Hnone, elem_of_range_list_1, Hi.
  - apply elem_of_range_list_1 in Hin.
    right. split; [exact Hin|].
    split; [exact Hm|]. split.
    + intros i Hi. apply Hbest, elem_of_range_list_1, Hi.
    + intros i Hi Hmi.
      apply Hfst; [apply elem_of_range_list_1; lia|exact Hmi|lia].
Qed.

(** [new_sequence[index:]] for the index the scan settles on. *)
Lemma lcs_merge_drop :
  lcs_merge sequence new_sequence
  = (sequence ++ drop (Z.to_nat (lcs_index sequence new_sequence)) new_sequence)%list.
Proof.
  assert (Hk : 0 <= lcs_index sequence new_sequence <= py_len new_sequence).
  { destruct lcs_index_best as [(-> & _)|(Hk & _)]; unfold py_len in *; lia. }
  unfold lcs_merge. f_equal. unfold py_slice, py_clamp.
  destruct (Z.ltb_spec (lcs_index sequence new_sequence) 0); [lia|].
  rewrite take_ge by (rewrite length_drop; unfold py_len in *; lia).
  f_equal. unfold py_len in *. lia.
Qed.

End FuzzyStitcher.

(** The outer loop takes the sequences one after the other: the last one
    is merged into what the others gave. *)
Lemma lcs_last_sequence (all_special_ids first : list Z)
    (others : list (list Z)) (new_seq : list Z) :
  _find_longest_common_sequence (first :: others ++ [new_seq]) all_special_ids
  = (sequence ← _find_longest_common_sequence (first :: others) all_special_ids;
     Ok (lcs_merge sequence (strip_special all_special_ids new_seq))).
Proof.
  unfold _find_longest_common_sequence. rewrite foldl_app. reflexivity.
Qed.

(** On [tie_sequence] and [tie_new_sequence] the candidates 35 and 160
    score the same as rationals; as doubles the second one scores higher,
    and it is the one the scan settles on. *)
Example lcs_index_rounded_tie :
  overlap_matches tie_sequence tie_new_sequence 35 = 21
  /\ overlap_matches tie_sequence tie_new_sequence 160 = 94
  /\ (overlap_score_exact tie_sequence tie_new_sequence 35
      == overlap_score_exact tie_sequence tie_new_sequence 160)%Q
  /\ (overlap_score tie_sequence tie_new_sequence 35
      < overlap_score tie_sequence tie_new_sequence 160)%Q
  /\ lcs_index tie_sequence tie_new_sequence = 160
  /\ lcs_merge tie_sequence tie_new_sequence = tie_sequence.
Proof. repeat split; vm_compute; reflexivity. Qed.

(** C5: the sequences are merged one after the other, each new one at the
    overlap length [i] in [1 .. len(new)] that scores best under
    [matches / i + i / 10000] among those with more than one match, the
    first such [i] when several score best and 0 when there is none; the
    two examples of the spec come out as stated. *)
Theorem fuzzy_stitcher_merge :
  (forall (all_special_ids first : list Z) (others : list (list Z))
          (new_seq : list Z),
      _find_longest_common_sequence [first] all_special_ids
        = Ok (strip_special all_special_ids first)
      /\ _find_longest_common_sequence (first :: others ++ [new_seq])
                                       all_special_ids
         = (sequence ← _find_longest_common_sequence (first :: others)
                                                      all_special_ids;
            Ok (lcs_merge sequence (strip_special all_special_ids new_seq))))
  /\ (forall sequence new_sequence : list Z,
      let k := lcs_index sequence new_sequence in
      lcs_merge sequence new_sequence
        = (sequence ++ drop (Z.to_nat k) new_sequence)%list
      /\ ((k = 0
           /\ forall i, 1 <= i <= py_len new_sequence ->
                        overlap_matches sequence new_sequence i <= 1)
          \/ (1 <= k <= py_len new_sequence
              /\ 1 < overlap_matches sequence new_sequence k
              /\ (forall i, 1 <= i <= py_len new_sequence ->
                            1 < overlap_matches sequence new_sequence i ->
                            (overlap_score sequence new_sequence i
                             <= overlap_score sequence new_sequence k)%Q)
              /\ (forall i, 1 <= i < k ->
                            1 < overlap_matches sequence new_sequence i ->
                            (overlap_score sequence new_sequence i
                             < overlap_score sequence new_sequence k)%Q))))
  /\ lcs_index [1; 2; 3; 4; 5] [4; 5; 6; 7] = 2
  /\ _find_longest_common_sequence [[1; 2; 3; 4; 5]; [4; 5; 6; 7]] []
       = Ok [1; 2; 3; 4; 5; 6; 7]
  /\ lcs_index [1; 2; 3] [9; 8; 7] = 0
  /\ _find_longest_common_sequence [[1; 2; 3]; [9; 8; 7]] []
       = Ok [1; 2; 3; 9; 8; 7]
  /\ _find_longest_common_sequence
       [[1; 2; 3; 4; 5]; [4; 5; 6; 7]; [6; 7; 8; 9]] []
       = Ok [1; 2; 3; 4; 5; 6; 7; 8; 9].
Proof.
  split; [|split].
  - intros all_special_ids first others new_seq.
    split; [reflexivity|]. apply lcs_last_sequence.
  - intros sequence new_sequence k. split.
    + apply lcs_merge_drop.
    + apply lcs_index_best.
  - repeat split; vm_compute; reflexivity.
Qed.

(** ** Preprocessing *)

Section PreprocessFacts.

Variables (feats : Type).
Variable read_source : string -> list Byte.byte.
Variable ffmpeg_read : list Byte.byte -> Z -> result pyval.
Variable resample : pyval -> pyval -> Z -> result pyval.
Variable feature_extractor : list sample -> processed feats.
Variable sampling_rate : Z.
Variable pipeline_type : model_type.
Variable inputs_to_logits_ratio : option Q.

Local Abbreviation preprocess_ :=
  (preprocess feats read_source ffmpeg_read resample feature_extractor
              sampling_rate pipeline_type inputs_to_logits_ratio).
Local Abbreviation decode_input_ :=
  (decode_input read_source ffmpeg_read resample sampling_rate).
Local Abbreviation chunk_sizes_ := (chunk_sizes sampling_rate inputs_to_logits_ratio).

Lemma preprocess_dict_array_alias (d : gmap string pyval) (v : pyval) :
  d !! "raw" = None -> d !! "array" = Some v ->
  preprocess_dict resample sampling_rate d
  = preprocess_dict resample sampling_rate (<["raw" := v]> (delete "array" d)).
Proof.
  intros Hraw Harr.
  set (d' := <["raw" := v]> (delete "array" d)).
  assert (E1 : d' !! "raw" = Some v) by apply lookup_insert_eq.
  assert (E2 : d' !! "array" = None).
  { unfold d'. rewrite lookup_insert_ne by done. apply lookup_delete_eq. }
  assert (E3 : d' !! "stride" = d !! "stride").
  { unfold d'. rewrite lookup_insert_ne by done. by rewrite lookup_delete_ne. }
  assert (E4 : d' !! "sampling_rate" = d !! "sampling_rate").
  { unfold d'. rewrite lookup_insert_ne by done. by rewrite lookup_delete_ne. }
  assert (M : delete "raw" (delete "stride" d')
              = delete "array" (delete "raw" (delete "stride" d))).
  { apply map_eq. intros k. unfold d'.
    rewrite !lookup_delete, lookup_insert, lookup_delete.
    repeat case_decide; congruence. }
  unfold preprocess_dict.
  rewrite !lookup_delete_ne by done.
  rewrite E1, E2, E3, E4, Hraw, Harr, M, delete_delete_eq.
  destruct (d !! "sampling_rate") as [sr|]; [|reflexivity].
  destruct v; reflexivity.
Qed.

Lemma preprocess_dict_no_waveform (d : gmap string pyval) :
  d !! "raw" = None -> d !! "array" = None ->
  preprocess_dict resample sampling_rate d = Raise (ValueError dict_error).
Proof.
  intros Hraw Harr. unfold preprocess_dict.
  rewrite !lookup_delete_ne by done. rewrite Hraw, Harr.
  rewrite (bool_decide_eq_false_2 (is_Some None)) by (intros [? [=]]).
  cbn [orb]. rewrite andb_false_r. reflexivity.
Qed.

(** A dict that files a one-channel waveform under ["array"], at the
    sampling rate of the feature extractor and without stride, is taken:
    the waveform comes out as it is, and the keys other than ["array"]
    and ["sampling_rate"] are left over. *)
Lemma preprocess_dict_array_taken (d : gmap string pyval) (n : Z)
    (data : list sample) :
  d !! "raw" = None -> d !! "array" = Some (PArray [n] data) ->
  d !! "sampling_rate" = Some (PInt sampling_rate) -> d !! "stride" = None ->
  preprocess_dict resample sampling_rate d
  = Ok (PArray [n] data, None, delete "sampling_rate" (delete "array" d)).
Proof.
  intros Hraw Harr Hrate Hstride. unfold preprocess_dict.
  rewrite (delete_id d "stride") by exact Hstride.
  rewrite (delete_id d "raw") by exact Hraw.
  rewrite Hstride, Hraw, Hrate, Harr.
  rewrite !bool_decide_eq_true_2 by eauto.
  cbv beta iota zeta delta [andb orb negb default id].
  rewrite lookup_delete_ne by done. rewrite Hrate.
  cbv beta iota zeta delta [default id].
  unfold differs_from_rate. rewrite Z.eqb_refl. reflexivity.
Qed.

(** C10: a dict that files the waveform under ["array"], with no ["raw"]
    key, is accepted: without chunking preprocessing yields the one
    window of that waveform, with chunking the windows of the bare
    waveform.  In every case it is preprocessed exactly as the same
    waveform filed under ["raw"], and a dict with neither key ends in a
    [ValueError] before anything is yielded. *)
Theorem preprocess_array_alias :
  (forall (d : gmap string pyval) (n : Z) (data : list sample)
          (chunk_length_s : Q) (stride_length_s : option stride_length)
          (ignore_warning : bool),
      d !! "raw" = None -> d !! "array" = Some (PArray [n] data) ->
      d !! "sampling_rate" = Some (PInt sampling_rate) ->
      d !! "stride" = None ->
      if Qeq_bool chunk_length_s 0
      then preprocess_ (InDict d) chunk_length_s stride_length_s ignore_warning
           = ([{| w_offset := 0; w_chunk := data; w_is_last := true;
                  w_stride := None; w_processed := feature_extractor data;
                  w_extra := delete "sampling_rate" (delete "array" d) |}],
              None)
      else preprocess_ (InDict d) chunk_length_s stride_length_s ignore_warning
           = preprocess_ (InValue (PArray [n] data))
                         chunk_length_s stride_length_s ignore_warning)
  /\ (forall (d : gmap string pyval) (v : pyval) (chunk_length_s : Q)
             (stride_length_s : option stride_length) (ignore_warning : bool),
      d !! "raw" = None -> d !! "array" = Some v ->
      preprocess_ (InDict d) chunk_length_s stride_length_s ignore_warning
      = preprocess_ (InDict (<["raw" := v]> (delete "array" d)))
                    chunk_length_s stride_length_s ignore_warning)
  /\ (forall (d : gmap string pyval) (chunk_length_s : Q)
             (stride_length_s : option stride_length) (ignore_warning : bool),
      d !! "raw" = None -> d !! "array" = None ->
      exists msg,
        preprocess_ (InDict d) chunk_length_s stride_length_s ignore_warning
        = ([], Some (ValueError msg))).
Proof.
  split; [|split].
  - intros d n data cl sl iw Hraw Harr Hrate Hstride.
    unfold preprocess, decode_input.
    rewrite (preprocess_dict_array_taken d n data Hraw Harr Hrate Hstride).
    cbn [length bool_decide negb].
    rewrite bool_decide_eq_true_2 by reflexivity. cbn [negb].
    destruct (Qeq_bool cl 0); reflexivity.
  - intros d v cl sl iw Hraw Harr. unfold preprocess, decode_input.
    rewrite (preprocess_dict_array_alias d v Hraw Harr). reflexivity.
  - intros d cl sl iw Hraw Harr. unfold preprocess, decode_input.
    rewrite (preprocess_dict_no_waveform d Hraw Harr).
    eexists. reflexivity.
Qed.

(** C1: with chunking on, a chunk length in samples that does not exceed
    the two strides together ends preprocessing in a [ValueError] with
    nothing yielded.  Below the sum the explicit guard raises; at the sum
    the step is 0 and [range] raises. *)
Theorem chunk_length_within_strides_rejected
    (inputs : pipeline_input) (chunk_length_s : Q)
    (stride_length_s : option stride_length) (ignore_warning : bool)
    (n : Z) (data : list sample) (st : option stride)
    (extra : gmap string pyval) (chunk_len stride_left stride_right : Z) :
  decode_input_ inputs = Ok (PArray [n] data, st, extra) ->
  ~ (chunk_length_s == 0)%Q ->
  chunk_sizes_ chunk_length_s stride_length_s
    = Ok (chunk_len, stride_left, stride_right) ->
  chunk_len <= stride_left + stride_right ->
  exists msg,
    preprocess_ inputs chunk_length_s stride_length_s ignore_warning
    = ([], Some (ValueError msg)).
Proof.
  intros Hdec Hon Hsizes Hle. unfold preprocess.
  rewrite Hdec. cbn [length]. rewrite bool_decide_eq_true_2 by reflexivity.
  cbn [negb].
  destruct (Qeq_bool chunk_length_s 0) eqn:E;
    [apply Qeq_bool_iff in E; contradiction|].
  cbn [negb]. rewrite Hsizes.
  destruct (Z.ltb_spec chunk_len (stride_left + stride_right)) as [Hlt|Hge].
  - eexists. reflexivity.
  - assert (Hstep : chunk_len - stride_left - stride_right = 0) by lia.
    unfold chunk_iter, py_range. rewrite Hstep. cbn [Z.eqb].
    eexists. reflexivity.
Qed.

End PreprocessFacts.

(** ** The chunk producer *)

Lemma py_round_num_zero (x : Q) : Qnum x = 0 -> py_round x = 0.
Proof.
  intros H. unfold py_round. rewrite H.
  rewrite Z.div_0_l, Z.mod_0_l by lia.
  destruct (Z.ltb_spec (2 * 0) (QDen x)); [reflexivity|lia].
Qed.

Section ChunkLoop.

Variables (feats : Type).
Variable feature_extractor : list sample -> processed feats.
Variable inputs : list sample.
Variables step stride_left stride_right : Z.

Local Abbreviation chunk_loop_ :=
  (chunk_loop feature_extractor inputs step stride_left stride_right).

(** The stride of a non-empty chunk is always computed; an untrimmed left
    side stays untrimmed, and nothing changes when the feature extractor
    keeps the length. *)
Lemma window_stride_nonempty (chunk : list sample) (l r : Z) :
  py_len chunk <> 0 ->
  exists st,
    window_stride feature_extractor chunk l r = Ok st
    /\ (l = 0 -> st_left st = 0)
    /\ (p_len (feature_extractor chunk) = py_len chunk -> st = (py_len chunk, l, r)).
Proof.
  intros Hne. unfold window_stride.
  destruct (Z.eqb_spec (p_len (feature_extractor chunk)) (py_len chunk)) as [Heq|Hneq];
    cbn [negb].
  - eexists. split; [reflexivity|]. split; [intros ->; reflexivity|reflexivity].
  - unfold py_truediv at 1. destruct (Z.eqb_spec (py_len chunk) 0); [contradiction|].
    cbn [mbind result_bind rbind].
    rewrite rescale_stride_single_ok, rescale_one_ok by assumption.
    eexists. split; [reflexivity|]. split; [|contradiction].
    intros ->. cbn. apply py_round_num_zero. cbn. lia.
Qed.

Lemma window_stride_empty (l r : Z) :
  p_len (feature_extractor []) = 0 ->
  window_stride feature_extractor [] l r = Ok (0, l, r).
Proof.
  intros H. unfold window_stride. rewrite H. reflexivity.
Qed.

Lemma snd_gen_yield {A} (a : A) (g : gen A) : snd (gen_yield a g) = snd g.
Proof. reflexivity. Qed.

(** Once the loop has got past one window, it never raises. *)
Lemma chunk_loop_no_raise (chunk_len : Z) (idxs : list Z) :
  1 <= chunk_len \/ (chunk_len = 0 /\ p_len (feature_extractor []) = 0) ->
  (forall i, i ∈ idxs -> 0 <= i < py_len inputs) ->
  snd (chunk_loop_ chunk_len idxs) = None.
Proof.
  revert chunk_len.
  induction idxs as [|i rest IH]; intros chunk_len Hc Hidx; [reflexivity|].
  assert (Hi : 0 <= i < py_len inputs) by (apply Hidx; left).
  assert (Hrest : forall j, j ∈ rest -> 0 <= j < py_len inputs)
    by (intros j Hj; apply Hidx; by right).
  cbn [chunk_loop].
  set (chunk := py_slice inputs (Some i) (Some (i + chunk_len))).
  destruct Hc as [Hc|[-> Hzero]].
  - assert (Hlen : 1 <= py_len chunk).
    { unfold chunk. rewrite py_slice_length by lia. lia. }
    destruct (window_stride_nonempty chunk (if i =? 0 then 0 else stride_left)
                (if py_len inputs <=? i + step + stride_left then 0 else stride_right))
      as (st & -> & _); [lia|].
    destruct (_ <? py_len chunk); rewrite ?snd_gen_yield; apply IH; auto.
  - assert (Hnil : chunk = []).
    { apply nil_length_inv. unfold chunk.
      pose proof (py_slice_length inputs i 0 ltac:(lia) ltac:(lia)) as H.
      unfold py_len in H. lia. }
    rewrite Hnil, window_stride_empty by assumption.
    destruct (_ <? py_len []); rewrite ?snd_gen_yield; apply IH; auto.
Qed.

(** A raise of the loop comes before its first yield. *)
Lemma chunk_loop_raise_first (chunk_len : Z) (idxs : list Z) (e : exn) :
  (forall i, i ∈ idxs -> 0 <= i < py_len inputs) ->
  snd (chunk_loop_ chunk_len idxs) = Some e ->
  fst (chunk_loop_ chunk_len idxs) = [].
Proof.
  intros Hidx. destruct idxs as [|i rest]; [reflexivity|].
  assert (Hi : 0 <= i < py_len inputs) by (apply Hidx; left).
  assert (Hrest : forall j, j ∈ rest -> 0 <= j < py_len inputs)
    by (intros j Hj; apply Hidx; by right).
  cbn [chunk_loop].
  set (chunk := py_slice inputs (Some i) (Some (i + chunk_len))).
  set (l := if i =? 0 then 0 else stride_left).
  set (r := if py_len inputs <=? i + step + stride_left then 0 else stride_right).
  destruct (window_stride feature_extractor chunk l r) as [st|e'] eqn:Est;
    [|reflexivity].
  assert (Hsettled : 1 <= py_len chunk
                     \/ (py_len chunk = 0 /\ p_len (feature_extractor []) = 0)).
  { destruct (decide (py_len chunk = 0)) as [H0|Hn0]; [right|left; unfold py_len in *; lia].
    split; [exact H0|].
    assert (Hnil : chunk = []) by (apply nil_length_inv; unfold py_len in H0; lia).
    rewrite Hnil in Est. unfold window_stride in Est.
    change (py_len (@nil sample)) with 0 in Est.
    destruct (Z.eqb_spec (p_len (feature_extractor [])) 0) as [Heq|Hneq];
      [exact Heq|]. discriminate Est. }
  pose proof (chunk_loop_no_raise (py_len chunk) rest Hsettled Hrest) as Hnone.
  destruct (l <? py_len chunk); rewrite ?snd_gen_yield, Hnone; discriminate.
Qed.

End ChunkLoop.

Lemma py_slice_clip {A} (l : list A) (i c c' : Z) :
  0 <= i -> Z.min c' (py_len l - i) <= c -> c <= c' ->
  py_slice l (Some i) (Some (i + c)) = py_slice l (Some i) (Some (i + c')).
Proof.
  intros Hi Hlo Hhi. unfold py_slice, py_clamp, py_len in *.
  destruct (Z.ltb_spec i 0); [lia|].
  destruct (Z.ltb_spec (i + c) 0), (Z.ltb_spec (i + c') 0); f_equal; lia.
Qed.

Lemma py_slice_of_slice {A} (l : list A) (j c a b : Z) :
  0 <= j -> 0 <= c -> 0 <= a <= b ->
  b <= py_len (py_slice l (Some j) (Some (j + c))) ->
  py_slice (py_slice l (Some j) (Some (j + c))) (Some a) (Some b)
  = take (Z.to_nat (b - a)) (drop (Z.to_nat (j + a)) l).
Proof.
  intros Hj Hc Hab Hb.
  set (chunk := py_slice l (Some j) (Some (j + c))) in *.
  assert (Hn : py_len chunk = Z.max 0 (Z.min c (py_len l - j)))
    by (apply py_slice_length; lia).
  replace b with (a + (b - a)) at 1 by lia.
  apply list_eq. intros k.
  destruct (decide (Z.of_nat k < b - a)) as [Hk|Hk].
  - rewrite py_slice_lookup by lia.
    unfold chunk. rewrite py_slice_lookup by lia.
    rewrite lookup_take_lt by lia. rewrite lookup_drop. f_equal. lia.
  - rewrite (lookup_ge_None_2 (take _ _)) by (rewrite length_take; lia).
    apply lookup_ge_None_2.
    pose proof (py_slice_length chunk a (b - a) ltac:(lia) ltac:(lia)) as Hlen.
    unfold py_len in *. lia.
Qed.

Section ChunkProducer.

Variables (feats : Type).
Variable feature_extractor : list sample -> processed feats.
Variable inputs : list sample.
Variables chunk_len stride_left stride_right : Z.

Hypothesis stride_left_nonneg : 0 <= stride_left.
Hypothesis stride_right_nonneg : 0 <= stride_right.
Hypothesis chunk_exceeds_strides : stride_left + stride_right < chunk_len.

Local Abbreviation step := (chunk_len - stride_left - stride_right).
Local Abbreviation inputs_len := (py_len inputs).
Local Abbreviation chunk_loop_ :=
  (chunk_loop feature_extractor inputs step stride_left stride_right).
Local Abbreviation window_at_ :=
  (window_at feats feature_extractor inputs chunk_len stride_left stride_right).
Local Abbreviation window_chain_ :=
  (window_chain feats feature_extractor inputs chunk_len stride_left stride_right).

(** Past the window marked as last, only slivers within the left stride
    are left, and none is yielded. *)
Lemma chunk_loop_tail_silent (n : nat) (i c : Z) :
  (inputs_len - i <= Z.of_nat n) -> 0 < i -> inputs_len - i <= stride_left ->
  1 <= c ->
  chunk_loop_ c (range_list i inputs_len step) = ([], None).
Proof.
  revert i c. induction n as [|n IH]; intros i c Hn Hi Htail Hc;
    rewrite range_list_unfold by lia;
    destruct (Z.ltb_spec i inputs_len) as [Hlt|Hge]; try reflexivity; [lia|].
  cbn [chunk_loop].
  set (chunk := py_slice inputs (Some i) (Some (i + c))).
  assert (Hlen : py_len chunk = Z.min c (inputs_len - i)).
  { unfold chunk. rewrite py_slice_length by lia. lia. }
  destruct (window_stride_nonempty feats feature_extractor chunk
              (if i =? 0 then 0 else stride_left)
              (if inputs_len <=? i + step + stride_left then 0 else stride_right))
    as (st & -> & _); [lia|].
  destruct (Z.eqb_spec i 0); [lia|].
  destruct (Z.ltb_spec stride_left (py_len chunk)); [lia|].
  apply IH; lia.
Qed.

Lemma chunk_loop_chain (n : nat) (i c : Z) :
  (inputs_len - i <= Z.of_nat n) ->
  0 <= i < inputs_len -> (i = 0 \/ stride_left < inputs_len - i) ->
  Z.min chunk_len (inputs_len - i) <= c <= chunk_len ->
  exists ws,
    chunk_loop_ c (range_list i inputs_len step) = (ws, None)
    /\ window_chain_ i ws.
Proof.
  revert i c. induction n as [|n IH]; intros i c Hn Hi Hemit Hc; [lia|].
  rewrite range_list_unfold by lia.
  destruct (Z.ltb_spec i inputs_len) as [_|Hge]; [|lia].
  cbn [chunk_loop].
  rewrite (py_slice_clip inputs i c chunk_len) by lia.
  set (chunk := py_slice inputs (Some i) (Some (i + chunk_len))).
  assert (Hlen : py_len chunk = Z.min chunk_len (inputs_len - i)).
  { unfold chunk. rewrite py_slice_length by lia. lia. }
  set (l := if i =? 0 then 0 else stride_left).
  set (last := inputs_len <=? i + step + stride_left).
  destruct (window_stride_nonempty feats feature_extractor chunk l
              (if last then 0 else stride_right))
    as (st & Hst & Hst0 & Hstid); [lia|].
  rewrite Hst.
  assert (Hyield : l < py_len chunk).
  { unfold l. destruct (Z.eqb_spec i 0); lia. }
  destruct (Z.ltb_spec l (py_len chunk)) as [_|]; [|lia].
  set (w := {| w_offset := i; w_chunk := chunk; w_is_last := last;
               w_stride := Some st; w_processed := feature_extractor chunk;
               w_extra := ∅ |}).
  assert (Hw : window_at_ i w).
  { unfold window_at. cbn.
    repeat split; try reflexivity; try lia.
    exists st. split; [reflexivity|]. split; [exact Hst0|exact Hstid]. }
  destruct last eqn:Elast.
  - apply Z.leb_le in Elast.
    rewrite (chunk_loop_tail_silent n) by lia.
    exists [w]. split; [reflexivity|]. by apply chain_last.
  - apply Z.leb_gt in Elast.
    destruct (IH (i + step) (py_len chunk)) as (ws & Hws & Hchain); try lia.
    rewrite Hws. exists (w :: ws). split; [reflexivity|].
    by apply chain_more.
Qed.

(** What [chunk_iter] yields for a non-empty waveform. *)
Lemma chunk_iter_chain :
  0 < inputs_len ->
  exists ws,
    chunk_iter feature_extractor inputs chunk_len stride_left stride_right
      = (ws, None)
    /\ window_chain_ 0 ws.
Proof.
  intros Hpos. unfold chunk_iter, py_range.
  destruct (Z.eqb_spec step 0); [lia|].
  apply (chunk_loop_chain (Z.to_nat inputs_len)); lia.
Qed.

Lemma window_chain_count_last (i : Z) (ws : list (window feats)) :
  window_chain_ i ws ->
  count_last ws = 1%nat /\ w_is_last <$> last ws = Some true.
Proof.
  unfold count_last. intros Hchain.
  induction Hchain as [j w Hw Hlast|j w rest Hw Hlast Hchain [IHc IHl]].
  - rewrite filter_cons_True by assumption. split; [reflexivity|].
    cbn. by rewrite Hlast.
  - rewrite filter_cons_False by (rewrite Hlast; discriminate).
    split; [exact IHc|].
    destruct rest as [|w' rest']; [inversion Hchain|]. exact IHl.
Qed.

Lemma window_chain_offsets (i : Z) (ws : list (window feats)) :
  window_chain_ i ws ->
  Forall (fun w => i <= w_offset w /\ window_at_ (w_offset w) w) ws.
Proof.
  intros Hchain.
  induction Hchain as [j w Hw Hlast|j w rest Hw Hlast Hchain IH].
  - constructor; [|constructor].
    pose proof Hw as (Hoff & _). rewrite Hoff. split; [lia|exact Hw].
  - constructor.
    + pose proof Hw as (Hoff & _). rewrite Hoff. split; [lia|exact Hw].
    + eapply Forall_impl; [exact IH|].
      intros w' [Hle Hw']. split; [lia|exact Hw'].
Qed.

Lemma window_chain_head (i : Z) (ws : list (window feats)) :
  window_chain_ i ws ->
  exists w rest,
    ws = w :: rest /\ window_at_ i w
    /\ Forall (fun w' => i < w_offset w' /\ window_at_ (w_offset w') w') rest.
Proof.
  intros Hchain. inversion Hchain as [i' w Hw Hlast|i' w rest Hw Hlast Hrest]; subst.
  - exists w, []. split; [reflexivity|]. split; [exact Hw|constructor].
  - exists w, rest. split; [reflexivity|]. split; [exact Hw|].
    eapply Forall_impl; [exact (window_chain_offsets _ _ Hrest)|].
    intros w' [Hle Hw']. split; [lia|exact Hw'].
Qed.

(** Every sample from the start of a chain on lies in one of its windows. *)
Lemma window_chain_covers (i : Z) (ws : list (window feats)) (p : Z) :
  window_chain_ i ws -> i <= p < inputs_len ->
  exists w,
    w ∈ ws /\ w_offset w <= p < w_offset w + chunk_len
    /\ w_chunk w = py_slice inputs (Some (w_offset w)) (Some (w_offset w + chunk_len))
    /\ w_chunk w !! Z.to_nat (p - w_offset w) = inputs !! Z.to_nat p.
Proof.
  assert (Hhere : forall j w, window_at_ j w -> j <= p < j + chunk_len ->
            w_offset w <= p < w_offset w + chunk_len
            /\ w_chunk w = py_slice inputs (Some (w_offset w)) (Some (w_offset w + chunk_len))
            /\ w_chunk w !! Z.to_nat (p - w_offset w) = inputs !! Z.to_nat p).
  { intros j w (Hoff & Hj & Hchunk & _) Hp. rewrite Hoff.
    split; [lia|]. split; [exact Hchunk|].
    rewrite Hchunk, py_slice_lookup by lia. f_equal. lia. }
  intros Hchain.
  induction Hchain as [j w Hw Hlast|j w rest Hw Hlast Hchain IH]; intros Hp.
  - exists w. split; [by left|]. apply (Hhere j); [exact Hw|].
    destruct Hw as (_ & _ & _ & His & _). rewrite Hlast in His.
    symmetry in His. apply Z.leb_le in His. lia.
  - destruct (decide (p < j + chunk_len)) as [Hin|Hout].
    + exists w. split; [by left|]. apply (Hhere j); [exact Hw|lia].
    + destruct IH as (w' & Hin' & Hrest); [lia|].
      exists w'. split; [by right|exact Hrest].
Qed.

Lemma window_chain_untrimmed_once (ws : list (window feats)) :
  window_chain_ 0 ws ->
  (exists w rest, ws = w :: rest /\ left_trim w = Some 0)
  /\ (stride_left = 0 -> Forall (fun w => left_trim w = Some 0) ws)
  /\ (0 < stride_left ->
      (forall chunk, p_len (feature_extractor chunk) = py_len chunk) ->
      count_untrimmed_left ws = 1%nat).
Proof.
  intros Hchain.
  destruct (window_chain_head 0 ws Hchain) as (w & rest & -> & Hw & Hrest).
  assert (Hfirst : left_trim w = Some 0).
  { destruct Hw as (_ & _ & _ & _ & _ & _ & st & Hst & H0 & _).
    unfold left_trim. rewrite Hst. cbn. f_equal. by apply H0. }
  split; [by exists w, rest|]. split.
  { intros Hzero. constructor; [exact Hfirst|].
    eapply Forall_impl; [exact Hrest|].
    intros w' [_ (_ & _ & _ & _ & _ & _ & st & Hst & H0 & _)].
    unfold left_trim. rewrite Hst. cbn. f_equal. apply H0.
    destruct (w_offset w' =? 0); [reflexivity|exact Hzero]. }
  intros Hpos Hkeep. unfold count_untrimmed_left.
  rewrite filter_cons_True by exact Hfirst. cbn [length]. f_equal.
  apply length_zero_iff_nil. clear Hchain.
  induction Hrest as [|w' rest' [Hoff Hw'] _ IH]; [reflexivity|].
  rewrite filter_cons_False; [exact IH|].
  destruct Hw' as (_ & _ & _ & _ & _ & _ & st & Hst & _ & Hid).
  unfold left_trim. rewrite Hst, (Hid (Hkeep _)). cbn.
  destruct (Z.eqb_spec (w_offset w') 0); [lia|].
  intros [= Heq]. lia.
Qed.

(** What exact trimming keeps of one window, as a piece of the waveform. *)
Lemma window_kept (j : Z) (w : window feats) :
  (forall chunk, p_len (feature_extractor chunk) = py_len chunk) ->
  window_at_ j w ->
  (w_is_last w = false -> j + chunk_len <= inputs_len) ->
  let l := if j =? 0 then 0 else stride_left in
  let r := if w_is_last w then 0 else stride_right in
  trim_items Ctc (w_stride w) (w_chunk w)
  = take (Z.to_nat (Z.min chunk_len (inputs_len - j) - r - l))
         (drop (Z.to_nat (j + l)) inputs).
Proof.
  intros Hkeep (Hoff & Hj & Hchunk & His & _ & Hemit & st & Hst & _ & Hid) Hroom l r.
  specialize (Hid (Hkeep _)). rewrite Hid in Hst.
  assert (Hn : py_len (w_chunk w) = Z.min chunk_len (inputs_len - j))
    by (rewrite Hchunk, py_slice_length by lia; lia).
  fold l in Hst, Hemit. fold r in Hst.
  assert (Hl : 0 <= l) by (unfold l; destruct (j =? 0); lia).
  assert (Hr : 0 <= r <= stride_right) by (unfold r; destruct (w_is_last w); lia).
  assert (Hfit : l <= py_len (w_chunk w) - r).
  { unfold r. destruct (w_is_last w) eqn:E; [lia|].
    specialize (Hroom eq_refl).
    unfold l in *. destruct (j =? 0); lia. }
  rewrite Hst. unfold trim_items.
  rewrite bool_decide_eq_true_2 by (by left).
  rewrite <- Hn. rewrite Hchunk at 1. rewrite py_slice_of_slice.
  - reflexivity.
  - lia.
  - lia.
  - lia.
  - rewrite <- Hchunk. lia.
Qed.

(** What exact trimming keeps of the windows of a chain, put end to end:
    the waveform from the first kept sample on, provided no window other
    than the last is clipped by the end of the waveform. *)
Lemma window_chain_kept (i : Z) (ws : list (window feats)) :
  (forall chunk, p_len (feature_extractor chunk) = py_len chunk) ->
  window_chain_ i ws ->
  (forall w, w ∈ ws -> w_is_last w = false -> w_offset w + chunk_len <= inputs_len) ->
  concat (map (fun w => trim_items Ctc (w_stride w) (w_chunk w)) ws)
  = drop (Z.to_nat (i + (if i =? 0 then 0 else stride_left))) inputs.
Proof.
  intros Hkeep Hchain.
  induction Hchain as [j w Hw Hlast|j w rest Hw Hlast Hchain IH]; intros Hfull;
    pose proof Hw as (Hoff & Hj & _ & His & _);
    assert (Hroom : w_is_last w = false -> j + chunk_len <= inputs_len)
      by (intros Hnot; rewrite <- Hoff; apply Hfull; [by left|exact Hnot]);
    cbn [map concat]; rewrite (window_kept j w Hkeep Hw Hroom), Hlast;
    rewrite Hlast in His; symmetry in His;
    set (l := if j =? 0 then 0 else stride_left);
    assert (Hl : 0 <= l <= stride_left) by (unfold l; destruct (j =? 0); lia).
  - apply Z.leb_le in His.
    rewrite app_nil_r. apply take_ge. rewrite length_drop.
    unfold py_len in *. lia.
  - apply Z.leb_gt in His. specialize (Hroom Hlast).
    rewrite IH by (intros w' Hin; apply Hfull; by right).
    destruct (Z.eqb_spec (j + step) 0) as [|_]; [lia|].
    replace (Z.to_nat (j + step + stride_left))
      with (Z.to_nat (j + l) + Z.to_nat (Z.min chunk_len (inputs_len - j) - stride_right - l))%nat
      by lia.
    rewrite <- drop_drop. apply take_drop.
Qed.

End ChunkProducer.

(** C3, as the code has it: for a non-empty waveform, non-negative strides
    and a chunk length above their sum, [chunk_iter] ends normally having
    yielded at least one window; exactly one yielded window is marked
    [is_last] and it is the last one; the first window has left trim 0, and
    it is the only such window when [stride_left] is positive and the
    feature extractor keeps the length (so that no stride is rescaled);
    with [stride_left = 0] every window has left trim 0. *)
Theorem chunk_iter_last_and_first
    (feats : Type) (feature_extractor : list sample -> processed feats)
    (inputs : list sample) (chunk_len stride_left stride_right : Z) :
  0 < py_len inputs ->
  0 <= stride_left -> 0 <= stride_right ->
  stride_left + stride_right < chunk_len ->
  exists w ws,
    chunk_iter feature_extractor inputs chunk_len stride_left stride_right
      = (w :: ws, None)
    /\ count_last (w :: ws) = 1%nat
    /\ w_is_last <$> last (w :: ws) = Some true
    /\ left_trim w = Some 0
    /\ (0 < stride_left ->
        (forall chunk, p_len (feature_extractor chunk) = py_len chunk) ->
        count_untrimmed_left (w :: ws) = 1%nat)
    /\ (stride_left = 0 ->
        Forall (fun w' => left_trim w' = Some 0) (w :: ws)).
Proof.
  intros Hlen Hl Hr Hc.
  destruct (chunk_iter_chain feats feature_extractor inputs chunk_len
              stride_left stride_right Hl Hr Hc Hlen) as (ws & Hrun & Hchain).
  destruct (window_chain_count_last _ _ _ _ _ _ _ _ Hchain) as [Hcount Hlast].
  destruct (window_chain_untrimmed_once _ _ _ _ _ _ Hc _ Hchain)
    as [(w & rest & -> & Hfirst) [Hall Honce]].
  exists w, rest. repeat split; assumption.
Qed.

(** C4: for non-negative strides and a chunk length above their sum, every
    sample index of the waveform lies in the span
    [[offset, offset + chunk_len)] of a yielded window, whose chunk holds
    that very sample at the matching position. *)
Theorem chunk_iter_covers
    (feats : Type) (feature_extractor : list sample -> processed feats)
    (inputs : list sample) (chunk_len stride_left stride_right : Z) (p : Z) :
  0 <= stride_left -> 0 <= stride_right ->
  stride_left + stride_right < chunk_len ->
  0 <= p < py_len inputs ->
  snd (chunk_iter feature_extractor inputs chunk_len stride_left stride_right)
    = None
  /\ exists w,
      w ∈ fst (chunk_iter feature_extractor inputs chunk_len
                          stride_left stride_right)
      /\ w_offset w <= p < w_offset w + chunk_len
      /\ w_chunk w
         = py_slice inputs (Some (w_offset w)) (Some (w_offset w + chunk_len))
      /\ w_chunk w !! Z.to_nat (p - w_offset w) = inputs !! Z.to_nat p
      /\ is_Some (inputs !! Z.to_nat p).
Proof.
  intros Hl Hr Hc Hp.
  destruct (chunk_iter_chain feats feature_extractor inputs chunk_len
              stride_left stride_right Hl Hr Hc ltac:(lia)) as (ws & Hrun & Hchain).
  rewrite Hrun. split; [reflexivity|].
  destruct (window_chain_covers _ _ _ _ _ _ Hl Hr 0 ws p Hchain ltac:(lia))
    as (w & Hin & Hspan & Hchunk & Hsame).
  exists w. repeat split; try assumption; try lia.
  apply lookup_lt_is_Some. unfold py_len in Hp. lia.
Qed.

(** The round trip of chunking and exact trimming, on the samples
    themselves, holds as long as the end of the waveform clips no window
    before the one marked as last. *)
Theorem exact_trim_round_trip_unclipped
    (feats : Type) (feature_extractor : list sample -> processed feats)
    (inputs : list sample) (chunk_len stride_left stride_right : Z) :
  0 < py_len inputs ->
  0 <= stride_left -> 0 <= stride_right ->
  stride_left + stride_right < chunk_len ->
  (forall chunk, p_len (feature_extractor chunk) = py_len chunk) ->
  (forall w,
      w ∈ fst (chunk_iter feature_extractor inputs chunk_len
                          stride_left stride_right) ->
      w_is_last w = false -> w_offset w + chunk_len <= py_len inputs) ->
  concat (map (fun w => trim_items Ctc (w_stride w) (w_chunk w))
              (fst (chunk_iter feature_extractor inputs chunk_len
                               stride_left stride_right)))
  = inputs.
Proof.
  intros Hlen Hl Hr Hc Hkeep Hfull.
  destruct (chunk_iter_chain feats feature_extractor inputs chunk_len
              stride_left stride_right Hl Hr Hc Hlen) as (ws & Hrun & Hchain).
  rewrite Hrun in *. cbn [fst] in *.
  rewrite (window_chain_kept _ _ _ _ _ _ Hl Hr Hc 0 ws Hkeep Hchain Hfull).
  reflexivity.
Qed.

(** In particular it holds whenever there is no right stride. *)
Corollary exact_trim_round_trip_no_right_stride
    (feats : Type) (feature_extractor : list sample -> processed feats)
    (inputs : list sample) (chunk_len stride_left : Z) :
  0 < py_len inputs ->
  0 <= stride_left -> stride_left < chunk_len ->
  (forall chunk, p_len (feature_extractor chunk) = py_len chunk) ->
  concat (map (fun w => trim_items Ctc (w_stride w) (w_chunk w))
              (fst (chunk_iter feature_extractor inputs chunk_len stride_left 0)))
  = inputs.
Proof.
  intros Hlen Hl Hc Hkeep.
  apply exact_trim_round_trip_unclipped; try assumption; try lia.
  intros w Hin Hlast.
  destruct (chunk_iter_chain feats feature_extractor inputs chunk_len
              stride_left 0 Hl ltac:(lia) ltac:(lia) Hlen) as (ws & Hrun & Hchain).
  rewrite Hrun in Hin. cbn [fst] in Hin.
  pose proof Hchain as Hall.
  apply window_chain_offsets in Hall; [|lia..].
  rewrite Forall_forall in Hall. destruct (Hall w Hin) as [_ Hw].
  destruct Hw as (_ & _ & _ & His & _). rewrite Hlast in His.
  symmetry in His. apply Z.leb_gt in His. lia.
Qed.

(** ** Where errors are raised *)

Lemma elem_of_range_list_bounds (stop step i : Z) :
  step <> 0 -> 0 <= stop -> i ∈ range_list 0 stop step -> 0 <= i < stop.
Proof.
  intros Hstep Hstop Hin. unfold range_list in Hin.
  apply list_elem_of_fmap in Hin as (k & -> & Hk).
  apply elem_of_seq in Hk. unfold range_len in Hk.
  destruct (Z.ltb_spec 0 step) as [Hpos|Hneg].
  - destruct (Z.ltb_spec 0 stop) as [Hs|Hs]; [|lia].
    rewrite Z.sub_0_r in Hk.
    pose proof (Z.div_pos (stop - 1) step ltac:(lia) Hpos).
    pose proof (Z.mul_div_le (stop - 1) step Hpos).
    nia.
  - destruct (Z.ltb_spec stop 0); lia.
Qed.

Section StageFacts.

Variables (feats logit : Type).
Variable read_source : string -> list Byte.byte.
Variable ffmpeg_read : list Byte.byte -> Z -> result pyval.
Variable resample : pyval -> pyval -> Z -> result pyval.
Variable feature_extractor : list sample -> processed feats.
Variable sampling_rate : Z.
Variable pipeline_type : model_type.
Variable inputs_to_logits_ratio : option Q.
Variable model_generate : feats -> gmap string pyval -> list Z.
Variable model_logits : feats -> list logit.
Variable argmax : logit -> Z.
Variable all_special_ids : list Z.
Variable tokenizer_decode : list Z -> bool -> string.
Variable tokenizer_char_offsets : list Z -> bool -> list offset.
Variable tokenizer_word_offsets : list offset -> list offset.
Variable decode_beams : list logit -> gmap string pyval -> string * list offset.

Local Abbreviation preprocess_ :=
  (preprocess feats read_source ffmpeg_read resample feature_extractor
              sampling_rate pipeline_type inputs_to_logits_ratio).
Local Abbreviation forward_ :=
  (_forward feats logit pipeline_type inputs_to_logits_ratio
            model_generate model_logits argmax).
Local Abbreviation postprocess_ :=
  (postprocess logit sampling_rate pipeline_type inputs_to_logits_ratio
               all_special_ids tokenizer_decode tokenizer_char_offsets
               tokenizer_word_offsets decode_beams).

Lemma chunk_iter_raise_first
    (inputs : list sample) (chunk_len stride_left stride_right : Z) (e : exn) :
  snd (chunk_iter feature_extractor inputs chunk_len stride_left stride_right)
    = Some e ->
  fst (chunk_iter feature_extractor inputs chunk_len stride_left stride_right)
    = [].
Proof.
  unfold chunk_iter, py_range.
  destruct (Z.eqb_spec (chunk_len - stride_left - stride_right) 0) as [|Hstep];
    [reflexivity|].
  apply chunk_loop_raise_first.
  intros i Hi. apply (elem_of_range_list_bounds _ _ _ Hstep); [|exact Hi].
  unfold py_len. lia.
Qed.

Lemma preprocess_raise_first (inputs : pipeline_input) (chunk_length_s : Q)
    (stride_length_s : option stride_length) (ignore_warning : bool) (e : exn) :
  snd (preprocess_ inputs chunk_length_s stride_length_s ignore_warning) = Some e ->
  fst (preprocess_ inputs chunk_length_s stride_length_s ignore_warning) = [].
Proof.
  unfold preprocess.
  destruct (decode_input _ _ _ _ inputs) as [[[v st] extra]|e']; [|reflexivity].
  destruct v; try reflexivity.
  destruct (negb (bool_decide _)); [reflexivity|].
  destruct (negb (Qeq_bool chunk_length_s 0)).
  - destruct (chunk_sizes _ _ _ _) as [[[c l] r]|e']; [|reflexivity].
    destruct (c <? l + r); [reflexivity|].
    apply chunk_iter_raise_first.
  - destruct st; [destruct (bool_decide _); [reflexivity|]|]; discriminate.
Qed.

Lemma forward_ok_calls_model (w : window feats)
    (generate_kwargs : gmap string pyval) (n : nat) (o : model_output logit) :
  forward_ w generate_kwargs = (n, Ok o) -> n = 1%nat.
Proof.
  unfold _forward.
  destruct pipeline_type; [congruence| |];
    destruct (p_key (w_processed w)); congruence.
Qed.

Lemma postprocess_unsupported (model_outputs : list (model_output logit))
    (decoder_kwargs : option (gmap string pyval))
    (return_timestamps : option timestamps_kind) :
  unsupported_timestamps pipeline_type return_timestamps ->
  exists msg,
    postprocess_ model_outputs decoder_kwargs return_timestamps
    = Raise (ValueError msg).
Proof.
  intros [[Hts Hty]|[Hts Hty]]; unfold postprocess.
  - rewrite !bool_decide_eq_true_2 by assumption. eexists. reflexivity.
  - rewrite (bool_decide_eq_false_2 (pipeline_type = Seq2seq)) by (rewrite Hty; discriminate).
    rewrite andb_false_r.
    rewrite !bool_decide_eq_true_2 by assumption. eexists. reflexivity.
Qed.

(** C7, as the code has it: an error of [preprocess] comes before its
    first window, hence before any call to the model; an output of
    [_forward] costs one call to the model; the unsupported combinations of
    [return_timestamps] and model family are raised by [postprocess],
    whatever model outputs it is given. *)
Theorem errors_by_stage :
  (forall (inputs : pipeline_input) (chunk_length_s : Q)
          (stride_length_s : option stride_length) (ignore_warning : bool)
          (e : exn),
      snd (preprocess_ inputs chunk_length_s stride_length_s ignore_warning)
        = Some e ->
      fst (preprocess_ inputs chunk_length_s stride_length_s ignore_warning)
        = [])
  /\ (forall (w : window feats) (generate_kwargs : gmap string pyval)
             (n : nat) (o : model_output logit),
      forward_ w generate_kwargs = (n, Ok o) -> n = 1%nat)
  /\ (forall (model_outputs : list (model_output logit))
             (decoder_kwargs : option (gmap string pyval))
             (return_timestamps : option timestamps_kind),
      unsupported_timestamps pipeline_type return_timestamps ->
      exists msg,
        postprocess_ model_outputs decoder_kwargs return_timestamps
        = Raise (ValueError msg)).
Proof.
  split; [exact preprocess_raise_first|].
  split; [exact forward_ok_calls_model|exact postprocess_unsupported].
Qed.

End StageFacts.

(** ** Concrete runs *)

Lemma chunk_length_within_strides_rejected_witness :
  exists msg,
    demo_preprocess 16000 Ctc None (InValue (PArray [3] (ramp 3))) 1
                    (Some (StridePair (1 # 2) (1 # 2))) false
    = ([], Some (ValueError msg)).
Proof.
  unfold demo_preprocess.
  apply (chunk_length_within_strides_rejected (list sample) _ _ _ _ 16000 Ctc None
           (InValue (PArray [3] (ramp 3))) 1 (Some (StridePair (1 # 2) (1 # 2)))
           false 3 (ramp 3) None ∅ 16000 8000 8000).
  - reflexivity.
  - intros H; discriminate H.
  - reflexivity.
  - lia.
Defined.

(** At equality the guard of [preprocess] lets the sizes through and the
    [ValueError] is the one of [range]. *)
Example chunk_length_equal_to_strides_message :
  demo_preprocess 16000 Ctc None (InValue (PArray [3] (ramp 3))) 1
                  (Some (StridePair (1 # 2) (1 # 2))) false
  = ([], Some (ValueError "range() arg 3 must not be zero")).
Proof. reflexivity. Qed.

Lemma chunk_iter_last_and_first_witness :
  exists w ws,
    chunk_iter demo_feature_extractor (ramp 9) 10 2 2 = (w :: ws, None)
    /\ count_last (w :: ws) = 1%nat
    /\ w_is_last <$> last (w :: ws) = Some true
    /\ left_trim w = Some 0
    /\ (0 < 2 ->
        (forall chunk, p_len (demo_feature_extractor chunk) = py_len chunk) ->
        count_untrimmed_left (w :: ws) = 1%nat)
    /\ (2 = 0 -> Forall (fun w' => left_trim w' = Some 0) (w :: ws)).
Proof.
  apply (chunk_iter_last_and_first (list sample) demo_feature_extractor
           (ramp 9) 10 2 2); [reflexivity|lia|lia|lia].
Defined.

(** C3 as stated fails: with [stride_left = 0] both windows of a
    two-sample waveform cut into chunks of one sample have left trim 0. *)
Lemma chunk_iter_untrimmed_twice :
  0 < py_len (ramp 2) /\ 0 + 0 < 1
  /\ snd (chunk_iter demo_feature_extractor (ramp 2) 1 0 0) = None
  /\ count_untrimmed_left (fst (chunk_iter demo_feature_extractor (ramp 2) 1 0 0))
     = 2%nat
  /\ count_untrimmed_left (fst (chunk_iter demo_feature_extractor (ramp 2) 1 0 0))
     <> 1%nat.
Proof.
  split; [reflexivity|]. split; [reflexivity|]. split; [reflexivity|].
  assert (H : count_untrimmed_left
                (fst (chunk_iter demo_feature_extractor (ramp 2) 1 0 0)) = 2%nat)
    by (vm_compute; reflexivity).
  split; [exact H|]. rewrite H. discriminate.
Qed.

Lemma chunk_iter_covers_witness :
  snd (chunk_iter demo_feature_extractor (ramp 9) 10 2 2) = None
  /\ exists w,
      w ∈ fst (chunk_iter demo_feature_extractor (ramp 9) 10 2 2)
      /\ w_offset w <= 7 < w_offset w + 10
      /\ w_chunk w = py_slice (ramp 9) (Some (w_offset w)) (Some (w_offset w + 10))
      /\ w_chunk w !! Z.to_nat (7 - w_offset w) = ramp 9 !! Z.to_nat 7
      /\ is_Some (ramp 9 !! Z.to_nat 7).
Proof.
  apply (chunk_iter_covers (list sample) demo_feature_extractor (ramp 9) 10 2 2 7);
    [lia|lia|lia|].
  split; [lia|reflexivity].
Defined.

Lemma preprocess_array_alias_witness :
  demo_preprocess 16000 Ctc None (InDict example_dict) 0 None false
  = ([{| w_offset := 0; w_chunk := ramp 3; w_is_last := true;
         w_stride := None; w_processed := demo_feature_extractor (ramp 3);
         w_extra := delete "sampling_rate" (delete "array" example_dict) |}],
     None).
Proof.
  unfold demo_preprocess.
  exact (proj1 (preprocess_array_alias (list sample) _ _ _ _ 16000 Ctc None)
               example_dict 3 (ramp 3) 0%Q None false
               eq_refl eq_refl eq_refl eq_refl).
Defined.

Lemma errors_by_stage_witness :
  exists msg,
    demo_postprocess 16000 Seq2seq None [] None (Some TsChar)
    = Raise (ValueError msg).
Proof.
  unfold demo_postprocess.
  apply (proj2 (proj2 (errors_by_stage (list sample) sample (fun _ => [])
           (fun _ _ => Raise (ValueError "no decoder")) (fun v _ _ => Ok v)
           demo_feature_extractor 16000 Seq2seq None
           (fun x _ => map py_round x) (fun x => x) py_round []
           (fun _ _ => "") (fun _ _ => []) (fun o => o) (fun _ _ => ("", []))))).
  left. split; [eexists; reflexivity|reflexivity].
Defined.

(** C7 as stated fails: with timestamps asked of an encoder-decoder model,
    [preprocess] yields its window without raising, [_forward] calls the
    model on it, and only then [postprocess] raises the [ValueError]. *)
Lemma timestamps_error_after_model_call :
  exists w o,
    demo_preprocess 16000 Seq2seq None (InValue (PArray [3] (ramp 3))) 0 None false
      = ([w], None)
    /\ demo_forward Seq2seq None w ∅ = (1%nat, Ok o)
    /\ demo_postprocess 16000 Seq2seq None [o] None (Some TsChar)
       = Raise (ValueError "We cannot return_timestamps yet on non-ctc models !").
Proof.
  eexists _, _. split; [reflexivity|]. split; reflexivity.
Qed.

(** C9 on a waveform of 9 samples at 4 samples per second, cut with a chunk
    length of 2.5 s and strides of 0.5 s, i.e. 10 samples and (2, 2): the
    first window is clipped by the end of the waveform but not marked as
    last, its right trim removes frames 7 and 8, and the second window only
    gives frame 8 back.  Frame 7 is lost. *)
Theorem exact_trim_round_trip_loses_frame :
  exists w1 w2 o1 o2,
    chunk_sizes 4 (Some 1%Q) (5 # 2) (Some (StrideNumber (1 # 2))) = Ok (10, 2, 2)
    /\ demo_preprocess 4 Ctc (Some 1%Q) (InValue (PArray [9] (ramp 9))) (5 # 2)
                       (Some (StrideNumber (1 # 2))) false
       = ([w1; w2], None)
    /\ demo_forward Ctc (Some 1%Q) w1 ∅ = (1%nat, Ok o1)
    /\ demo_forward Ctc (Some 1%Q) w2 ∅ = (1%nat, Ok o2)
    /\ o_payload o1 = Tokens [0; 1; 2; 3; 4; 5; 6; 7; 8]
    /\ o_stride o1 = Some (9, 0, 2)
    /\ o_payload o2 = Tokens [6; 7; 8]
    /\ o_stride o2 = Some (3, 2, 0)
    /\ demo_stitch_tokens Ctc [o1; o2] = Ok [0; 1; 2; 3; 4; 5; 6; 8]
    /\ map py_round (ramp 9) = [0; 1; 2; 3; 4; 5; 6; 7; 8].
Proof.
  eexists _, _, _, _.
  split; [reflexivity|]. split; [reflexivity|].
  split; [reflexivity|]. split; [reflexivity|].
  repeat split; reflexivity.
Qed.

(** * Further properties *)

(** ** More on rounding *)

Lemma py_round_le_int (x : Q) (t : Z) : (x <= inject_Z t)%Q -> py_round x <= t.
Proof.
  intros Hx. pose proof (py_round_upper x) as Hup.
  assert (H : (inject_Z (py_round x) <= inject_Z t + (1 # 2))%Q) by lra.
  unfold Qle, Qplus, inject_Z in H. simpl in H. lia.
Qed.

(** ** More on the stride rescaler *)

(** X1: [rescale_stride] answers one triple per stride, in order, unless some
    stride has input length 0, in which case the division by [input_n]
    raises. *)
Theorem rescale_stride_total_or_zero_division (strides : list stride) (ratio : Q) :
  (Forall (fun s => st_total s <> 0) strides
   /\ exists out,
        rescale_stride strides ratio = Ok out
        /\ length out = length strides
        /\ Forall2 (fun s o => rescale_one ratio s = Ok o) strides out)
  \/ (Exists (fun s => st_total s = 0) strides
      /\ rescale_stride strides ratio = Raise ZeroDivisionError).
Proof.
  unfold rescale_stride.
  induction strides as [|[[n l] r] strides IH].
  - left. split; [constructor|]. exists []. repeat split; constructor.
  - destruct (decide (n = 0)) as [->|Hn].
    + right. split; [by left|]. reflexivity.
    + cbn [mapM]. rewrite rescale_one_ok by assumption.
      destruct IH as [(Hall & out & Hout & Hlen & Hrel)|(Hex & Hraise)].
      * left. split; [by constructor|].
        eexists (_ :: out). rewrite Hout. split; [reflexivity|].
        split; [cbn; by rewrite Hlen|].
        constructor; [|exact Hrel]. by apply rescale_one_ok.
      * right. split; [by right|]. rewrite Hraise. reflexivity.
Qed.

(** With exact arithmetic a ratio of 1 changes nothing. *)
Lemma rescale_stride_identity (strides : list stride) (ratio : Q) :
  (ratio == 1)%Q ->
  Forall (fun s => st_total s <> 0) strides ->
  rescale_stride strides ratio = Ok strides.
Proof.
  intros Hratio Hall. unfold rescale_stride.
  induction Hall as [|[[n l] r] strides Hn _ IH]; [reflexivity|].
  cbn in Hn. cbn [mapM]. rewrite IH, rescale_one_ok by assumption.
  assert (Hn' : ~ (inject_Z n == 0)%Q)
    by (unfold Qeq, inject_Z; simpl; lia).
  rewrite (py_round_int (inject_Z n * ratio) n) by (rewrite Hratio; ring).
  rewrite (py_round_int _ l) by (field; exact Hn').
  rewrite (py_round_int _ r) by (field; exact Hn').
  reflexivity.
Qed.

(** X3: for a non-negative ratio, each rescaled trim of a stride whose
    trims lie within its window lies within the rescaled window. *)
Theorem rescale_stride_trims_within (n l r : Z) (ratio : Q) :
  0 < n -> 0 <= l <= n -> 0 <= r <= n -> (0 <= ratio)%Q ->
  exists n' l' r',
    rescale_stride [(n, l, r)] ratio = Ok [(n', l', r')]
    /\ 0 <= n' /\ 0 <= l' <= n' /\ 0 <= r' <= n'.
Proof.
  intros Hn Hl Hr Hratio.
  unfold rescale_stride. cbn [mapM]. rewrite rescale_one_ok by lia.
  eexists _, _, _. split; [reflexivity|].
  set (t := py_round (inject_Z n * ratio)).
  assert (Hn' : (0 < inject_Z n)%Q) by (unfold Qlt, inject_Z; simpl; lia).
  assert (Ht : 0 <= t).
  { apply py_round_nonneg. apply Qmult_le_0_compat; [lra|assumption]. }
  assert (Ht' : (0 <= inject_Z t)%Q) by (unfold Qle, inject_Z; simpl; lia).
  assert (Hfrac : forall k, 0 <= k <= n ->
            (0 <= inject_Z k / inject_Z n * inject_Z t <= inject_Z t)%Q).
  { intros k Hk.
    assert (Hk0 : (0 <= inject_Z k / inject_Z n)%Q).
    { apply Qle_shift_div_l; [assumption|].
      rewrite Qmult_0_l. unfold Qle, inject_Z; simpl; lia. }
    assert (Hk1 : (inject_Z k / inject_Z n <= 1)%Q).
    { apply Qle_shift_div_r; [assumption|].
      rewrite Qmult_1_l. unfold Qle, inject_Z; simpl; lia. }
    split.
    - apply Qmult_le_0_compat; assumption.
    - rewrite <- (Qmult_1_l (inject_Z t)) at 2.
      apply Qmult_le_compat_r; assumption. }
  split; [exact Ht|].
  split; (split; [apply py_round_nonneg|apply py_round_le_int]); apply Hfrac; lia.
Qed.

Lemma rescale_stride_trims_within_witness :
  exists n' l' r',
    rescale_stride [(8, 2, 2)] (1 # 2) = Ok [(n', l', r')]
    /\ 0 <= n' /\ 0 <= l' <= n' /\ 0 <= r' <= n'.
Proof.
  apply (rescale_stride_trims_within 8 2 2 (1 # 2)); [lia|lia|lia|].
  intros H; discriminate H.
Defined.

(** ** More on the chunk producer *)

Section ChunkWindows.

Variables (feats : Type).
Variable feature_extractor : list sample -> processed feats.
Variable inputs : list sample.

Lemma window_stride_total (chunk : list sample) (l r : Z) (st : stride) :
  window_stride feature_extractor chunk l r = Ok st ->
  st_total st = p_len (feature_extractor chunk).
Proof.
  unfold window_stride.
  destruct (Z.eqb_spec (p_len (feature_extractor chunk)) (py_len chunk)) as [Heq|Hneq];
    cbn [negb].
  - intros [= <-]. cbn. congruence.
  - unfold py_truediv at 1.
    destruct (Z.eqb_spec (py_len chunk) 0) as [|Hn]; [discriminate|].
    cbn [mbind result_bind rbind].
    rewrite rescale_stride_single_ok, rescale_one_ok by assumption.
    intros [= <-]. cbn. apply py_round_int.
    assert (Hn' : ~ (inject_Z (py_len chunk) == 0)%Q)
      by (unfold Qeq, inject_Z; simpl; lia).
    field. exact Hn'.
Qed.

Lemma chunk_loop_stride_total (step stride_left stride_right chunk_len : Z)
    (idxs : list Z) :
  Forall (fun w => w_processed w = feature_extractor (w_chunk w)
                   /\ w_extra w = ∅
                   /\ exists st, w_stride w = Some st
                                 /\ st_total st = p_len (w_processed w))
         (fst (chunk_loop feature_extractor inputs step stride_left stride_right
                          chunk_len idxs)).
Proof.
  revert chunk_len. induction idxs as [|i rest IH]; intros chunk_len;
    [constructor|].
  cbn [chunk_loop].
  set (chunk := py_slice inputs (Some i) (Some (i + chunk_len))).
  destruct (window_stride _ chunk _ _) as [st|e] eqn:Est; [|constructor].
  destruct (_ <? py_len chunk); [|apply IH].
  constructor; [|apply IH].
  cbn. split; [reflexivity|]. split; [reflexivity|].
  exists st. split; [reflexivity|]. exact (window_stride_total _ _ _ _ Est).
Qed.

End ChunkWindows.

(** X4: every window that [chunk_iter] yields carries the features of its own
    chunk, no extra key, and a stride whose total length is the length of
    those features, rescaled or not. *)
Theorem chunk_iter_stride_total
    (feats : Type) (feature_extractor : list sample -> processed feats)
    (inputs : list sample) (chunk_len stride_left stride_right : Z) :
  Forall (fun w => w_processed w = feature_extractor (w_chunk w)
                   /\ w_extra w = ∅
                   /\ exists st, w_stride w = Some st
                                 /\ st_total st = p_len (w_processed w))
         (fst (chunk_iter feature_extractor inputs chunk_len
                          stride_left stride_right)).
Proof.
  unfold chunk_iter. destruct (py_range _ _ _) as [idxs|e]; [|constructor].
  apply chunk_loop_stride_total.
Qed.

(** X5: for a chunk length of at least one sample, the only exception of
    [chunk_iter] is the one of [range] on a step of 0. *)
Theorem chunk_iter_raises_only_on_zero_step
    (feats : Type) (feature_extractor : list sample -> processed feats)
    (inputs : list sample) (chunk_len stride_left stride_right : Z) :
  1 <= chunk_len ->
  (chunk_len - stride_left - stride_right = 0
   /\ chunk_iter feature_extractor inputs chunk_len stride_left stride_right
      = ([], Some (ValueError "range() arg 3 must not be zero")))
  \/ (chunk_len - stride_left - stride_right <> 0
      /\ snd (chunk_iter feature_extractor inputs chunk_len
                         stride_left stride_right) = None).
Proof.
  intros Hc. unfold chunk_iter, py_range.
  destruct (Z.eqb_spec (chunk_len - stride_left - stride_right) 0) as [H0|Hstep].
  - left. split; [exact H0|reflexivity].
  - right. split; [exact Hstep|].
    apply chunk_loop_no_raise; [by left|].
    intros i Hi. apply (elem_of_range_list_bounds _ _ _ Hstep); [|exact Hi].
    unfold py_len. lia.
Qed.

Lemma chunk_iter_raises_only_on_zero_step_witness :
  (10 - 5 - 5 = 0
   /\ chunk_iter demo_feature_extractor (ramp 9) 10 5 5
      = ([], Some (ValueError "range() arg 3 must not be zero")))
  \/ (10 - 5 - 5 <> 0
      /\ snd (chunk_iter demo_feature_extractor (ramp 9) 10 5 5) = None).
Proof.
  apply (chunk_iter_raises_only_on_zero_step (list sample)
           demo_feature_extractor (ramp 9) 10 5 5). lia.
Defined.

Lemma window_chain_lookup
    (feats : Type) (feature_extractor : list sample -> processed feats)
    (inputs : list sample) (chunk_len stride_left stride_right : Z)
    (i : Z) (ws : list (window feats)) (k : nat) (w : window feats) :
  window_chain feats feature_extractor inputs chunk_len stride_left stride_right
               i ws ->
  ws !! k = Some w ->
  window_at feats feature_extractor inputs chunk_len stride_left stride_right
            (i + Z.of_nat k * (chunk_len - stride_left - stride_right)) w.
Proof.
  intros Hchain. revert k.
  induction Hchain as [j w' Hw Hlast|j w' rest Hw Hlast Hchain IH]; intros k Hk.
  - destruct k as [|k]; [|destruct k; discriminate Hk].
    injection Hk as <-. replace (j + _) with j by lia. exact Hw.
  - destruct k as [|k].
    + injection Hk as <-. replace (j + _) with j by lia. exact Hw.
    + cbn in Hk. specialize (IH k Hk).
      replace (j + Z.of_nat (S k) * (chunk_len - stride_left - stride_right))
        with (j + (chunk_len - stride_left - stride_right)
              + Z.of_nat k * (chunk_len - stride_left - stride_right)) by lia.
      exact IH.
Qed.

(** X6: the window yielded in position [k] starts at sample [k * step], holds
    the samples [inputs[k * step : k * step + chunk_len]] (at least one more
    than its left trim), and is marked as last exactly when
    [k * step + step + stride_left] reaches the end of the waveform. *)
Theorem chunk_iter_kth_window
    (feats : Type) (feature_extractor : list sample -> processed feats)
    (inputs : list sample) (chunk_len stride_left stride_right : Z)
    (k : nat) (w : window feats) :
  0 <= stride_left -> 0 <= stride_right ->
  stride_left + stride_right < chunk_len ->
  fst (chunk_iter feature_extractor inputs chunk_len stride_left stride_right)
    !! k = Some w ->
  let step := chunk_len - stride_left - stride_right in
  let i := Z.of_nat k * step in
  w_offset w = i
  /\ 0 <= i < py_len inputs
  /\ w_chunk w = py_slice inputs (Some i) (Some (i + chunk_len))
  /\ (if i =? 0 then 0 else stride_left) < py_len (w_chunk w)
  /\ w_is_last w = (py_len inputs <=? i + step + stride_left).
Proof.
  intros Hl Hr Hc Hk step i.
  destruct (decide (0 < py_len inputs)) as [Hpos|Hempty].
  - destruct (chunk_iter_chain feats feature_extractor inputs chunk_len
                stride_left stride_right Hl Hr Hc Hpos) as (ws & Hrun & Hchain).
    rewrite Hrun in Hk. cbn [fst] in Hk.
    pose proof (window_chain_lookup _ _ _ _ _ _ _ _ _ _ Hchain Hk) as Hw.
    rewrite Z.add_0_l in Hw.
    destruct Hw as (Hoff & Hi & Hchunk & His & _ & Hemit & _).
    repeat split; try assumption; lia.
  - exfalso. destruct inputs as [|x rest];
      [|unfold py_len in Hempty; cbn [length] in Hempty; lia].
    unfold chunk_iter, py_range in Hk.
    destruct (Z.eqb_spec (chunk_len - stride_left - stride_right) 0);
      [lia|]. rewrite range_list_unfold in Hk by lia. discriminate Hk.
Qed.

Lemma chunk_iter_kth_window_witness :
  exists w,
    fst (chunk_iter demo_feature_extractor (ramp 9) 10 2 2) !! 1%nat = Some w
    /\ w_offset w = 6
    /\ 0 <= 6 < py_len (ramp 9)
    /\ w_chunk w = py_slice (ramp 9) (Some 6) (Some (6 + 10))
    /\ (if 6 =? 0 then 0 else 2) < py_len (w_chunk w)
    /\ w_is_last w = (py_len (ramp 9) <=? 6 + 6 + 2).
Proof.
  eexists. split; [reflexivity|].
  apply (chunk_iter_kth_window (list sample) demo_feature_extractor (ramp 9)
           10 2 2 1%nat); [lia|lia|lia|reflexivity].
Defined.

Lemma exact_trim_round_trip_no_right_stride_witness :
  concat (map (fun w => trim_items Ctc (w_stride w) (w_chunk w))
              (fst (chunk_iter demo_feature_extractor (ramp 9) 4 1 0)))
  = ramp 9.
Proof.
  apply (exact_trim_round_trip_no_right_stride (list sample)
           demo_feature_extractor (ramp 9) 4 1);
    [reflexivity|lia|lia|intros chunk; reflexivity].
Defined.

Lemma exact_trim_round_trip_unclipped_witness :
  concat (map (fun w => trim_items Ctc (w_stride w) (w_chunk w))
              (fst (chunk_iter demo_feature_extractor (ramp 14) 10 2 2)))
  = ramp 14.
Proof.
  apply (exact_trim_round_trip_unclipped (list sample)
           demo_feature_extractor (ramp 14) 10 2 2);
    [reflexivity|lia|lia|lia|intros chunk; reflexivity|].
  intros w Hin Hlast.
  vm_compute in Hin.
  apply elem_of_cons in Hin as [->|Hin]; [vm_compute; discriminate|].
  apply elem_of_cons in Hin as [->|Hin]; [discriminate Hlast|].
  apply elem_of_nil in Hin. contradiction.
Defined.

(** ** Chunked inference with a frame classifier, end to end *)

Lemma py_slice_map {A B} (f : A -> B) (l : list A) (lo hi : option Z) :
  py_slice (map f l) lo hi = map f (py_slice l lo hi).
Proof.
  unfold py_slice. rewrite length_map, skipn_map, firstn_map. reflexivity.
Qed.

Section FrameClassifier.

Variables (feats logit : Type).
Variable feature_extractor : list sample -> processed feats.
Variable ratio : Q.
Variable model_generate : feats -> gmap string pyval -> list Z.
Variable model_logits : feats -> list logit.
Variable argmax : logit -> Z.
Variable all_special_ids : list Z.
Variable token_of : sample -> Z.

Hypothesis ratio_one : (ratio == 1)%Q.
Hypothesis extractor_key : forall chunk, p_key (feature_extractor chunk) = InputValues.
Hypothesis one_frame_per_sample :
  forall chunk,
    map argmax (model_logits (p_data (feature_extractor chunk)))
    = map token_of chunk.

Local Abbreviation forward_ :=
  (_forward feats logit Ctc (Some ratio) model_generate model_logits argmax).

Lemma forward_frame_classifier (w : window feats) (st : stride)
    (generate_kwargs : gmap string pyval) :
  w_processed w = feature_extractor (w_chunk w) ->
  w_stride w = Some st -> st_total st <> 0 ->
  forward_ w generate_kwargs
  = (1%nat, Ok {| o_is_last := w_is_last w;
                  o_payload := Tokens (map token_of (w_chunk w));
                  o_stride := Some st;
                  o_extra := w_extra w |}).
Proof.
  intros Hproc Hst Hn. unfold _forward.
  rewrite Hproc, extractor_key, Hst, one_frame_per_sample.
  rewrite py_qdiv_ok by (rewrite ratio_one; discriminate).
  cbn [mbind result_bind rbind].
  unfold rescale_stride_single.
  rewrite (rescale_stride_identity [st] (1 / ratio))
    by (first [rewrite ratio_one; reflexivity | by repeat constructor]).
  reflexivity.
Qed.

Lemma final_items_frame_classifier (ws : list (window feats))
    (outs : list (model_output logit)) (generate_kwargs : gmap string pyval) :
  Forall (fun w => w_processed w = feature_extractor (w_chunk w)
                   /\ exists st, w_stride w = Some st /\ st_total st <> 0) ws ->
  Forall2 (fun w o => snd (forward_ w generate_kwargs) = Ok o) ws outs ->
  final_items logit Ctc (get_tokens logit) outs
  = Ok (map (fun w => map token_of (trim_items Ctc (w_stride w) (w_chunk w))) ws).
Proof.
  intros Hall Hfw. unfold final_items.
  induction Hfw as [|w o ws outs Hwo _ IH]; [reflexivity|].
  apply Forall_cons in Hall as [(Hproc & st & Hst & Hn) Hall].
  rewrite (forward_frame_classifier w st _ Hproc Hst Hn) in Hwo.
  injection Hwo as <-.
  cbn [mapM]. rewrite (IH Hall). cbn.
  rewrite Hst. destruct st as [[n l] r]. unfold trim_items.
  rewrite bool_decide_eq_true_2 by (by left).
  rewrite py_slice_map. reflexivity.
Qed.

End FrameClassifier.

Lemma frame_classifier_stitched
    (feats logit : Type) (feature_extractor : list sample -> processed feats)
    (ratio : Q) (model_generate : feats -> gmap string pyval -> list Z)
    (model_logits : feats -> list logit) (argmax : logit -> Z)
    (all_special_ids : list Z) (token_of : sample -> Z)
    (inputs : list sample) (chunk_len stride_left stride_right : Z)
    (generate_kwargs : gmap string pyval) (outs : list (model_output logit)) :
  (ratio == 1)%Q ->
  (forall chunk, p_key (feature_extractor chunk) = InputValues) ->
  (forall chunk, p_len (feature_extractor chunk) = py_len chunk) ->
  (forall chunk,
      map argmax (model_logits (p_data (feature_extractor chunk)))
      = map token_of chunk) ->
  0 < py_len inputs ->
  0 <= stride_left -> 0 <= stride_right ->
  stride_left + stride_right < chunk_len ->
  (forall w,
      w ∈ fst (chunk_iter feature_extractor inputs chunk_len
                          stride_left stride_right) ->
      w_is_last w = false -> w_offset w + chunk_len <= py_len inputs) ->
  Forall2 (fun w o =>
             snd (_forward feats logit Ctc (Some ratio) model_generate
                           model_logits argmax w generate_kwargs) = Ok o)
          (fst (chunk_iter feature_extractor inputs chunk_len
                           stride_left stride_right))
          outs ->
  stitch_tokens logit Ctc all_special_ids outs = Ok (map token_of inputs).
Proof.
  intros Hratio Hkey Hkeep Hmodel Hlen Hl Hr Hc Hfull Hfw.
  pose proof (exact_trim_round_trip_unclipped feats feature_extractor inputs
                chunk_len stride_left stride_right Hlen Hl Hr Hc Hkeep Hfull)
    as Htrip.
  destruct (chunk_iter_chain feats feature_extractor inputs chunk_len
              stride_left stride_right Hl Hr Hc Hlen) as (ws & Hrun & Hchain).
  rewrite Hrun in *. cbn [fst] in *.
  assert (Hall : Forall (fun w => w_processed w = feature_extractor (w_chunk w)
                   /\ exists st, w_stride w = Some st /\ st_total st <> 0) ws).
  { pose proof Hchain as Hoffs.
    apply window_chain_offsets in Hoffs; [|lia..].
    eapply Forall_impl; [exact Hoffs|].
    intros w [_ (_ & _ & _ & _ & Hproc & Hemit & st & Hst & _ & Hid)].
    split; [exact Hproc|]. exists st. split; [exact Hst|].
    rewrite (Hid (Hkeep _)). cbn.
    destruct (w_offset w =? 0); lia. }
  unfold stitch_tokens.
  rewrite (final_items_frame_classifier feats logit feature_extractor ratio
             model_generate model_logits argmax token_of Hratio Hkey
             Hmodel ws outs generate_kwargs Hall Hfw).
  cbn [mbind result_bind rbind].
  rewrite (bool_decide_eq_false_2 (Ctc = Seq2seq)) by discriminate.
  rewrite andb_false_r.
  destruct ws as [|w ws]; [inversion Hchain|].
  unfold np_concatenate. cbn [map]. f_equal.
  change (concat (map token_of (trim_items Ctc (w_stride w) (w_chunk w))
            :: map (fun w0 => map token_of (trim_items Ctc (w_stride w0) (w_chunk w0))) ws))
    with (concat (map (fun w0 => map token_of (trim_items Ctc (w_stride w0) (w_chunk w0)))
                      (w :: ws))).
  rewrite <- Htrip at 1.
  rewrite concat_map, map_map. reflexivity.
Qed.

(** X8: with a frame classifier that answers one frame per sample (ratio 1,
    length-keeping feature extractor filed under ["input_values"]), cutting
    the waveform with [chunk_iter], running [_forward] on every window and
    stitching with [postprocess]'s exact trimming gives the tokens of the
    whole waveform, as long as the end of the waveform clips no window
    before the one marked as last. *)
Theorem frame_classifier_chunked_round_trip
    (feats logit : Type) (feature_extractor : list sample -> processed feats)
    (ratio : Q) (model_generate : feats -> gmap string pyval -> list Z)
    (model_logits : feats -> list logit) (argmax : logit -> Z)
    (all_special_ids : list Z) (token_of : sample -> Z)
    (inputs : list sample) (chunk_len stride_left stride_right : Z)
    (generate_kwargs : gmap string pyval) (outs : list (model_output logit)) :
  (ratio == 1)%Q ->
  (forall chunk, p_key (feature_extractor chunk) = InputValues) ->
  (forall chunk, p_len (feature_extractor chunk) = py_len chunk) ->
  (forall chunk,
      map argmax (model_logits (p_data (feature_extractor chunk)))
      = map token_of chunk) ->
  0 < py_len inputs ->
  0 <= stride_left -> 0 <= stride_right ->
  stride_left + stride_right < chunk_len ->
  (forall w,
      w ∈ fst (chunk_iter feature_extractor inputs chunk_len
                          stride_left stride_right) ->
      w_is_last w = false -> w_offset w + chunk_len <= py_len inputs) ->
  Forall2 (fun w o =>
             snd (_forward feats logit Ctc (Some ratio) model_generate
                           model_logits argmax w generate_kwargs) = Ok o)
          (fst (chunk_iter feature_extractor inputs chunk_len
                           stride_left stride_right))
          outs ->
  stitch_tokens logit Ctc all_special_ids outs = Ok (map token_of inputs).
Proof. apply frame_classifier_stitched. Qed.

(** X9: with the same frame classifier and no right stride, chunked
    inference followed by exact trimming always gives the tokens of the
    whole waveform. *)
Theorem frame_classifier_round_trip_no_right_stride
    (feats logit : Type) (feature_extractor : list sample -> processed feats)
    (ratio : Q) (model_generate : feats -> gmap string pyval -> list Z)
    (model_logits : feats -> list logit) (argmax : logit -> Z)
    (all_special_ids : list Z) (token_of : sample -> Z)
    (inputs : list sample) (chunk_len stride_left : Z)
    (generate_kwargs : gmap string pyval) (outs : list (model_output logit)) :
  (ratio == 1)%Q ->
  (forall chunk, p_key (feature_extractor chunk) = InputValues) ->
  (forall chunk, p_len (feature_extractor chunk) = py_len chunk) ->
  (forall chunk,
      map argmax (model_logits (p_data (feature_extractor chunk)))
      = map token_of chunk) ->
  0 < py_len inputs ->
  0 <= stride_left -> stride_left < chunk_len ->
  Forall2 (fun w o =>
             snd (_forward feats logit Ctc (Some ratio) model_generate
                           model_logits argmax w generate_kwargs) = Ok o)
          (fst (chunk_iter feature_extractor inputs chunk_len stride_left 0))
          outs ->
  stitch_tokens logit Ctc all_special_ids outs = Ok (map token_of inputs).
Proof.
  intros Hratio Hkey Hkeep Hmodel Hlen Hl Hc Hfw.
  apply (frame_classifier_stitched feats logit feature_extractor ratio
           model_generate model_logits argmax all_special_ids token_of inputs
           chunk_len stride_left 0 generate_kwargs outs);
    try assumption; try lia.
  intros w Hin Hlast.
  destruct (chunk_iter_chain feats feature_extractor inputs chunk_len
              stride_left 0 Hl ltac:(lia) ltac:(lia) Hlen) as (ws & Hrun & Hchain).
  rewrite Hrun in Hin. cbn [fst] in Hin.
  pose proof Hchain as Hall.
  apply window_chain_offsets in Hall; [|lia..].
  rewrite Forall_forall in Hall. destruct (Hall w Hin) as [_ Hw].
  destruct Hw as (_ & _ & _ & His & _). rewrite Hlast in His.
  symmetry in His. apply Z.leb_gt in His. lia.
Qed.


Lemma frame_classifier_chunked_round_trip_witness :
  exists outs,
    Forall2 (fun w o => snd (demo_forward Ctc (Some 1%Q) w ∅) = Ok o)
            (fst (chunk_iter demo_feature_extractor (ramp 14) 10 2 2)) outs
    /\ demo_stitch_tokens Ctc outs = Ok (map py_round (ramp 14)).
Proof.
  assert (Hfw : Forall2 (fun w o => snd (demo_forward Ctc (Some 1%Q) w ∅) = Ok o)
            (fst (chunk_iter demo_feature_extractor (ramp 14) 10 2 2))
            (map (fun w => {| o_is_last := w_is_last w;
                              o_payload := Tokens (map py_round (w_chunk w));
                              o_stride := w_stride w;
                              o_extra := w_extra w |})
                 (fst (chunk_iter demo_feature_extractor (ramp 14) 10 2 2)))).
  { vm_compute. repeat constructor. }
  eexists. split; [exact Hfw|].
  unfold demo_stitch_tokens. unfold demo_forward in Hfw.
  apply (frame_classifier_chunked_round_trip (list sample) sample
           demo_feature_extractor 1 (fun x _ => map py_round x) (fun x => x)
           py_round [] py_round (ramp 14) 10 2 2 ∅ _);
    [reflexivity|intros chunk; reflexivity|intros chunk; reflexivity
    |intros chunk; reflexivity|reflexivity|lia|lia|lia| |exact Hfw].
  intros w Hin Hlast. vm_compute in Hin.
  apply elem_of_cons in Hin as [->|Hin]; [vm_compute; discriminate|].
  apply elem_of_cons in Hin as [->|Hin]; [discriminate Hlast|].
  apply elem_of_nil in Hin. contradiction.
Defined.

Lemma frame_classifier_round_trip_no_right_stride_witness :
  exists outs,
    Forall2 (fun w o => snd (demo_forward Ctc (Some 1%Q) w ∅) = Ok o)
            (fst (chunk_iter demo_feature_extractor (ramp 9) 4 1 0)) outs
    /\ demo_stitch_tokens Ctc outs = Ok (map py_round (ramp 9)).
Proof.
  assert (Hfw : Forall2 (fun w o => snd (demo_forward Ctc (Some 1%Q) w ∅) = Ok o)
            (fst (chunk_iter demo_feature_extractor (ramp 9) 4 1 0))
            (map (fun w => {| o_is_last := w_is_last w;
                              o_payload := Tokens (map py_round (w_chunk w));
                              o_stride := w_stride w;
                              o_extra := w_extra w |})
                 (fst (chunk_iter demo_feature_extractor (ramp 9) 4 1 0)))).
  { vm_compute. repeat constructor. }
  eexists. split; [exact Hfw|].
  unfold demo_stitch_tokens. unfold demo_forward in Hfw.
  apply (frame_classifier_round_trip_no_right_stride (list sample) sample
           demo_feature_extractor 1 (fun x _ => map py_round x) (fun x => x)
           py_round [] py_round (ramp 9) 4 1 ∅ _);
    [reflexivity|intros chunk; reflexivity|intros chunk; reflexivity
    |intros chunk; reflexivity|reflexivity|lia|lia|exact Hfw].
Defined.

(** ** More on the fuzzy stitcher *)

Lemma py_slice_sublist {A} (l : list A) (lo hi : option Z) :
  py_slice l lo hi `sublist_of` l.
Proof.
  unfold py_slice. etransitivity; [apply sublist_take|apply sublist_drop].
Qed.

Lemma elem_of_py_slice {A} (l : list A) (lo hi : option Z) (x : A) :
  x ∈ py_slice l lo hi -> x ∈ l.
Proof. intros Hx. exact (elem_of_sublist _ _ _ Hx (py_slice_sublist l lo hi)). Qed.

Lemma lcs_merge_fold (all_special_ids : list Z) (others : list (list Z))
    (acc : list Z) :
  let out := foldl (fun sequence new_seq =>
                      lcs_merge sequence (strip_special all_special_ids new_seq))
                   acc others in
  acc `prefix_of` out
  /\ (length out <= length acc
        + length (concat (map (strip_special all_special_ids) others)))%nat
  /\ forall t, t ∈ out ->
       t ∈ acc \/ exists s, s ∈ others /\ t ∈ strip_special all_special_ids s.
Proof.
  revert acc. induction others as [|new others IH]; intros acc; cbn zeta.
  - cbn. split; [reflexivity|]. split; [lia|]. intros t Ht. by left.
  - cbn [foldl map concat].
    set (stripped := strip_special all_special_ids new).
    destruct (IH (lcs_merge acc stripped)) as (Hpre & Hlen & Hin).
    unfold lcs_merge in Hpre, Hlen, Hin |- *.
    set (tail := py_slice stripped (Some (lcs_index acc stripped)) None) in *.
    assert (Htail : (length tail <= length stripped)%nat)
      by apply sublist_length, py_slice_sublist.
    split; [|split].
    + etransitivity; [|exact Hpre]. by apply prefix_app_r.
    + rewrite !length_app in *. lia.
    + intros t Ht. destruct (Hin t Ht) as [Hacc|(s & Hs & Hts)].
      * apply elem_of_app in Hacc as [Hacc|Htl]; [by left|].
        right. exists new. split; [by left|].
        by apply elem_of_py_slice in Htl.
      * right. exists s. split; [by right|exact Hts].
Qed.

(** X10: the stitched sequence holds no special token, and each of its tokens
    comes from one of the sequences it was stitched from. *)
Theorem lcs_tokens_from_inputs
    (sequences : list (list Z)) (all_special_ids : list Z) (out : list Z) (t : Z) :
  _find_longest_common_sequence sequences all_special_ids = Ok out ->
  t ∈ out ->
  (t ∉ all_special_ids) /\ (exists s, s ∈ sequences /\ t ∈ s).
Proof.
  unfold _find_longest_common_sequence.
  destruct sequences as [|first others]; [discriminate|].
  intros [= <-] Ht.
  destruct (lcs_merge_fold all_special_ids others
              (strip_special all_special_ids first)) as (_ & _ & Hin).
  assert (Hstrip : forall s, t ∈ strip_special all_special_ids s ->
                             (t ∉ all_special_ids) /\ (t ∈ s))
    by (intros s Hs; by apply list_elem_of_filter in Hs).
  destruct (Hin t Ht) as [Hfirst|(s & Hs & Hts)].
  - destruct (Hstrip _ Hfirst). split; [assumption|].
    exists first. split; [by left|assumption].
  - destruct (Hstrip _ Hts). split; [assumption|].
    exists s. split; [by right|assumption].
Qed.

Lemma lcs_tokens_from_inputs_witness :
  (4 ∉ [0]) /\ (exists s, s ∈ [[1; 0; 2]; [2; 0; 3; 4]] /\ 4 ∈ s).
Proof.
  apply (lcs_tokens_from_inputs [[1; 0; 2]; [2; 0; 3; 4]] [0] [1; 2; 2; 3; 4] 4).
  - reflexivity.
  - repeat constructor.
Defined.

(** X11: stitching never touches what is already accumulated: the first
    sequence, special tokens removed, is a prefix of the result, and the
    result is no longer than all the sequences put end to end. *)
Theorem lcs_keeps_first_sequence
    (first : list Z) (others : list (list Z)) (all_special_ids : list Z) :
  exists out,
    _find_longest_common_sequence (first :: others) all_special_ids = Ok out
    /\ strip_special all_special_ids first `prefix_of` out
    /\ (length out
        <= length (concat (map (strip_special all_special_ids)
                               (first :: others))))%nat.
Proof.
  unfold _find_longest_common_sequence. eexists. split; [reflexivity|].
  destruct (lcs_merge_fold all_special_ids others
              (strip_special all_special_ids first)) as (Hpre & Hlen & _).
  split; [exact Hpre|]. cbn [map concat]. rewrite length_app. exact Hlen.
Qed.

Lemma hits_le (x y : list Z) :
  (length (filter (fun p : Z * Z => fst p = snd p) (zip x y)) <= length y)%nat.
Proof.
  etransitivity; [apply length_filter|].
  rewrite length_zip_with. lia.
Qed.

Lemma hits_same (x : list Z) :
  length (filter (fun p : Z * Z => fst p = snd p) (zip x x)) = length x.
Proof.
  induction x as [|a x IH]; [reflexivity|].
  cbn [zip_with]. rewrite filter_cons_True by reflexivity.
  cbn [length]. by rewrite IH.
Qed.

Lemma np_eq_count_le (a b : list Z) :
  (length a <= length b)%nat -> np_eq_count a b <= py_len b.
Proof.
  intros Hab. unfold np_eq_count, py_len.
  destruct (decide (length a = length b)) as [_|Hne].
  - pose proof (hits_le a b). lia.
  - destruct a as [|x [|x' a']].
    + destruct b as [|y [|y' b']]; cbn in *; lia.
    + pose proof (hits_le (replicate (length b) x) b). lia.
    + destruct b as [|y [|y' b']]; cbn [length] in *; lia.
Qed.

Lemma np_eq_count_same (a : list Z) : np_eq_count a a = py_len a.
Proof.
  unfold np_eq_count, py_len.
  destruct (decide (length a = length a)); [|contradiction].
  by rewrite hits_same.
Qed.

Section PerfectOverlap.

Variables sequence new_sequence : list Z.

Local Abbreviation matches_ := (overlap_matches sequence new_sequence).
Local Abbreviation score_ := (overlap_score sequence new_sequence).

Lemma overlap_matches_le (i : Z) :
  1 <= i <= py_len new_sequence -> matches_ i <= i.
Proof.
  intros Hi. unfold overlap_matches.
  set (a := py_slice sequence (Some (- i)) None).
  set (b := py_slice new_sequence None (Some i)).
  assert (Hb : py_len b = i).
  { unfold b, py_slice, py_clamp, py_len in *.
    destruct (Z.ltb_spec i 0); [lia|]. rewrite length_take, length_drop. lia. }
  assert (Ha : py_len a <= i).
  { unfold a, py_slice, py_clamp, py_len in *.
    destruct (Z.ltb_spec (- i) 0); [|lia]. rewrite length_take, length_drop. lia. }
  rewrite <- Hb. apply np_eq_count_le. unfold py_len in *. lia.
Qed.

Lemma overlap_matches_nonneg (i : Z) : 0 <= matches_ i.
Proof.
  unfold overlap_matches, np_eq_count, py_len.
  destruct (decide _); [lia|].
  destruct (py_slice sequence _ _) as [|x [|x' a]];
    destruct (py_slice new_sequence _ _) as [|y [|y' b]]; lia.
Qed.

(** Below [2^53] the two ints are converted without loss, and the score
    is within two roundings of its exact value. *)
Lemma overlap_score_bounds (i : Z) :
  1 <= i < 2 ^ 53 -> matches_ i <= i ->
  (overlap_score_exact sequence new_sequence i * (1 - b64_unit) * (1 - b64_unit)
     <= score_ i
   /\ score_ i
      <= overlap_score_exact sequence new_sequence i
         * (1 + b64_unit) * (1 + b64_unit))%Q.
Proof.
  intros Hi Hm. pose proof (overlap_matches_nonneg i) as Hm0.
  unfold overlap_score, overlap_score_exact, fadd, fdiv, py_float.
  set (m := matches_ i) in *.
  pose proof (b64_exact i ltac:(lia)) as EI.
  pose proof (b64_exact m ltac:(lia)) as EM.
  assert (HI : (0 < inject_Z i)%Q) by (unfold Qlt, inject_Z; simpl; lia).
  assert (HM : (0 <= inject_Z m)%Q) by (unfold Qle, inject_Z; simpl; lia).
  assert (Eq : (b64 (inject_Z m) / b64 (inject_Z i) == inject_Z m / inject_Z i)%Q)
    by (rewrite EM, EI; reflexivity).
  assert (Et : (b64 (inject_Z i) / 10000 == inject_Z i / 10000)%Q)
    by (rewrite EI; reflexivity).
  assert (Hq0 : (0 <= inject_Z m / inject_Z i)%Q)
    by (apply Qle_shift_div_l; [assumption|lra]).
  assert (Ht0 : (0 <= inject_Z i / 10000)%Q)
    by (apply Qle_shift_div_l; lra).
  rewrite <- Eq in Hq0. rewrite <- Et in Ht0.
  destruct (b64_bounds _ Hq0) as [Q1 Q2]. destruct (b64_bounds _ Ht0) as [T1 T2].
  pose proof (b64_nonneg _ Hq0) as Hq1. pose proof (b64_nonneg _ Ht0) as Ht1.
  assert (Hs0 : (0 <= b64 (b64 (inject_Z m) / b64 (inject_Z i))
                      + b64 (b64 (inject_Z i) / 10000))%Q) by lra.
  destruct (b64_bounds _ Hs0) as [S1 S2].
  set (s := b64 (_ + _)) in *.
  set (q := b64 (b64 (inject_Z m) / b64 (inject_Z i))) in *.
  set (e := b64 (b64 (inject_Z i) / 10000)) in *.
  set (x := (b64 (inject_Z m) / b64 (inject_Z i))%Q) in *.
  set (y := (b64 (inject_Z i) / 10000)%Q) in *.
  set (a := (inject_Z m / inject_Z i)%Q) in *.
  set (c := (inject_Z i / 10000)%Q) in *.
  clearbody s q e x y a c. unfold b64_unit in *. split; lra.
Qed.

(** The comparison of two scores of short sequences, cleared of its
    denominators: up to 100 tokens two scores that differ as rationals
    differ by far more than the roundings move them. *)
Lemma overlap_score_le_cross (i j : Z) :
  1 <= i <= 100 -> 1 <= j <= 100 -> matches_ i <= i -> matches_ j <= j ->
  (score_ i <= score_ j)%Q ->
  (10000 * matches_ i + i * i) * j <= (10000 * matches_ j + j * j) * i.
Proof.
  intros Hi Hj Hmi Hmj H.
  pose proof (overlap_matches_nonneg i) as Hmi0.
  pose proof (overlap_matches_nonneg j) as Hmj0.
  destruct (overlap_score_bounds i ltac:(lia) Hmi) as [Li _].
  destruct (overlap_score_bounds j ltac:(lia) Hmj) as [_ Uj].
  unfold overlap_score_exact in Li, Uj.
  set (mi := matches_ i) in *. set (mj := matches_ j) in *.
  assert (HI : (0 < inject_Z i)%Q) by (unfold Qlt, inject_Z; simpl; lia).
  assert (HJ : (0 < inject_Z j)%Q) by (unfold Qlt, inject_Z; simpl; lia).
  set (a := (inject_Z mi / inject_Z i)%Q) in *.
  set (b := (inject_Z mj / inject_Z j)%Q) in *.
  assert (Ha : (a * inject_Z i == inject_Z mi)%Q) by (unfold a; field; lra).
  assert (Hb : (b * inject_Z j == inject_Z mj)%Q) by (unfold b; field; lra).
  assert (E1 : (inject_Z i / 10000 == inject_Z i * (1 # 10000))%Q) by (field).
  assert (E2 : (inject_Z j / 10000 == inject_Z j * (1 # 10000))%Q) by (field).
  rewrite E1 in Li. rewrite E2 in Uj.
  set (si := score_ i) in *. set (sj := score_ j) in *.
  clearbody a b si sj. unfold b64_unit in *.
  assert (Hd : (0 <= (10000 * b + inject_Z j) * 81129638414606699710187514626049
                     - (10000 * a + inject_Z i) * 81129638414606663681390495662081)%Q)
    by lra.
  assert (Hprod : (0 <= inject_Z i * inject_Z j
                         * ((10000 * b + inject_Z j) * 81129638414606699710187514626049
                            - (10000 * a + inject_Z i) * 81129638414606663681390495662081))%Q).
  { apply Qmult_le_0_compat; [|exact Hd].
    apply Qlt_le_weak, Qmult_lt_0_compat; assumption. }
  assert (Hexp : (inject_Z i * inject_Z j
                  * ((10000 * b + inject_Z j) * 81129638414606699710187514626049
                     - (10000 * a + inject_Z i) * 81129638414606663681390495662081)
                  == (10000 * (b * inject_Z j) + inject_Z j * inject_Z j) * inject_Z i
                       * 81129638414606699710187514626049
                     - (10000 * (a * inject_Z i) + inject_Z i * inject_Z i) * inject_Z j
                       * 81129638414606663681390495662081)%Q)
    by ring.
  rewrite Hexp, Ha, Hb in Hprod.
  assert (Hz : (inject_Z ((10000 * mi + i * i) * j * 81129638414606663681390495662081)
                <= inject_Z ((10000 * mj + j * j) * i * 81129638414606699710187514626049))%Q).
  { rewrite !inject_Z_mult, !inject_Z_plus, !inject_Z_mult.
    change (inject_Z 10000) with 10000%Q.
    change (inject_Z 81129638414606663681390495662081)
      with 81129638414606663681390495662081%Q.
    change (inject_Z 81129638414606699710187514626049)
      with 81129638414606699710187514626049%Q.
    lra. }
  rewrite <- Zle_Qle in Hz.
  assert (HB : 0 <= (10000 * mj + j * j) * i <= 101000000) by nia.
  set (A := (10000 * mi + i * i) * j) in *.
  set (B := (10000 * mj + j * j) * i) in *.
  clearbody A B. lia.
Qed.

End PerfectOverlap.

(** X12, "epsilon to favor long perfect matches": when the accumulated sequence
    ends with the [k >= 2] tokens the new sequence starts with, and the new
    sequence has at most 100 tokens, the overlap that is cut off is a
    perfect match, no shorter than [k] and the longest perfect one. *)
Theorem lcs_longest_perfect_overlap (pre ov post : list Z) :
  (2 <= length ov)%nat -> (length (ov ++ post) <= 100)%nat ->
  let sequence := pre ++ ov in
  let new_sequence := ov ++ post in
  let j := lcs_index sequence new_sequence in
  py_len ov <= j <= py_len new_sequence
  /\ overlap_matches sequence new_sequence j = j
  /\ (forall i, 1 <= i <= py_len new_sequence ->
                overlap_matches sequence new_sequence i = i -> i <= j)
  /\ lcs_merge sequence new_sequence
     = sequence ++ drop (Z.to_nat j) new_sequence.
Proof.
  intros Hov Hshort sequence new_sequence j.
  set (k := py_len ov).
  assert (Hk : 2 <= k <= py_len new_sequence).
  { unfold k, new_sequence, py_len. rewrite length_app. lia. }
  assert (Hlen : py_len new_sequence <= 100)
    by (unfold py_len, new_sequence; lia).
  assert (Hperfect : overlap_matches sequence new_sequence k = k).
  { unfold overlap_matches, sequence, new_sequence, k.
    assert (Ha : py_slice (pre ++ ov) (Some (- py_len ov)) None = ov).
    { unfold py_slice, py_clamp, py_len. rewrite length_app.
      destruct (Z.ltb_spec (- Z.of_nat (length ov)) 0); [|lia].
      replace (Z.to_nat (Z.max _ 0)) with (length pre) by lia.
      rewrite drop_app_length. apply take_ge. lia. }
    assert (Hb : py_slice (ov ++ post) None (Some (py_len ov)) = ov).
    { unfold py_slice, py_clamp, py_len. rewrite length_app.
      destruct (Z.ltb_spec (Z.of_nat (length ov)) 0); [lia|].
      cbn [drop Z.to_nat].
      replace (Z.to_nat (Z.min _ _ - 0)) with (length ov) by lia.
      apply take_app_length. }
    rewrite Ha, Hb. apply np_eq_count_same. }
  destruct (lcs_index_best sequence new_sequence)
    as [(_ & Hnone)|(Hj & Hmj & Hbest & _)];
    [specialize (Hnone k ltac:(lia)); lia|].
  fold j in Hj, Hmj, Hbest.
  pose proof (overlap_matches_le sequence new_sequence j Hj) as Hmle.
  assert (Hcross := overlap_score_le_cross sequence new_sequence k j
                      ltac:(lia) ltac:(lia) ltac:(lia) Hmle
                      (Hbest k ltac:(lia) ltac:(lia))).
  rewrite Hperfect in Hcross.
  assert (Hmeq : overlap_matches sequence new_sequence j = j) by nia.
  assert (Hkj : k <= j) by (rewrite Hmeq in Hcross; nia).
  split; [lia|]. split; [exact Hmeq|]. split.
  - intros i Hi Hmi.
    destruct (decide (i = 1)) as [->|Hi1]; [lia|].
    assert (Hc := overlap_score_le_cross sequence new_sequence i j
                    ltac:(lia) ltac:(lia) ltac:(lia) Hmle
                    (Hbest i Hi ltac:(lia))).
    rewrite Hmi, Hmeq in Hc. nia.
  - unfold lcs_merge. fold j. f_equal.
    unfold py_slice, py_clamp.
    destruct (Z.ltb_spec j 0); [lia|].
    rewrite take_ge by (rewrite length_drop; unfold py_len in *; lia).
    f_equal. unfold py_len in *. lia.
Qed.

Lemma lcs_longest_perfect_overlap_witness :
  let sequence := [1; 2; 3] ++ [4; 5] in
  let new_sequence := [4; 5] ++ [6; 7] in
  let j := lcs_index sequence new_sequence in
  py_len [4; 5] <= j <= py_len new_sequence
  /\ overlap_matches sequence new_sequence j = j
  /\ (forall i, 1 <= i <= py_len new_sequence ->
                overlap_matches sequence new_sequence i = i -> i <= j)
  /\ lcs_merge sequence new_sequence
     = sequence ++ drop (Z.to_nat j) new_sequence.
Proof.
  apply (lcs_longest_perfect_overlap [1; 2; 3] [4; 5] [6; 7]); cbn; lia.
Defined.

(** ** More on parameter sanitization *)

(** X13: when [_sanitize_parameters] returns, the chunking parameters go to
    [preprocess] and the decoding parameters to [postprocess] unchanged,
    and the [generate_kwargs] handed to [_forward] hold exactly the caller's
    entries plus ["max_new_tokens"] when it was given as an argument. *)
Theorem sanitize_routes_parameters
    (chunk_length_s : option Q) (stride_length_s : option stride_length)
    (ignore_warning : option bool) (decoder_kwargs : option (gmap string pyval))
    (return_timestamps : option timestamps_kind)
    (generate_kwargs : option (gmap string pyval)) (max_new_tokens : option Z)
    (pp : preprocess_params) (fp : forward_params) (po : postprocess_params) :
  _sanitize_parameters chunk_length_s stride_length_s ignore_warning
    decoder_kwargs return_timestamps generate_kwargs max_new_tokens
    = Ok (pp, fp, po) ->
  pp = {| pp_chunk_length_s := chunk_length_s;
          pp_stride_length_s := stride_length_s;
          pp_ignore_warning := ignore_warning |}
  /\ po = {| po_decoder_kwargs := decoder_kwargs;
             po_return_timestamps := return_timestamps |}
  /\ forall k,
       fp_generate_kwargs fp !! k
       = match generate_kwargs ≫= (fun g => g !! k) with
         | Some v => Some v
         | None => if decide (k = "max_new_tokens")
                   then PInt <$> max_new_tokens else None
         end.
Proof.
  unfold _sanitize_parameters.
  assert (Hgk0 : forall k,
    (match max_new_tokens with
     | Some n => <["max_new_tokens" := PInt n]> (∅ : gmap string pyval)
     | None => ∅
     end) !! k
    = if decide (k = "max_new_tokens") then PInt <$> max_new_tokens else None).
  { intros k. destruct max_new_tokens as [n|]; cbn.
    - rewrite lookup_insert. repeat case_decide; try congruence.
      apply lookup_empty.
    - rewrite lookup_empty. by case_decide. }
  destruct generate_kwargs as [g|]; cbn [mbind option_bind].
  - destruct (bool_decide (is_Some max_new_tokens)
              && bool_decide (is_Some (g !! "max_new_tokens"))); [discriminate|].
    intros [= <- <- <-]. split; [reflexivity|]. split; [reflexivity|].
    intros k. cbn. rewrite lookup_union, Hgk0.
    destruct (g !! k) as [v|]; [|by case_decide; destruct max_new_tokens].
    by case_decide; destruct max_new_tokens.
  - intros [= <- <- <-]. split; [reflexivity|]. split; [reflexivity|].
    intros k. cbn. apply Hgk0.
Qed.

Lemma sanitize_routes_parameters_witness :
  exists pp fp po,
    _sanitize_parameters (Some 30%Q) None None None (Some TsWord)
      (Some (<["num_beams" := PInt 4]> ∅)) (Some 64)
    = Ok (pp, fp, po)
    /\ pp_chunk_length_s pp = Some 30%Q
    /\ po_return_timestamps po = Some TsWord
    /\ fp_generate_kwargs fp !! "max_new_tokens" = Some (PInt 64)
    /\ fp_generate_kwargs fp !! "num_beams" = Some (PInt 4).
Proof.
  edestruct (sanitize_routes_parameters (Some 30%Q) None None None (Some TsWord)
               (Some (<["num_beams" := PInt 4]> ∅)) (Some 64))
    as (Hpp & Hpo & Hgk); [reflexivity|].
  eexists _, _, _. split; [reflexivity|].
  split; [reflexivity|]. split; [reflexivity|].
  split; rewrite Hgk; reflexivity.
Defined.

(** ** More on dict inputs *)

Section DictInputs.

Variable resample : pyval -> pyval -> Z -> result pyval.
Variable sampling_rate : Z.

Local Abbreviation preprocess_dict_ := (preprocess_dict resample sampling_rate).

Lemma preprocess_dict_extra (d : gmap string pyval) (v : pyval)
    (st : option stride) (extra : gmap string pyval) :
  preprocess_dict_ d = Ok (v, st, extra) ->
  extra = delete "sampling_rate"
            (match d !! "raw" with
             | None | Some PNone =>
                 delete "array" (delete "raw" (delete "stride" d))
             | Some _ => delete "raw" (delete "stride" d)
             end).
Proof.
  unfold preprocess_dict.
  destruct (negb _); [discriminate|].
  rewrite (lookup_delete_ne d "stride" "raw") by done.
  destruct (d !! "raw") as [raw|]; [destruct raw|];
    cbv beta iota zeta delta [default id];
    (match goal with
     | |- context [differs_from_rate ?sr ?x] =>
         destruct (differs_from_rate sr x)
     end;
     [match goal with
      | |- context [resample ?a ?b ?c] => destruct (resample a b c) as [r1|]
      end; [|discriminate]; cbn [mbind result_bind rbind];
      match goal with
      | |- context [rate_over ?a ?b] => destruct (rate_over a b) as [r2|]
      end; [|discriminate]; cbn [mbind result_bind rbind]
     |cbn [mbind result_bind rbind]];
     match goal with
     | |- (?m ≫= _) = _ -> _ => destruct m as [sres|]; [|discriminate]
     end;
     cbn [mbind result_bind rbind]; intros [= _ _ <-]; reflexivity).
Qed.

(** The keys left over by the dict block are the caller's, minus
    ["stride"], ["raw"] and ["sampling_rate"]; ["array"] is taken out only
    when it served as the waveform. *)
Lemma preprocess_dict_leftover (d : gmap string pyval) (v : pyval)
    (st : option stride) (extra : gmap string pyval) :
  preprocess_dict_ d = Ok (v, st, extra) ->
  extra !! "stride" = None
  /\ extra !! "raw" = None
  /\ extra !! "sampling_rate" = None
  /\ extra !! "array" = match d !! "raw" with
                        | None | Some PNone => None
                        | Some _ => d !! "array"
                        end
  /\ forall k, k ∉ ["stride"; "raw"; "sampling_rate"; "array"] ->
               extra !! k = d !! k.
Proof.
  intros H. rewrite (preprocess_dict_extra d v st extra H). clear H.
  assert (Hcases :
    (forall k, match d !! "raw" with
               | None | Some PNone =>
                   delete "array" (delete "raw" (delete "stride" d))
               | Some _ => delete "raw" (delete "stride" d)
               end !! k
               = if decide (k = "array")
                 then match d !! "raw" with
                      | None | Some PNone => None
                      | Some _ => d !! "array"
                      end
                 else if decide (k = "raw") then None
                 else if decide (k = "stride") then None else d !! k)).
  { intros k. destruct (d !! "raw") as [[]|];
      rewrite !lookup_delete; repeat case_decide; congruence. }
  repeat split.
  - rewrite lookup_delete_ne, Hcases by done. reflexivity.
  - rewrite lookup_delete_ne, Hcases by done. reflexivity.
  - apply lookup_delete_eq.
  - rewrite lookup_delete_ne, Hcases by done. reflexivity.
  - intros k Hk.
    assert (k <> "stride" /\ k <> "raw" /\ k <> "sampling_rate" /\ k <> "array")
      as (H1 & H2 & H3 & H4).
    { repeat split; intros ->; apply Hk; set_solver. }
    rewrite lookup_delete_ne, Hcases by done.
    repeat case_decide; congruence.
Qed.

(** X15: with the sampling rate of the feature extractor, the waveform filed
    under ["raw"] is handed on as it is, without resampling, and the stride
    is kept in samples: [(n, left, right)] when [left + right] fits in the
    [n] samples, a [ValueError] when it does not.  Only a stride that is
    absent, [None] or a pair of integers is spoken of. *)
Theorem preprocess_dict_same_rate (d : gmap string pyval)
    (n : Z) (shape : list Z) (data : list sample) :
  d !! "sampling_rate" = Some (PInt sampling_rate) ->
  d !! "raw" = Some (PArray (n :: shape) data) ->
  let extra := delete "sampling_rate" (delete "raw" (delete "stride" d)) in
  match d !! "stride" with
  | None | Some PNone =>
      preprocess_dict_ d = Ok (PArray (n :: shape) data, None, extra)
  | Some (PTuple2 s0 s1) =>
      if n <? s0 + s1
      then preprocess_dict_ d = Raise (ValueError "Stride is too large for input")
      else preprocess_dict_ d
           = Ok (PArray (n :: shape) data, Some (n, s0, s1), extra)
  | Some _ => True
  end.
Proof.
  intros Hrate Hraw extra. unfold preprocess_dict.
  rewrite !lookup_delete_ne by done. rewrite Hrate, Hraw.
  rewrite !bool_decide_eq_true_2 by eauto.
  cbv beta iota zeta delta [andb orb negb default id].
  rewrite ?lookup_delete_ne by done. rewrite ?Hrate.
  cbv beta iota zeta delta [default id].
  unfold differs_from_rate. rewrite Z.eqb_refl. cbn [negb mbind result_bind rbind].
  destruct (d !! "stride") as [[| | | |s0 s1|]|]; cbn [default];
    try reflexivity; try exact I.
  cbn [shape0 mbind result_bind rbind].
  destruct (n <? s0 + s1); [reflexivity|].
  rewrite (py_round_int _ s0), (py_round_int _ s1) by ring.
  reflexivity.
Qed.

End DictInputs.

Section DictWindows.

Variables (feats : Type).
Variable read_source : string -> list Byte.byte.
Variable ffmpeg_read : list Byte.byte -> Z -> result pyval.
Variable resample : pyval -> pyval -> Z -> result pyval.
Variable feature_extractor : list sample -> processed feats.
Variable sampling_rate : Z.
Variable pipeline_type : model_type.
Variable inputs_to_logits_ratio : option Q.

Local Abbreviation preprocess_ :=
  (preprocess feats read_source ffmpeg_read resample feature_extractor
              sampling_rate pipeline_type inputs_to_logits_ratio).

(** X14: what [preprocess] yields for a dict input carries, without
    chunking, the caller's keys minus ["stride"], ["raw"] and
    ["sampling_rate"]; ["array"] is taken out only when it served as the
    waveform, so a dict that gives both ["raw"] and ["array"] passes its
    ["array"] on.  With chunking none of the caller's other keys is handed
    on. *)
Theorem preprocess_dict_extra_keys (d : gmap string pyval)
    (chunk_length_s : Q) (stride_length_s : option stride_length)
    (ignore_warning : bool) (w : window feats) :
  w ∈ fst (preprocess_ (InDict d) chunk_length_s stride_length_s
                       ignore_warning) ->
  if Qeq_bool chunk_length_s 0
  then w_extra w !! "stride" = None
       /\ w_extra w !! "raw" = None
       /\ w_extra w !! "sampling_rate" = None
       /\ w_extra w !! "array" = match d !! "raw" with
                                 | None | Some PNone => None
                                 | Some _ => d !! "array"
                                 end
       /\ forall k, k ∉ ["stride"; "raw"; "sampling_rate"; "array"] ->
                    w_extra w !! k = d !! k
  else w_extra w = ∅.
Proof.
  unfold preprocess, decode_input.
  destruct (preprocess_dict resample sampling_rate d)
    as [[[v st] extra]|e] eqn:Hd;
    [|intros Hw; by apply elem_of_nil in Hw].
  pose proof (preprocess_dict_leftover _ _ d v st extra Hd) as Hextra.
  destruct v as [| | | | |shape data];
    try (intros Hw; by apply elem_of_nil in Hw).
  destruct (negb (bool_decide (length shape = 1%nat)));
    [intros Hw; by apply elem_of_nil in Hw|].
  destruct (Qeq_bool chunk_length_s 0); cbn [negb].
  - destruct st as [st|];
      [destruct (bool_decide (pipeline_type = Seq2seq));
         [intros Hw; by apply elem_of_nil in Hw|]|];
      cbn [gen_yield fst]; intros Hw;
      apply list_elem_of_singleton in Hw as ->; exact Hextra.
  - destruct (chunk_sizes _ _ _ _) as [[[c l] r]|e];
      [|intros Hw; by apply elem_of_nil in Hw].
    destruct (c <? l + r); [intros Hw; by apply elem_of_nil in Hw|].
    unfold chunk_iter.
    destruct (py_range _ _ _) as [idxs|e];
      [|intros Hw; by apply elem_of_nil in Hw].
    intros Hw.
    pose proof (chunk_loop_stride_total feats feature_extractor data
                  (c - l - r) l r c idxs) as Hall.
    rewrite Forall_forall in Hall. by destruct (Hall w Hw) as (_ & ? & _).
Qed.

End DictWindows.

Lemma preprocess_dict_extra_keys_witness :
  let d : gmap string pyval :=
    <["raw" := PArray [2] (ramp 2)]>
      (<["array" := PArray [3] (ramp 3)]>
         (<["sampling_rate" := PInt 16000]> (<["id" := PInt 7]> ∅))) in
  exists w,
    demo_preprocess 16000 Ctc None (InDict d) 0 None false = ([w], None)
    /\ w_chunk w = ramp 2
    /\ w_extra w !! "array" = Some (PArray [3] (ramp 3))
    /\ w_extra w !! "id" = Some (PInt 7).
Proof.
  intros d. eexists. split; [reflexivity|].
  split; [reflexivity|].
  edestruct (preprocess_dict_extra_keys (list sample) (fun _ => [])
               (fun _ _ => Raise (ValueError "no decoder")) (fun v _ _ => Ok v)
               demo_feature_extractor 16000 Ctc None d 0%Q None false)
    as (_ & _ & _ & Harr & Hrest); [left|].
  split; [rewrite Harr; reflexivity|].
  rewrite Hrest; [reflexivity|].
  intros Hin. repeat (apply elem_of_cons in Hin as [Hin|Hin]; [discriminate Hin|]).
  by apply elem_of_nil in Hin.
Defined.

Lemma preprocess_dict_same_rate_witness :
  preprocess_dict (fun v _ _ => Raise TypeError) 16000
    (<["stride" := PTuple2 1 1]>
       (<["raw" := PArray [3] (ramp 3)]> (<["sampling_rate" := PInt 16000]> ∅)))
  = Ok (PArray [3] (ramp 3), Some (3, 1, 1), ∅).
Proof.
  pose proof (preprocess_dict_same_rate (fun v _ _ => Raise TypeError) 16000
    (<["stride" := PTuple2 1 1]>
       (<["raw" := PArray [3] (ramp 3)]> (<["sampling_rate" := PInt 16000]> ∅)))
    3 [] (ramp 3) eq_refl eq_refl) as H.
  exact H.
Defined.

(** ** Chunk and stride sizes *)

Lemma py_int_mult (k a : Z) : py_int (inject_Z k * inject_Z a) = k * a.
Proof. unfold py_int. cbn. apply Z.quot_1_r. Qed.

Lemma py_round_small (x : Q) : (0 <= x)%Q -> (x < 1 # 2)%Q -> py_round x = 0.
Proof.
  intros H0 H1.
  pose proof (py_round_nonneg x H0) as Hnn.
  pose proof (py_round_upper x) as Hup.
  assert (Hlt : (inject_Z (py_round x) < 1)%Q) by lra.
  unfold Qlt, inject_Z in Hlt. simpl in Hlt. lia.
Qed.

Section ChunkSizes.

Variable sampling_rate : Z.
Variable align_to : Z.
Hypothesis align_to_nonzero : align_to <> 0.

Local Abbreviation chunk_sizes_ :=
  (chunk_sizes sampling_rate (Some (inject_Z align_to))).

Lemma chunk_sizes_value (chunk_length_s : Q)
    (stride_length_s : option stride_length) :
  let aligned (seconds : Q) :=
    py_round (seconds * inject_Z sampling_rate / inject_Z align_to) * align_to in
  let s := match stride_length_s with
           | None => (chunk_length_s / 6, chunk_length_s / 6)%Q
           | Some (StrideNumber x) => (x, x)
           | Some (StridePair l r) => (l, r)
           end in
  chunk_sizes_ chunk_length_s stride_length_s
  = Ok (aligned chunk_length_s, aligned (fst s), aligned (snd s)).
Proof.
  assert (Ha : ~ (inject_Z align_to == 0)%Q)
    by (unfold Qeq, inject_Z; simpl; lia).
  unfold chunk_sizes. cbv beta iota zeta delta [default id].
  destruct stride_length_s as [[x|l r]|]; cbv beta iota zeta;
    rewrite !py_qdiv_ok by exact Ha;
    cbn [mbind result_bind rbind fst snd]; rewrite !py_int_mult; reflexivity.
Qed.

End ChunkSizes.

(** X16: with an integer [inputs_to_logits_ratio] other than 0, the chunk length
    and both strides in samples are always computed and are multiples of
    that ratio. *)
Theorem chunk_sizes_aligned (sampling_rate align_to : Z) (chunk_length_s : Q)
    (stride_length_s : option stride_length) :
  align_to <> 0 ->
  exists chunk_len stride_left stride_right,
    chunk_sizes sampling_rate (Some (inject_Z align_to))
                chunk_length_s stride_length_s
    = Ok (chunk_len, stride_left, stride_right)
    /\ (align_to | chunk_len) /\ (align_to | stride_left)
    /\ (align_to | stride_right).
Proof.
  intros Ha. rewrite (chunk_sizes_value sampling_rate align_to Ha).
  eexists _, _, _. split; [reflexivity|].
  repeat split; apply Z.divide_factor_r.
Qed.

Lemma chunk_sizes_aligned_witness :
  exists chunk_len stride_left stride_right,
    chunk_sizes 16000 (Some (inject_Z 320)) 10 (Some (StridePair 1 2))
    = Ok (chunk_len, stride_left, stride_right)
    /\ (320 | chunk_len) /\ (320 | stride_left) /\ (320 | stride_right).
Proof.
  apply (chunk_sizes_aligned 16000 320 10 (Some (StridePair 1 2))). lia.
Defined.

(** X17: with the default stride ([chunk_length_s / 6] on each side) and a
    positive integer ratio, the two strides are equal and never trip the
    guard of [preprocess]: twice the stride is at most the chunk length,
    and strictly less as soon as the chunk length is not 0. *)
Theorem chunk_sizes_default_stride (sampling_rate align_to : Z)
    (chunk_length_s : Q) :
  0 < align_to -> 0 <= sampling_rate -> (0 <= chunk_length_s)%Q ->
  exists chunk_len stride_len,
    chunk_sizes sampling_rate (Some (inject_Z align_to)) chunk_length_s None
    = Ok (chunk_len, stride_len, stride_len)
    /\ 0 <= stride_len
    /\ stride_len + stride_len <= chunk_len
    /\ (chunk_len <> 0 -> stride_len + stride_len < chunk_len).
Proof.
  intros Ha Hrate Hc.
  rewrite (chunk_sizes_value sampling_rate align_to ltac:(lia)).
  cbn [fst snd]. eexists _, _. split; [reflexivity|].
  set (x := (chunk_length_s * inject_Z sampling_rate / inject_Z align_to)%Q).
  set (y := (chunk_length_s / 6 * inject_Z sampling_rate / inject_Z align_to)%Q).
  assert (Ha' : (0 < inject_Z align_to)%Q) by (unfold Qlt, inject_Z; simpl; lia).
  assert (Hr' : (0 <= inject_Z sampling_rate)%Q)
    by (unfold Qle, inject_Z; simpl; lia).
  assert (Hx : (0 <= x)%Q).
  { unfold x. apply Qle_shift_div_l; [exact Ha'|].
    rewrite Qmult_0_l. apply Qmult_le_0_compat; assumption. }
  assert (Hxy : (y == x * (1 # 6))%Q) by (unfold x, y; field; lra).
  pose proof (py_round_lower x) as Hxl.
  pose proof (py_round_upper y) as Hyu.
  assert (Hy0 : 0 <= py_round y) by (apply py_round_nonneg; lra).
  assert (Hx0 : 0 <= py_round x) by (apply py_round_nonneg; exact Hx).
  assert (Hcmp : py_round y + py_round y <= py_round x
                 /\ (py_round x <> 0 -> py_round y + py_round y < py_round x)).
  { destruct (Qlt_le_dec (9 # 4) x) as [Hbig|Hsmall].
    - assert (H : (inject_Z (py_round y + py_round y) < inject_Z (py_round x))%Q).
      { rewrite inject_Z_plus. lra. }
      rewrite <- Zlt_Qlt in H. lia.
    - rewrite (py_round_small y) by lra. lia. }
  clearbody x y. destruct Hcmp as [Hle Hlt].
  split; [nia|]. split; [nia|].
  intros Hne. assert (py_round x <> 0) by nia. specialize (Hlt ltac:(assumption)). nia.
Qed.

Lemma chunk_sizes_default_stride_witness :
  exists chunk_len stride_len,
    chunk_sizes 16000 (Some (inject_Z 320)) 30 None
    = Ok (chunk_len, stride_len, stride_len)
    /\ 0 <= stride_len
    /\ stride_len + stride_len <= chunk_len
    /\ (chunk_len <> 0 -> stride_len + stride_len < chunk_len).
Proof.
  apply (chunk_sizes_default_stride 16000 320 30); [lia|lia|].
  intros H; discriminate H.
Defined.

(** ** More on postprocessing *)

Lemma mapM_result_ok {A B} (f : A -> result B) (l : list A) :
  Forall (fun a => exists b, f a = Ok b) l ->
  exists bs, mapM f l = Ok bs /\ length bs = length l.
Proof.
  induction 1 as [|a l [b Hb] _ (bs & Hbs & Hlen)].
  - exists []. split; reflexivity.
  - exists (b :: bs). cbn [mapM]. rewrite Hb, Hbs. split; [reflexivity|].
    cbn. by rewrite Hlen.
Qed.

Section PostprocessFacts.

Variables (feats logit : Type).
Variable sampling_rate : Z.
Variable pipeline_type : model_type.
Variable inputs_to_logits_ratio : option Q.
Variable model_generate : feats -> gmap string pyval -> list Z.
Variable model_logits : feats -> list logit.
Variable argmax : logit -> Z.
Variable all_special_ids : list Z.
Variable tokenizer_decode : list Z -> bool -> string.
Variable tokenizer_char_offsets : list Z -> bool -> list offset.
Variable tokenizer_word_offsets : list offset -> list offset.
Variable decode_beams : list logit -> gmap string pyval -> string * list offset.

Local Abbreviation forward_ :=
  (_forward feats logit pipeline_type inputs_to_logits_ratio
            model_generate model_logits argmax).
Local Abbreviation postprocess_ :=
  (postprocess logit sampling_rate pipeline_type inputs_to_logits_ratio
               all_special_ids tokenizer_decode tokenizer_char_offsets
               tokenizer_word_offsets decode_beams).
Local Abbreviation stitch_tokens_ :=
  (stitch_tokens logit pipeline_type all_special_ids).
Local Abbreviation stitch_logits_ := (stitch_logits logit pipeline_type).

(** X18: [postprocess] has nothing to concatenate when no window came through:
    it always ends in a [ValueError]. *)
Theorem postprocess_no_output
    (decoder_kwargs : option (gmap string pyval))
    (return_timestamps : option timestamps_kind) :
  exists msg,
    postprocess_ [] decoder_kwargs return_timestamps = Raise (ValueError msg).
Proof.
  unfold postprocess.
  destruct (bool_decide (is_Some return_timestamps) && _); [eexists; reflexivity|].
  destruct (bool_decide (return_timestamps = Some TsChar) && _);
    [eexists; reflexivity|].
  destruct (bool_decide (pipeline_type = CtcWithLM)); eexists; reflexivity.
Qed.

(** X19: the leftover keys of the model outputs come out grouped by key, the
    values of each key in the order of the outputs; a key that no output
    has is absent. *)
Theorem collect_extra_lookup (model_outputs : list (model_output logit))
    (k : string) :
  collect_extra logit model_outputs !! k
  = match omap (fun o => o_extra o !! k) model_outputs with
    | [] => None
    | vs => Some vs
    end.
Proof.
  unfold collect_extra.
  assert (Hgen : forall (acc : gmap string (list pyval)),
    foldl (fun acc o =>
             union_with (fun old new => Some (old ++ new)) acc
                        ((fun v => [v]) <$> o_extra o))
          acc model_outputs !! k
    = match acc !! k, omap (fun o => o_extra o !! k) model_outputs with
      | Some old, vs => Some (old ++ vs)
      | None, [] => None
      | None, vs => Some vs
      end).
  { induction model_outputs as [|o outs IH]; intros acc.
    - cbn. destruct (acc !! k); [by rewrite app_nil_r|reflexivity].
    - assert (Homap : omap (fun o => o_extra o !! k) (o :: outs)
                      = match o_extra o !! k with
                        | Some y => y :: omap (fun o => o_extra o !! k) outs
                        | None => omap (fun o => o_extra o !! k) outs
                        end) by reflexivity.
      rewrite Homap. cbn [foldl].
      rewrite IH, lookup_union_with, lookup_fmap.
      destruct (acc !! k) as [old|], (o_extra o !! k) as [v|]; cbn;
        try reflexivity.
      by rewrite <- app_assoc. }
  rewrite Hgen, lookup_empty. reflexivity.
Qed.

Lemma forward_payload_kind (w : window feats)
    (generate_kwargs : gmap string pyval) (n : nat) (o : model_output logit) :
  forward_ w generate_kwargs = (n, Ok o) ->
  if bool_decide (pipeline_type = CtcWithLM)
  then exists frames, o_payload o = Logits frames
  else exists toks, o_payload o = Tokens toks.
Proof.
  unfold _forward.
  destruct pipeline_type; cbn;
    [|destruct (p_key (w_processed w)); [discriminate|]..];
    repeat (match goal with
            | |- context [match ?x with _ => _ end] =>
                match x with
                | w_stride w => destruct (w_stride w)
                | inputs_to_logits_ratio => destruct inputs_to_logits_ratio
                end
            | |- context [py_qdiv ?a ?b] => destruct (py_qdiv a b)
            | |- context [rescale_one ?a ?b] => destruct (rescale_one a b)
            end; cbn);
    intros Hfw; inversion Hfw; subst; cbn; eexists; reflexivity.
Qed.

Lemma forward_extra (w : window feats)
    (generate_kwargs : gmap string pyval) (n : nat) (o : model_output logit) :
  forward_ w generate_kwargs = (n, Ok o) -> o_extra o = w_extra w.
Proof.
  unfold _forward.
  destruct pipeline_type; cbn;
    [|destruct (p_key (w_processed w)); [discriminate|]..];
    repeat (match goal with
            | |- context [match ?x with _ => _ end] =>
                match x with
                | w_stride w => destruct (w_stride w)
                | inputs_to_logits_ratio => destruct inputs_to_logits_ratio
                end
            | |- context [py_qdiv ?a ?b] => destruct (py_qdiv a b)
            | |- context [rescale_one ?a ?b] => destruct (rescale_one a b)
            end; cbn);
    intros Hfw; inversion Hfw; subst; reflexivity.
Qed.

Lemma collect_extra_absent (model_outputs : list (model_output logit))
    (k : string) :
  Forall (fun o => o_extra o !! k = None) model_outputs ->
  collect_extra logit model_outputs !! k = None.
Proof.
  intros Hall. unfold collect_extra.
  assert (Hgen : forall (acc : gmap string (list pyval)),
    acc !! k = None ->
    foldl (fun acc o =>
             union_with (fun old new => Some (old ++ new)) acc
                        ((fun v => [v]) <$> o_extra o))
          acc model_outputs !! k = None).
  { induction Hall as [|o outs Ho _ IH]; intros acc Hacc; [exact Hacc|].
    cbn [foldl]. apply IH.
    by rewrite lookup_union_with, lookup_fmap, Hacc, Ho. }
  apply Hgen, lookup_empty.
Qed.

(** X20: [postprocess] reads from each model output the key that [_forward]
    wrote: on one or more outputs of [_forward] for windows whose extra
    keys are none of the pipeline's own names, and with no timestamps
    asked for, it never fails; its result has no ["chunks"], and its
    other keys are the leftover keys of the outputs, none of which is one
    of the pipeline's names. *)
Theorem postprocess_after_forward
    (model_outputs : list (model_output logit))
    (generate_kwargs : gmap string pyval)
    (decoder_kwargs : option (gmap string pyval)) :
  model_outputs <> [] ->
  Forall (fun o => exists w n, own_keys_free (w_extra w)
                               /\ forward_ w generate_kwargs = (n, Ok o))
         model_outputs ->
  exists res,
    postprocess_ model_outputs decoder_kwargs None = Ok res
    /\ r_chunks res = None
    /\ r_extra res = collect_extra logit model_outputs
    /\ forall k, k ∈ pipeline_keys -> r_extra res !! k = None.
Proof.
  intros Hne Hall. unfold postprocess.
  rewrite (bool_decide_eq_false_2 (is_Some None)) by (intros [? [=]]).
  rewrite (bool_decide_eq_false_2 (None = Some TsChar)) by discriminate.
  cbn [andb].
  assert (Hkind : Forall (fun o =>
            if bool_decide (pipeline_type = CtcWithLM)
            then exists frames, o_payload o = Logits frames
            else exists toks, o_payload o = Tokens toks) model_outputs).
  { eapply Forall_impl; [exact Hall|].
    intros o (w & n & _ & Hfw). exact (forward_payload_kind _ _ _ _ Hfw). }
  assert (Hfree : forall k, k ∈ pipeline_keys ->
                            collect_extra logit model_outputs !! k = None).
  { intros k Hk. apply collect_extra_absent.
    eapply Forall_impl; [exact Hall|].
    intros o (w & n & Hw & Hfw). rewrite (forward_extra _ _ _ _ Hfw).
    unfold own_keys_free in Hw. rewrite Forall_forall in Hw. by apply Hw. }
  destruct (bool_decide (pipeline_type = CtcWithLM)) eqn:Ety.
  - assert (Hitems : exists items,
              final_items logit pipeline_type (get_logits logit) model_outputs
              = Ok items /\ length items = length model_outputs).
    { apply mapM_result_ok. eapply Forall_impl; [exact Hkind|].
      intros o [frames Ho]. unfold get_logits. rewrite Ho. cbn. eauto. }
    destruct Hitems as (items & Hitems & Hlen).
    unfold stitch_logits. rewrite Hitems. cbn [mbind result_bind rbind].
    destruct items as [|i items];
      [destruct model_outputs; [contradiction|discriminate]|].
    cbn [np_concatenate mbind result_bind rbind].
    destruct (decode_beams _ _) as [text word_offsets].
    cbn. eexists. split; [reflexivity|]. split; [reflexivity|].
    split; [reflexivity|exact Hfree].
  - assert (Hitems : exists items,
              final_items logit pipeline_type (get_tokens logit) model_outputs
              = Ok items /\ length items = length model_outputs).
    { apply mapM_result_ok. eapply Forall_impl; [exact Hkind|].
      intros o [toks Ho]. unfold get_tokens. rewrite Ho. cbn. eauto. }
    destruct Hitems as (items & Hitems & Hlen).
    unfold stitch_tokens. rewrite Hitems. cbn [mbind result_bind rbind].
    destruct items as [|i items];
      [destruct model_outputs; [contradiction|discriminate]|].
    destruct (bool_decide (is_Some _) && _);
      cbn; eexists; (split; [reflexivity|]); (split; [reflexivity|]);
      (split; [reflexivity|exact Hfree]).
Qed.

End PostprocessFacts.

Lemma postprocess_after_forward_witness :
  exists res,
    postprocess sample 16000 Ctc (Some 1%Q) [] (fun _ _ => "text")
      (fun _ _ => []) (fun o => o) (fun _ _ => ("", []))
      [{| o_is_last := true; o_payload := Tokens [0; 1; 2];
          o_stride := None; o_extra := <["id" := PInt 7]> ∅ |}] None None
    = Ok res
    /\ r_chunks res = None
    /\ r_extra res
       = collect_extra sample
           [{| o_is_last := true; o_payload := Tokens [0; 1; 2];
               o_stride := None; o_extra := <["id" := PInt 7]> ∅ |}]
    /\ forall k, k ∈ pipeline_keys -> r_extra res !! k = None.
Proof.
  apply (postprocess_after_forward (list sample) sample 16000 Ctc (Some 1%Q)
           (fun x _ => map py_round x) (fun x => x) py_round [] (fun _ _ => "text")
           (fun _ _ => []) (fun o => o) (fun _ _ => ("", [])) _ ∅ None).
  - discriminate.
  - constructor; [|constructor].
    exists {| w_offset := 0; w_chunk := ramp 3; w_is_last := true;
              w_stride := None;
              w_processed := demo_feature_extractor (ramp 3);
              w_extra := <["id" := PInt 7]> ∅ |}, 1%nat.
    split; [repeat constructor|reflexivity].
Defined.

(** ** More on timestamps *)

(** X21: with a non-negative ratio and a positive sampling rate, the timestamp
    block maps offsets whose first frame is not negative and not after
    the last one to as many chunks, with the same texts in the same
    order, each starting at or after 0 s and ending no earlier than it
    starts. *)
Theorem timestamp_chunks_ordered (sampling_rate : Z) (ratio : Q)
    (offsets : list offset) :
  0 < sampling_rate -> (0 <= ratio)%Q ->
  Forall (fun item => 0 <= start_offset item <= end_offset item) offsets ->
  exists cs,
    timestamp_chunks sampling_rate (Some ratio) offsets = Ok cs
    /\ map tc_text cs = map off_text offsets
    /\ Forall (fun c => (0 <= fst (tc_timestamp c) <= snd (tc_timestamp c))%Q) cs.
Proof.
  intros Hrate Hratio Hall.
  assert (Hr : (0 < inject_Z sampling_rate)%Q)
    by (unfold Qlt, inject_Z; simpl; lia).
  assert (Hcs : exists cs,
    project_offsets ratio (inject_Z sampling_rate) offsets = Ok cs
    /\ map tc_text cs = map off_text offsets
    /\ Forall (fun c => (0 <= fst (tc_timestamp c) <= snd (tc_timestamp c))%Q) cs).
  { unfold project_offsets.
    induction Hall as [|item offsets Hitem _ (cs & Hcs & Htext & Hord)].
    - exists []. repeat split; constructor.
    - cbn [mapM]. rewrite Hcs. unfold project_offset.
      rewrite !py_qdiv_ok by lra. cbn [mbind result_bind rbind].
      eexists (_ :: cs). split; [reflexivity|].
      split; [cbn; by rewrite Htext|].
      constructor; [|exact Hord]. cbn.
      assert (Hs : (0 <= inject_Z (start_offset item))%Q)
        by (unfold Qle, inject_Z; simpl; lia).
      assert (Hse : (inject_Z (start_offset item) <= inject_Z (end_offset item))%Q)
        by (rewrite <- Zle_Qle; lia).
      split.
      + apply Qle_shift_div_l; [exact Hr|]. rewrite Qmult_0_l.
        apply Qmult_le_0_compat; assumption.
      + apply Qle_shift_div_l; [exact Hr|].
        assert (E : (inject_Z (start_offset item) * ratio / inject_Z sampling_rate
                     * inject_Z sampling_rate
                     == inject_Z (start_offset item) * ratio)%Q) by (field; lra).
        rewrite E. apply Qmult_le_compat_r; assumption. }
  destruct Hcs as (cs & Hcs & Htext & Hord).
  exists cs. split; [|split; assumption].
  unfold timestamp_chunks. destruct offsets; [|exact Hcs].
  cbn in Hcs. injection Hcs as <-. reflexivity.
Qed.

Lemma timestamp_chunks_ordered_witness :
  exists cs,
    timestamp_chunks 16000 (Some 320%Q) [example_offset] = Ok cs
    /\ map tc_text cs = map off_text [example_offset]
    /\ Forall (fun c => (0 <= fst (tc_timestamp c) <= snd (tc_timestamp c))%Q) cs.
Proof.
  apply (timestamp_chunks_ordered 16000 320 [example_offset]).
  - lia.
  - intros H; discriminate H.
  - constructor; [cbn; lia|constructor].
Defined.

(** ** The number of windows *)

Lemma window_chain_count
    (feats : Type) (feature_extractor : list sample -> processed feats)
    (inputs : list sample) (chunk_len stride_left stride_right : Z)
    (i : Z) (ws : list (window feats)) :
  window_chain feats feature_extractor inputs chunk_len stride_left stride_right
               i ws ->
  let n := Z.of_nat (length ws) in
  let step := chunk_len - stride_left - stride_right in
  1 <= n
  /\ py_len inputs <= i + n * step + stride_left
  /\ (2 <= n -> i + (n - 1) * step + stride_left < py_len inputs).
Proof.
  intros Hchain.
  induction Hchain as [j w Hw Hlast|j w rest Hw Hlast Hchain IH]; cbn zeta in *;
    destruct Hw as (_ & _ & _ & His & _); rewrite Hlast in His; symmetry in His.
  - apply Z.leb_le in His. cbn [length]. lia.
  - apply Z.leb_gt in His. destruct IH as (H1 & H2 & H3).
    cbn [length]. rewrite Nat2Z.inj_succ.
    split; [lia|]. split; [lia|]. intros _.
    destruct (decide (Z.of_nat (length rest) = 1)) as [E|E].
    + rewrite E. lia.
    + specialize (H3 ltac:(lia)). lia.
Qed.

(** X7: [chunk_iter] yields as many windows as it takes steps to bring
    [n * step + stride_left] to the end of the waveform: the least such
    [n >= 1]. *)
Theorem chunk_iter_window_count
    (feats : Type) (feature_extractor : list sample -> processed feats)
    (inputs : list sample) (chunk_len stride_left stride_right : Z) :
  0 < py_len inputs ->
  0 <= stride_left -> 0 <= stride_right ->
  stride_left + stride_right < chunk_len ->
  let n := Z.of_nat (length (fst (chunk_iter feature_extractor inputs chunk_len
                                             stride_left stride_right))) in
  let step := chunk_len - stride_left - stride_right in
  1 <= n
  /\ py_len inputs <= n * step + stride_left
  /\ (2 <= n -> (n - 1) * step + stride_left < py_len inputs).
Proof.
  intros Hlen Hl Hr Hc.
  destruct (chunk_iter_chain feats feature_extractor inputs chunk_len
              stride_left stride_right Hl Hr Hc Hlen) as (ws & Hrun & Hchain).
  rewrite Hrun. cbn [fst].
  pose proof (window_chain_count _ _ _ _ _ _ _ _ Hchain) as H.
  cbn zeta in *. rewrite !Z.add_0_l in H. exact H.
Qed.

Lemma chunk_iter_window_count_witness :
  let n := Z.of_nat (length (fst (chunk_iter demo_feature_extractor (ramp 20)
                                             10 2 2))) in
  let step := 10 - 2 - 2 in
  1 <= n
  /\ py_len (ramp 20) <= n * step + 2
  /\ (2 <= n -> (n - 1) * step + 2 < py_len (ramp 20)).
Proof.
  apply (chunk_iter_window_count (list sample) demo_feature_extractor (ramp 20)
           10 2 2); [reflexivity|lia|lia|lia].
Defined.
